(** * Feature extraction for paired audio/video clips: a shallow embedding

    This development embeds [code/audio_video_features.py] and states the
    properties of its components: the label rasterizer
    ([labels_to_target], [events_to_target]), the video feature transform
    ([video3d_frames]), the shape of the log-mel transform, the archive
    builder ([calculate_feature_for_all_audio_files]) and the scalar reducer
    ([calculate_scalar]).

    Conventions.
    - A Python call that may raise is a value of [result]: [Ok v] or
      [Raise e], with [e] the exception class.
    - Dictionaries are [gmap]s; arrays indexed in place are lists with
      stdpp's lookup and insert, bounds checks written out.
    - Floating-point contents of arrays (samples, pixels, log-mel values)
      are kept abstract: an [ndarray] is a shape with an indexing function
      into an arbitrary type of values. Boolean targets are concrete.
    - The frame of a timestamp is computed as the code computes it, with
      the binary64 product, rounded to nearest even, of [SpecFloat]. *)

From Corelib Require SpecFloat.
From Stdlib Require Import ZArith QArith Qround Ascii.
From stdpp Require Import gmap strings list fin_maps pretty sorting.

Close Scope Q_scope.
Open Scope nat_scope.

Set Warnings "-clear-no-such-hyp".

(** ** Exceptions and results *)

Inductive exn : Type :=
| KeyError (key : string)
| IndexError
| ValueError
| TypeError
| AssertionError
| OSError (path : list string)
| CvError
| ParameterError.

Inductive result (A : Type) : Type :=
| Ok (a : A)
| Raise (e : exn).

Arguments Ok {A} a.
Arguments Raise {A} e.

Definition result_bind {A B : Type} (f : A → result B) (r : result A) : result B :=
  match r with
  | Ok a => f a
  | Raise e => Raise e
  end.

#[global] Instance result_mbind : MBind result := @result_bind.
#[global] Instance result_mret : MRet result := @Ok.

(** ** Labels *)

(** Modelled from the spec: [utilities.isnan] is not part of the sources.
    A label read from the metadata table is either the "missing/NaN"
    sentinel or a class name; the test [not isnan(label)] of the source
    is the match on [Name]. *)
Inductive label : Type :=
| Missing
| Name (s : string).


(** [lb_to_idx[label]]: Python's [dict.__getitem__]. *)
Definition dict_getitem {V : Type} (d : gmap string V) (k : string) : result V :=
  match d !! k with
  | Some v => Ok v
  | None => Raise (KeyError k)
  end.

(** ** Weak targets *)

(** [target[classes_id] = 1] on a one-dimensional array; the index comes
    from the class table and is a natural number. *)
Definition setitem1 (target : list bool) (i : nat) : result (list bool) :=
  if decide (i < length target) then Ok (<[i := true]> target)
  else Raise IndexError.

Fixpoint labels_loop (lb_to_idx : gmap string nat) (labels : list label)
    (target : list bool) : result (list bool) :=
  match labels with
  | [] => Ok target
  | lbl :: rest =>
      match lbl with
      | Missing => labels_loop lb_to_idx rest target
      | Name s =>
          classes_id ← dict_getitem lb_to_idx s;
          target' ← setitem1 target classes_id;
          labels_loop lb_to_idx rest target'
      end
  end.

Definition labels_to_target (labels : list label) (classes_num : nat)
    (lb_to_idx : gmap string nat) : result (list bool) :=
  labels_loop lb_to_idx labels (replicate classes_num false).

(** ** Strong targets *)

Record event_dict : Type := EventDict {
  event : label;
  onset : Q;
  offset : Q
}.

(** Python 3 [round] on a number: nearest integer, ties to the even one. *)
Definition py_round (x : Q) : Z :=
  let f := Qfloor x in
  match Qcompare (x - inject_Z f) (1 # 2) with
  | Lt => f
  | Gt => (f + 1)%Z
  | Eq => if Z.even f then f else (f + 1)%Z
  end.

(** Python floats are IEEE 754 binary64 numbers: 53 bits of mantissa,
    exponents below 1024, operations rounded to nearest even. *)
Definition prec : Z := 53.
Definition emax : Z := 1024.
Definition double : Type := SpecFloat.spec_float.

(** An integer as an unrounded binary number. *)
Definition integer (z : Z) : double :=
  match z with
  | Z0 => SpecFloat.S754_zero false
  | Zpos p => SpecFloat.S754_finite false p 0
  | Zneg p => SpecFloat.S754_finite true p 0
  end.

(** The conversion of a Python int to a float before a mixed product. *)
Definition double_of_Z (z : Z) : double :=
  SpecFloat.binary_normalize prec emax z 0 false.

(** A timestamp [t : Q] of an event stands for the double nearest to [t],
    the value [float] gives for the decimal of the metadata: the quotient
    of numerator and denominator, rounded once. *)
Definition double_of_Q (t : Q) : double :=
  SpecFloat.SFdiv prec emax (integer (Qnum t)) (integer (Zpos (Qden t))).

(** The exact value of a finite double. Timestamps are seconds within a
    recording and [frames_per_second] is a frame rate, so their product is
    finite; a product that overflows, on which Python's [round] raises
    [OverflowError], is outside the model and counts as 0 here. *)
Definition Q_of_double (x : double) : Q :=
  match x with
  | SpecFloat.S754_finite s m e =>
      let v := if (0 <=? e)%Z then inject_Z (Zpos m * 2 ^ e)
               else Qmake (Zpos m) (2 ^ Z.to_pos (- e)) in
      if s then Qopp v else v
  | SpecFloat.S754_zero _ => 0%Q
  | SpecFloat.S754_infinity _ | SpecFloat.S754_nan => 0%Q
  end.

(** [int(round(t * frames_per_second))]: the product is the binary64
    product of the two doubles; [round] then acts on the exact value of
    that double. *)
Definition frame_of_seconds (t : Q) (frames_per_second : Z) : Z :=
  py_round (Q_of_double
              (SpecFloat.SFmul prec emax (double_of_Q t) (double_of_Z frames_per_second))).

Definition onset_frame (frames_per_second : Z) (e : event_dict) : Z :=
  frame_of_seconds (onset e) frames_per_second.

Definition offset_frame (frames_per_second : Z) (e : event_dict) : Z :=
  (frame_of_seconds (offset e) frames_per_second + 1)%Z.

(** A bound of a slice [a:b] over an axis of length [n], as numpy adjusts
    it: a negative bound counts from the end, and the result is clamped to
    [0, n]. *)
Definition slice_index (i : Z) (n : nat) : nat :=
  let i' := if (i <? 0)%Z then (i + Z.of_nat n)%Z else i in
  Z.to_nat (Z.max 0 (Z.min i' (Z.of_nat n))).

(** [target[start : stop, col] = 1] on an array of shape
    [(length target, ncols)]. *)
Definition setitem_rows (ncols : nat) (target : list (list bool))
    (start stop : Z) (col : nat) : result (list (list bool)) :=
  if decide (col < ncols) then
    let a := slice_index start (length target) in
    let b := slice_index stop (length target) in
    Ok (imap (λ f row, if decide (a ≤ f < b) then <[col := true]> row else row)
             target)
  else Raise IndexError.

Fixpoint events_loop (classes_num : nat) (frames_per_second : Z)
    (lb_to_idx : gmap string nat) (events : list event_dict)
    (target : list (list bool)) : result (list (list bool)) :=
  match events with
  | [] => Ok target
  | ev :: rest =>
      match event ev with
      | Missing => events_loop classes_num frames_per_second lb_to_idx rest target
      | Name s =>
          class_id ← dict_getitem lb_to_idx s;
          target' ← setitem_rows classes_num target
                      (onset_frame frames_per_second ev)
                      (offset_frame frames_per_second ev) class_id;
          events_loop classes_num frames_per_second lb_to_idx rest target'
      end
  end.

Definition events_to_target (events : list event_dict)
    (frames_num classes_num : nat) (frames_per_second : Z)
    (lb_to_idx : gmap string nat) : result (list (list bool)) :=
  events_loop classes_num frames_per_second lb_to_idx events
    (replicate frames_num (replicate classes_num false)).

(** Cell [(f, c)] of a boolean matrix; cells outside the matrix read as
    unset. *)
Definition bit (t : list (list bool)) (f c : nat) : bool :=
  default false (t !! f ≫= λ row, row !! c).

Definition has_shape (frames_num classes_num : nat) (t : list (list bool)) : Prop :=
  length t = frames_num ∧ Forall (λ row, length row = classes_num) t.

(** A label the class table can place: the sentinel, or a name whose index
    lies inside the target. *)
Definition known (classes_num : nat) (lb_to_idx : gmap string nat) (l : label) : Prop :=
  match l with
  | Missing => True
  | Name s => ∃ c, lb_to_idx !! s = Some c ∧ c < classes_num
  end.

Definition event_known (classes_num : nat) (lb_to_idx : gmap string nat)
    (e : event_dict) : Prop :=
  known classes_num lb_to_idx (event e).

(** An event whose frame bounds are not negative (a missing event is never
    rasterized, so its timestamps do not matter). *)
Definition event_in_clip (frames_per_second : Z) (e : event_dict) : Prop :=
  match event e with
  | Missing => True
  | Name _ =>
      (0 ≤ onset_frame frames_per_second e)%Z ∧
      (0 ≤ offset_frame frames_per_second e)%Z
  end.

(** The cells the specification asks for: [(f, c)] lies in the matrix and
    some named event of class [c] covers frame [f]. *)
Definition covered (lb_to_idx : gmap string nat) (frames_per_second : Z)
    (events : list event_dict) (f c : nat) : Prop :=
  ∃ e s, e ∈ events ∧ event e = Name s ∧ lb_to_idx !! s = Some c ∧
         (onset_frame frames_per_second e ≤ Z.of_nat f
            < offset_frame frames_per_second e)%Z.

(** ** Arrays with abstract contents *)

(** A numpy array of floats or pixels: its shape and the value at each
    multi-index. Only indices inside the shape are meaningful. *)
Record ndarray (V : Type) : Type := NDArray {
  shape : list nat;
  item : list nat → V
}.

Arguments NDArray {V} shape item.
Arguments shape {V} _.
Arguments item {V} _ _.

(** The position of axis [p] in the axis list of a transposition. *)
Fixpoint axis_position (p : nat) (axes : list nat) : nat :=
  match axes with
  | [] => 0
  | a :: rest => if decide (a = p) then 0 else S (axis_position p rest)
  end.

(** [a.transpose(axes)]: numpy rejects an axis list whose length is not the
    number of dimensions, that names an axis out of range, or that repeats
    an axis. *)
Definition transpose {V : Type} (a : ndarray V) (axes : list nat) : result (ndarray V) :=
  let ndim := length (shape a) in
  if decide (length axes = ndim ∧ Forall (λ i, i < ndim) axes ∧ NoDup axes) then
    Ok {| shape := (λ i, default 0 (shape a !! i)) <$> axes;
          item := λ idx,
            item a ((λ p, default 0 (idx !! axis_position p axes)) <$> seq 0 ndim) |}
  else Raise ValueError.

(** [np.array(l)] for a list of arrays of one common shape: a new leading
    axis indexes the list. The empty list gives an array of shape [(0,)]. *)
Definition np_array {V : Type} (dflt : V) (l : list (ndarray V)) : ndarray V :=
  match l with
  | [] => {| shape := [0]; item := λ _, dflt |}
  | a :: _ =>
      {| shape := length l :: shape a;
         item := λ idx,
           match idx with
           | [] => dflt
           | k :: idx' => from_option (λ x, item x idx') dflt (l !! k)
           end |}
  end.

(** [a[0 : stop]] along the first axis. *)
Definition slice0 {V : Type} (a : ndarray V) (stop : nat) : ndarray V :=
  match shape a with
  | [] => a
  | n :: rest => {| shape := Nat.min stop n :: rest; item := item a |}
  end.

(** ** Video feature transform *)

(** A decoded BGR frame: [img_rows] x [img_cols] pixels of three channels. *)
Record image (V : Type) : Type := Image {
  img_rows : nat;
  img_cols : nat;
  img_pixel : nat → nat → nat → V
}.

Arguments Image {V} img_rows img_cols img_pixel.
Arguments img_rows {V} _.
Arguments img_cols {V} _.
Arguments img_pixel {V} _ _ _ _.

(** A video file as the decoder sees it: the frame count the container
    reports, and for each frame index the decoded frame when there is one.
    A missing or unreadable file reports no frame and decodes none. *)
Record video (V : Type) : Type := Video {
  nframes : nat;
  decode : nat → option (image V)
}.

Arguments Video {V} nframes decode.
Arguments nframes {V} _.
Arguments decode {V} _ _.

(** The decoder handle [cv2.VideoCapture]. *)
Record VideoCapture (V : Type) : Type := Capture {
  source : video V;
  pos_frames : nat;
  released : bool
}.

Arguments Capture {V} source pos_frames released.
Arguments source {V} _.
Arguments pos_frames {V} _.
Arguments released {V} _.

Section VideoFeatureExtractor.

Context {V : Type}.

(** Contents that OpenCV computes and this development leaves abstract:
    the bicubic interpolation of [cv2.resize], the luminance of
    [cv2.cvtColor], and a default value for cells that are never read. *)
Variable resize_pixel : image V → nat → nat → nat → nat → nat → V.
Variable gray_pixel : image V → nat → nat → V.
Variable dflt : V.

Definition cv2_VideoCapture (file : video V) : VideoCapture V :=
  {| source := file; pos_frames := 0; released := false |}.

(** [cap.get(cv2.CAP_PROP_FRAME_COUNT)] *)
Definition cap_get_frame_count (cap : VideoCapture V) : Q :=
  if released cap then 0%Q else inject_Z (Z.of_nat (nframes (source cap))).

(** [cap.set(cv2.CAP_PROP_POS_FRAMES, p)]: the decoder seeks to the frame
    whose index is [p] truncated. *)
Definition cap_set_pos_frames (cap : VideoCapture V) (p : Q) : VideoCapture V :=
  {| source := source cap; pos_frames := Z.to_nat (Qfloor p);
     released := released cap |}.

(** [cap.read()]: the frame at the current position, [None] when there is
    none; a successful read advances the position. *)
Definition cap_read (cap : VideoCapture V) : VideoCapture V * option (image V) :=
  if released cap then (cap, None)
  else
    match decode (source cap) (pos_frames cap) with
    | Some frame =>
        ({| source := source cap; pos_frames := S (pos_frames cap);
            released := released cap |}, Some frame)
    | None => (cap, None)
    end.

Definition cap_release (cap : VideoCapture V) : VideoCapture V :=
  {| source := source cap; pos_frames := pos_frames cap; released := true |}.

(** [cv2.resize(frame, dsize, interpolation=cv2.INTER_CUBIC)] with
    [dsize = (dsize_width, dsize_height)]: the result has [dsize_height]
    rows and [dsize_width] columns. OpenCV raises on a frame that is
    [None] and on an empty [dsize]. *)
Definition cv2_resize (frame : option (image V)) (dsize : nat * nat) : result (image V) :=
  match frame with
  | None => Raise CvError
  | Some src =>
      let '(dsize_width, dsize_height) := dsize in
      if decide (0 < dsize_width ∧ 0 < dsize_height) then
        Ok {| img_rows := dsize_height; img_cols := dsize_width;
              img_pixel := resize_pixel src dsize_width dsize_height |}
      else Raise CvError
  end.

(** A BGR frame as the numpy array OpenCV hands to Python. *)
Definition bgr_array (frame : image V) : ndarray V :=
  {| shape := [img_rows frame; img_cols frame; 3];
     item := λ idx,
       match idx with
       | [r; c; ch] => img_pixel frame r c ch
       | _ => dflt
       end |}.

(** [cv2.cvtColor(frame, cv2.COLOR_BGR2GRAY)]: a two-dimensional array. *)
Definition cvtColor_BGR2GRAY (frame : image V) : ndarray V :=
  {| shape := [img_rows frame; img_cols frame];
     item := λ idx,
       match idx with
       | [r; c] => gray_pixel frame r c
       | _ => dflt
       end |}.

(** The body of [for i in range(depth)], run over the positions
    [frames[0], ..., frames[depth - 1]]; an exception leaves the loop with
    the handle in the state it then has. *)
Fixpoint read_frames (width height : nat) (color : bool) (frames : list Q)
    (cap : VideoCapture V) (framearray : list (ndarray V))
    : VideoCapture V * result (list (ndarray V)) :=
  match frames with
  | [] => (cap, Ok framearray)
  | p :: rest =>
      let cap := cap_set_pos_frames cap p in
      let '(cap, frame) := cap_read cap in
      match cv2_resize frame (height, width) with
      | Raise e => (cap, Raise e)
      | Ok frame =>
          if color then
            read_frames width height color rest cap (framearray ++ [bgr_array frame])
          else
            read_frames width height color rest cap
              (framearray ++ [cvtColor_BGR2GRAY frame])
      end
  end.

(** The frame positions [frames] of the source. *)
Definition frame_positions (nframe : Q) (depth : nat) (skip : bool) : list Q :=
  if skip then
    (λ x, (inject_Z (Z.of_nat x) * nframe / inject_Z (Z.of_nat depth))%Q) <$> seq 0 depth
  else
    (λ x, inject_Z (Z.of_nat x)) <$> seq 0 depth.

(** [video3d_frames]; the result is paired with the final state of the
    decoder handle the call created. *)
Definition video3d_frames (file : video V) (width height depth : nat)
    (color skip : bool) : VideoCapture V * result (ndarray V) :=
  let cap := cv2_VideoCapture file in
  let nframe := cap_get_frame_count cap in
  let frames := frame_positions nframe depth skip in
  match read_frames width height color frames cap [] with
  | (cap, Raise e) => (cap, Raise e)
  | (cap, Ok framearray) =>
      let cap := cap_release cap in
      let X := np_array dflt framearray in
      if color then (cap, transpose X [1; 2; 0; 3])
      else (cap, transpose X [1; 2; 0; 0])
  end.

(** The shape of one frame as the loop appends it. *)
Definition frame_shape (width height : nat) (color : bool) : list nat :=
  if color then [width; height; 3] else [width; height].

(** The frame indices the decoder seeks to, in order. *)
Definition selected_frames (file : video V) (depth : nat) (skip : bool) : list nat :=
  (λ p, Z.to_nat (Qfloor p))
    <$> frame_positions (cap_get_frame_count (cv2_VideoCapture file)) depth skip.

(** Every iteration of the loop succeeds: the target size is not empty and
    each selected frame can be decoded. *)
Definition all_frames_readable (file : video V) (width height depth : nat)
    (skip : bool) : Prop :=
  Forall (λ k, 0 < width ∧ 0 < height ∧ is_Some (decode file k))
         (selected_frames file depth skip).

End VideoFeatureExtractor.

(** ** Configuration *)

(** The constants of the [config] module, which is not part of the
    sources: they are parameters of the development. *)
Module config.

Record t : Type := Config {
  sample_rate : nat;
  window_size : nat;
  hop_size : nat;
  mel_bins : nat;
  fmin : nat;
  fmax : nat;
  frames_per_second : nat;
  frames_num : nat;
  total_samples : nat;
  classes_num : nat;
  lb_to_idx : gmap string nat;
  video_fps : nat;
  video_feature_dim : nat
}.

End config.

(** ** Audio feature transform *)

(** The fields of a [LogMelExtractor]; the mel filter bank [melW] has shape
    [(window_size / 2 + 1, mel_bins)] and is determined by the fields. *)
Record LogMelExtractor : Type := MkLogMelExtractor {
  ext_sample_rate : nat;
  ext_window_size : nat;
  ext_hop_size : nat;
  ext_mel_bins : nat;
  ext_fmin : nat;
  ext_fmax : nat
}.

(** [LogMelExtractor(sample_rate=config.sample_rate, ...)] *)
Definition new_LogMelExtractor (cfg : config.t) : LogMelExtractor :=
  {| ext_sample_rate := config.sample_rate cfg;
     ext_window_size := config.window_size cfg;
     ext_hop_size := config.hop_size cfg;
     ext_mel_bins := config.mel_bins cfg;
     ext_fmin := config.fmin cfg;
     ext_fmax := config.fmax cfg |}.

(** Modelled from the spec: [utilities.pad_truncate_sequence] is not part
    of the sources. The audio is zero-padded or truncated to exactly
    [max_len] samples. *)
Definition pad_truncate_sequence {V : Type} (zero : V) (x : list V) (max_len : nat) : list V :=
  if decide (length x < max_len) then x ++ replicate (max_len - length x) zero
  else take max_len x.

(** The number of frames of a centred STFT over [len] samples: for an even
    [n_fft] this is [1 + len // hop_length]. *)
Definition stft_frames (n_fft hop_length len : nat) : nat :=
  1 + (len + 2 * (n_fft / 2) - n_fft) / hop_length.

Section LogMel.

Context {V : Type}.

(** The value librosa computes for frame [t] and mel band [m] of an audio
    signal: centred STFT with a Hann window, squared magnitude, projection
    on the mel filter bank, [power_to_db] with [ref = 1.0], [amin = 1e-10]
    and [top_db = None], cast to [float32]. Floating-point arithmetic is
    not modelled; the value is a parameter. *)
Variable logmel_value : LogMelExtractor → list V → nat → nat → V.
Variable dflt : V.

(** [librosa.core.stft] with [center=True] pads the signal with
    [n_fft // 2] samples on each side and yields one frame of
    [n_fft // 2 + 1] bins per hop that fits; [stft_matrix] is its
    transpose. *)
Definition stft_matrix_shape (self : LogMelExtractor) (audio : list V) : list nat :=
  [stft_frames (ext_window_size self) (ext_hop_size self) (length audio);
   ext_window_size self / 2 + 1].

(** [np.dot] of an [(N, B)] array with the [(B, mel_bins)] filter bank. *)
Definition mel_spectrogram_shape (self : LogMelExtractor) (audio : list V) : list nat :=
  match stft_matrix_shape self audio with
  | [N; _] => [N; ext_mel_bins self]
  | s => s
  end.

(** [librosa.core.stft] rejects a window or a hop that is not positive
    ([ParameterError]), and the reflect padding of [np.pad] rejects an
    empty signal ([ValueError]); the parameters are looked at first. *)
Definition transform (self : LogMelExtractor) (audio : list V) : result (ndarray V) :=
  if decide (ext_window_size self = 0 ∨ ext_hop_size self = 0) then Raise ParameterError
  else
    match audio with
    | [] => Raise ValueError
    | _ :: _ =>
        Ok {| shape := mel_spectrogram_shape self audio;
              item := λ idx,
                match idx with
                | [t; m] => logmel_value self audio t m
                | _ => dflt
                end |}
    end.

End LogMel.

(** ** The feature archive *)

(** A resizable HDF5 dataset: the fixed shape of one row and the rows. *)
Record dataset (A : Type) : Type := Dataset {
  row_shape : list nat;
  rows : list A
}.

Arguments Dataset {A} row_shape rows.
Arguments row_shape {A} _.
Arguments rows {A} _.

(** The datasets of the HDF5 file, named as in the file: [h5.feature hf]
    is [hf['feature']]. *)
Module h5.

Record file (V : Type) : Type := File {
  audio_name : list string;
  feature : dataset (ndarray V);
  video_name : list string;
  video_feature : dataset (ndarray V);
  weak_target : option (dataset (list bool));
  strong_target : option (dataset (list (list bool)))
}.

Arguments File {V} _ _ _ _ _ _.
Arguments audio_name {V} _.
Arguments feature {V} _.
Arguments video_name {V} _.
Arguments video_feature {V} _.
Arguments weak_target {V} _.
Arguments strong_target {V} _.

End h5.

(** [dset.resize((n, ...))]: rows beyond [n] are dropped, new rows hold the
    fill value. *)
Definition ds_resize {A : Type} (fill : A) (n : nat) (d : dataset A) : dataset A :=
  {| row_shape := row_shape d;
     rows := take n (rows d) ++ replicate (n - length (rows d)) fill |}.

(** [dset[n] = v] for a value [v] already of the row shape. *)
Definition ds_setitem {A : Type} (n : nat) (v : A) (d : dataset A) : result (dataset A) :=
  if decide (n < length (rows d)) then
    Ok {| row_shape := row_shape d; rows := <[n := v]> (rows d) |}
  else Raise IndexError.

(** Broadcasting of a value to the shape of a row: shapes are aligned on
    their last axis, and a source axis must have the length of the target
    axis or length one. *)
Fixpoint broadcastable_rev (src dst : list nat) : bool :=
  match src, dst with
  | [], _ => true
  | s :: src', d :: dst' =>
      (bool_decide (s = d) || bool_decide (s = 1)) && broadcastable_rev src' dst'
  | _ :: _, [] => false
  end.

Definition broadcast_index (src idx : list nat) : list nat :=
  zip_with (λ s i, if decide (s = 1) then 0 else i) src
           (drop (length idx - length src) idx).

Definition broadcast_to {V : Type} (dst : list nat) (v : ndarray V) : result (ndarray V) :=
  if broadcastable_rev (reverse (shape v)) (reverse dst) then
    Ok {| shape := dst; item := λ idx, item v (broadcast_index (shape v) idx) |}
  else Raise TypeError.

(** [hf[name].resize((n + 1, ...)); hf[name][n] = v] on an array dataset. *)
Definition append_array {V : Type} (fill : V) (n : nat) (v : ndarray V)
    (d : dataset (ndarray V)) : result (dataset (ndarray V)) :=
  let d := ds_resize {| shape := row_shape d; item := λ _, fill |} (S n) d in
  row ← broadcast_to (row_shape d) v;
  ds_setitem n row d.

(** The same on the boolean datasets; the value must have the row shape. *)
Definition append_weak (n : nat) (v : list bool) (d : dataset (list bool))
    : result (dataset (list bool)) :=
  let d := ds_resize (replicate (default 0 (row_shape d !! 0)) false) (S n) d in
  if decide (row_shape d = [length v]) then ds_setitem n v d else Raise TypeError.

Definition append_strong (n : nat) (v : list (list bool))
    (d : dataset (list (list bool))) : result (dataset (list (list bool))) :=
  let fr := default 0 (row_shape d !! 0) in
  let cl := default 0 (row_shape d !! 1) in
  let d := ds_resize (replicate fr (replicate cl false)) (S n) d in
  if decide (row_shape d = [fr; cl] ∧ has_shape fr cl v) then ds_setitem n v d
  else Raise TypeError.

(** [hf[name][:]]: the whole dataset as one array. *)
Definition ds_read {V : Type} (dflt : V) (d : dataset (ndarray V)) : ndarray V :=
  {| shape := length (rows d) :: row_shape d;
     item := λ idx,
       match idx with
       | [] => dflt
       | i :: idx' => from_option (λ row, item row idx') dflt (rows d !! i)
       end |}.

(** [row] is what a write of the computed value [r] stores in a dataset
    whose rows have shape [rs]. *)
Definition stored {V : Type} (rs : list nat) (r : result (ndarray V)) (row : ndarray V) : Prop :=
  ∃ v, r = Ok v ∧ broadcast_to rs v = Ok row.

(** The number of rows of an optional dataset is [n] when it is present. *)
Definition leading_dim {A : Type} (d : option (dataset A)) (n : nat) : Prop :=
  ∀ d', d = Some d' → length (rows d') = n.

(** An optional dataset that was given [k] more rows, and is absent when
    it was absent. *)
Definition grown {A : Type} (k : nat) (d d' : option (dataset A)) : Prop :=
  match d, d' with
  | Some x, Some x' =>
      row_shape x' = row_shape x ∧
      ∃ new, rows x' = rows x ++ new ∧ length new = k
  | None, None => True
  | _, _ => False
  end.

(** ** Item names *)

(** Python's order on [str] restricted to byte strings, and [sorted]. *)
Definition string_le (s1 s2 : string) : Prop := String.leb s1 s2 = true.

#[global] Instance string_le_dec (s1 s2 : string) : Decision (string_le s1 s2).
Proof. unfold string_le. apply _. Defined.

Definition sorted (l : list string) : list string := merge_sort string_le l.

(** [s.replace('.wav', '.avi')]: every occurrence, from left to right. *)
Fixpoint replace_wav_avi (s : string) : string :=
  match s with
  | String "."%char (String "w"%char (String "a"%char (String "v"%char rest))) =>
      String "."%char (String "a"%char (String "v"%char (String "i"%char
        (replace_wav_avi rest))))
  | String c rest => String c (replace_wav_avi rest)
  | EmptyString => EmptyString
  end.

(** The dtype ['S64']: a name is stored as its first 64 bytes. *)
Definition S64 (s : string) : string := String.substring 0 64 s.

(** The labels [read_metadata] attaches to one clip. *)
Record clip_labels : Type := ClipLabels {
  weak_labels : list label;
  strong_labels : list event_dict
}.

(** ** Paths *)

(** A path is the list of the components given to [os.path.join]. *)
Definition path : Type := list string.

Definition prefix_of_mini_data (mini_data : bool) : string :=
  if mini_data then "minidata_" else "".

(** ['{}logmel_{}frames_{}melbins'.format(prefix, frames_per_second, mel_bins)] *)
Definition logmel_dir (cfg : config.t) (mini_data : bool) : string :=
  prefix_of_mini_data mini_data +:+ "logmel_"
    +:+ pretty (config.frames_per_second cfg) +:+ "frames_"
    +:+ pretty (config.mel_bins cfg) +:+ "melbins".

Definition feature_path (cfg : config.t) (workspace : string) (mini_data : bool)
    (relative_name : string) : path :=
  [workspace; "features"; logmel_dir cfg mini_data; relative_name +:+ ".h5"].

Definition scalar_path (cfg : config.t) (workspace : string) (mini_data : bool)
    (relative_name : string) : path :=
  [workspace; "scalars"; logmel_dir cfg mini_data; relative_name +:+ ".h5"].

(** [os.path.dirname] *)
Definition dirname (p : path) : path := take (length p - 1) p.

(** ** Archive builder *)

Section ArchiveBuilder.

Context {V : Type}.

(** The float [0.0] (zero padding, fill value of new rows) and the
    contents computed by OpenCV and librosa. *)
Variable zero : V.
Variable resize_pixel : image V → nat → nat → nat → nat → nat → V.
Variable gray_pixel : image V → nat → nat → V.
Variable logmel_value : LogMelExtractor → list V → nat → nat → V.

(** External collaborators: the audio loader [utilities.read_audio], the
    video files on disk, [utilities.read_metadata],
    [utilities.get_relative_path_no_extension], and the shuffle of
    [np.random.RandomState(1234)]. *)
Variable read_audio : path → nat → result (list V).
Variable open_video : path → video V.
Variable read_metadata : path → result (gmap string clip_labels * bool * bool).
Variable get_relative_path_no_extension : string → string.
Variable shuffle : list string → list string.

Variable cfg : config.t.

(** What the loop computes for one clip before it writes anything. *)
Definition audio_feature (feature_extractor : LogMelExtractor) (audio_path : path)
    : result (ndarray V) :=
  audio ← read_audio audio_path (config.sample_rate cfg);
  let audio := pad_truncate_sequence zero audio (config.total_samples cfg) in
  feature ← transform logmel_value zero feature_extractor audio;
  let feature := slice0 feature (config.frames_num cfg) in
  Ok feature.

Definition clip_video_feature (video_path : path) : result (ndarray V) :=
  (video3d_frames resize_pixel gray_pixel zero (open_video video_path)
     (config.video_feature_dim cfg) (config.video_feature_dim cfg)
     (config.video_fps cfg) true true).2.

(** The body of [for (n, audio_name) in enumerate(audio_names)], with
    [name] for the loop variable [audio_name]. *)
Definition process_item (feature_extractor : LogMelExtractor)
    (audios_dir videos_dir : path) (audio_dict : gmap string clip_labels)
    (has_weak_labels has_strong_labels : bool)
    (n : nat) (name : string) (hf : h5.file V) : result (h5.file V) :=
  let audio_path := audios_dir ++ [name] in
  let video_path := videos_dir ++ [replace_wav_avi name] in
  feature ← audio_feature feature_extractor audio_path;
  video_feature ← clip_video_feature video_path;
  feature_ds ← append_array zero n feature (h5.feature hf);
  video_feature_ds ← append_array zero n video_feature (h5.video_feature hf);
  weak_ds ←
    (if has_weak_labels then
       labels ← dict_getitem audio_dict name;
       d ← from_option Ok (Raise (KeyError "weak_target")) (h5.weak_target hf);
       target ← labels_to_target (weak_labels labels) (config.classes_num cfg)
                  (config.lb_to_idx cfg);
       d' ← append_weak n target d;
       Ok (Some d')
     else Ok (h5.weak_target hf));
  strong_ds ←
    (if has_strong_labels then
       labels ← dict_getitem audio_dict name;
       d ← from_option Ok (Raise (KeyError "strong_target")) (h5.strong_target hf);
       target ← events_to_target (strong_labels labels) (config.frames_num cfg)
                  (config.classes_num cfg)
                  (Z.of_nat (config.frames_per_second cfg)) (config.lb_to_idx cfg);
       d' ← append_strong n target d;
       Ok (Some d')
     else Ok (h5.strong_target hf));
  Ok {| h5.audio_name := h5.audio_name hf;
        h5.feature := feature_ds;
        h5.video_name := h5.video_name hf;
        h5.video_feature := video_feature_ds;
        h5.weak_target := weak_ds;
        h5.strong_target := strong_ds |}.

Fixpoint items_loop (feature_extractor : LogMelExtractor)
    (audios_dir videos_dir : path) (audio_dict : gmap string clip_labels)
    (has_weak_labels has_strong_labels : bool)
    (n : nat) (audio_names : list string) (hf : h5.file V) : result (h5.file V) :=
  match audio_names with
  | [] => Ok hf
  | name :: rest =>
      hf' ← process_item feature_extractor audios_dir videos_dir audio_dict
              has_weak_labels has_strong_labels n name hf;
      items_loop feature_extractor audios_dir videos_dir audio_dict
        has_weak_labels has_strong_labels (S n) rest hf'
  end.

(** [audio_dict.keys()] *)
Definition dict_keys {A : Type} (d : gmap string A) : list string :=
  (map_to_list d).*1.

(** The archive as the [create_dataset] calls leave it before the loop. *)
Definition new_archive (audio_names video_names : list string)
    (has_weak_labels has_strong_labels : bool) : h5.file V :=
  {| h5.audio_name := S64 <$> audio_names;
     h5.feature :=
       {| row_shape := [config.frames_num cfg; config.mel_bins cfg]; rows := [] |};
     h5.video_name := S64 <$> video_names;
     h5.video_feature :=
       {| row_shape := [config.video_feature_dim cfg; config.video_feature_dim cfg;
                        config.video_fps cfg; 3];
          rows := [] |};
     h5.weak_target :=
       if has_weak_labels then
         Some {| row_shape := [config.classes_num cfg]; rows := [] |}
       else None;
     h5.strong_target :=
       if has_strong_labels then
         Some {| row_shape := [config.frames_num cfg; config.classes_num cfg];
                 rows := [] |}
       else None |}.

(** [calculate_feature_for_all_audio_files]. Its docstring lists
    [dataset_dir], [workspace], [data_type] and [mini_data] as arguments;
    the source assigns them at the top of the body (['train_synthetic'],
    [mini_data = False]). The result is the content of the archive at
    [hf.close()], once the loop has completed; the calls on the file system
    ([create_folder], [h5py.File(feature_path, 'w')]) surround it in
    [calculate_feature_for_all_audio_files_on_disk]. *)
Definition calculate_feature_for_all_audio_files (dataset_dir workspace data_type : string)
    (mini_data : bool) : result (h5.file V) :=
  let relative_name := get_relative_path_no_extension data_type in
  let audios_dir := [dataset_dir; "audio"; relative_name] in
  let videos_dir := [dataset_dir; "video"; relative_name] in
  let metadata_path :=
    if String.eqb data_type "validation" then
      [dataset_dir; "metadata"; "validation"; relative_name +:+ ".csv"]
    else [dataset_dir; "metadata"; relative_name +:+ ".csv"] in
  let feature_extractor := new_LogMelExtractor cfg in
  '(audio_dict, has_weak_labels, has_strong_labels) ← read_metadata metadata_path;
  let audio_names := sorted (dict_keys audio_dict) in
  let video_names := sorted (replace_wav_avi <$> dict_keys audio_dict) in
  let audio_names := if mini_data then take 10 (shuffle audio_names) else audio_names in
  let hf := new_archive audio_names video_names has_weak_labels has_strong_labels in
  items_loop feature_extractor audios_dir videos_dir audio_dict
    has_weak_labels has_strong_labels 0 audio_names hf.

(** The names the run iterates over. *)
Definition item_names (audio_dict : gmap string clip_labels) (mini_data : bool)
    : list string :=
  if mini_data then take 10 (shuffle (sorted (dict_keys audio_dict)))
  else sorted (dict_keys audio_dict).

End ArchiveBuilder.

(** ** Scalar reducer *)

(** The scalar archive: groups ['audio'] and ['video'], each with a
    ['mean'] and a ['std'] dataset. *)
Module scalar.

Record group (V : Type) : Type := Group {
  mean : ndarray V;
  std : ndarray V
}.

Arguments Group {V} _ _.
Arguments mean {V} _.
Arguments std {V} _.

Record file (V : Type) : Type := File {
  audio : group V;
  video : group V
}.

Arguments File {V} _ _.
Arguments audio {V} _.
Arguments video {V} _.

End scalar.

(** The files and folders the two entry points read and write, with the
    log of the file-system calls made so far (most recent last). *)
Inductive disk_file (V : Type) : Type :=
| FeatureArchive (hf : h5.file V)
| ScalarArchive (sf : scalar.file V).

Arguments FeatureArchive {V} hf.
Arguments ScalarArchive {V} sf.

Inductive io_event : Type :=
| MakeFolder (p : path)
| OpenRead (p : path)
| OpenWrite (p : path).

Record world (V : Type) : Type := World {
  files : gmap path (disk_file V);
  folders : gset path;
  io_log : list io_event
}.

Arguments World {V} _ _ _.
Arguments files {V} _.
Arguments folders {V} _.
Arguments io_log {V} _.

Section ScalarReducer.

Context {V : Type}.

Variable zero : V.

(** The reductions of numpy over the values along one axis, as float
    computations left abstract. *)
Variable np_mean : list V → V.
Variable np_std : list V → V.

Variable get_relative_path_no_extension : string → string.
Variable cfg : config.t.

(** A reduction across the first axis; the other axes keep their shape. *)
Definition reduce_axis0 (f : list V → V) (x : ndarray V) : ndarray V :=
  match shape x with
  | [] => {| shape := []; item := λ _, f [item x []] |}
  | n :: rest =>
      {| shape := rest; item := λ idx, f ((λ i, item x (i :: idx)) <$> seq 0 n) |}
  end.

(** Modelled from the spec: [utilities.calculate_scalar_of_tensor] is not
    part of the sources. It computes the element-wise mean and standard
    deviation across the item (row) axis and retains the shape of the
    remaining axes. *)
Definition calculate_scalar_of_tensor (x : ndarray V) : ndarray V * ndarray V :=
  (reduce_axis0 np_mean x, reduce_axis0 np_std x).

(** Modelled from the spec: [utilities.create_folder] is not part of the
    sources; it makes the folder when it does not exist. *)
Definition create_folder (fd : path) (w : world V) : world V :=
  {| files := files w; folders := {[fd]} ∪ folders w;
     io_log := io_log w ++ [MakeFolder fd] |}.

(** [h5py.File(p, 'r')]: the file at [p], if any; the attempt is logged. *)
Definition h5_open_read (p : path) (w : world V) : world V * result (disk_file V) :=
  let w' := {| files := files w; folders := folders w;
               io_log := io_log w ++ [OpenRead p] |} in
  match files w !! p with
  | Some f => (w', Ok f)
  | None => (w', Raise (OSError p))
  end.

(** [h5py.File(p, 'w')] followed by the writes of the [with] block: the
    file at [p] is replaced. *)
Definition h5_write (p : path) (f : disk_file V) (w : world V) : world V :=
  {| files := <[p := f]> (files w); folders := folders w;
     io_log := io_log w ++ [OpenWrite p] |}.

(** [calculate_scalar]; [workspace], [mini_data] and [data_type] are the
    "arguments & parameters" the source sets at the top of its body. *)
Definition calculate_scalar (workspace : string) (mini_data : bool)
    (data_type : string) (w : world V) : world V * result () :=
  if negb (String.eqb data_type "train_synthetic") then (w, Raise AssertionError)
  else
    let relative_name := get_relative_path_no_extension data_type in
    let feature_path := feature_path cfg workspace mini_data relative_name in
    let scalar_path := scalar_path cfg workspace mini_data relative_name in
    let w := create_folder (dirname scalar_path) w in
    match h5_open_read feature_path w with
    | (w, Raise e) => (w, Raise e)
    | (w, Ok (ScalarArchive _)) => (w, Raise (KeyError "feature"))
    | (w, Ok (FeatureArchive hf)) =>
        let audio_features := ds_read zero (h5.feature hf) in
        let video_features := ds_read zero (h5.video_feature hf) in
        let '(audio_mean, audio_std) := calculate_scalar_of_tensor audio_features in
        let '(video_mean, video_std) := calculate_scalar_of_tensor video_features in
        let sf :=
          {| scalar.audio := {| scalar.mean := audio_mean; scalar.std := audio_std |};
             scalar.video := {| scalar.mean := video_mean; scalar.std := video_std |} |} in
        (h5_write scalar_path (ScalarArchive sf) w, Ok ())
    end.

End ScalarReducer.

(** ** Sample inputs used by the examples *)

Definition demo_classes : gmap string nat :=
  <["Dog" := 0]> (<["Blender" := 1]> ∅).

Definition dog (on off : Q) : event_dict :=
  {| event := Name "Dog"; onset := on; offset := off |}.

(** A small configuration: 1000 samples per second, hop of 10 samples,
    100 frames per second, clips of 2 seconds. *)
Definition demo_cfg : config.t :=
  {| config.sample_rate := 1000; config.window_size := 32; config.hop_size := 10;
     config.mel_bins := 4; config.fmin := 50; config.fmax := 400;
     config.frames_per_second := 100; config.frames_num := 200;
     config.total_samples := 2000; config.classes_num := 3;
     config.lb_to_idx := demo_classes;
     config.video_fps := 2; config.video_feature_dim := 3 |}.

(** The same constants with clips of 100 samples: 11 frames per clip,
    fewer than [frames_num]. *)
Definition short_cfg : config.t :=
  {| config.sample_rate := 1000; config.window_size := 32; config.hop_size := 10;
     config.mel_bins := 4; config.fmin := 50; config.fmax := 400;
     config.frames_per_second := 100; config.frames_num := 200;
     config.total_samples := 100; config.classes_num := 3;
     config.lb_to_idx := demo_classes;
     config.video_fps := 2; config.video_feature_dim := 3 |}.

(** Integer stand-ins for the contents OpenCV and librosa compute. *)
Definition demo_resize_pixel (src : image Z) (w h r c ch : nat) : Z :=
  img_pixel src 0 0 ch.

Definition demo_gray_pixel (src : image Z) (r c : nat) : Z :=
  img_pixel src r c 0.

Definition demo_logmel_value (self : LogMelExtractor) (audio : list Z) (t m : nat) : Z :=
  default 0%Z (audio !! (t * ext_hop_size self)).

(** A video of [n] decodable frames, every pixel of which is [v]. *)
Definition flat_video (n : nat) (v : Z) : video Z :=
  {| nframes := n;
     decode := λ k, if decide (k < n) then Some (Image 4 4 (λ _ _ _, v)) else None |}.

(** Two clips whose names differ by a dotted suffix of the stem. *)
Definition demo_metadata : gmap string clip_labels :=
  <["clip.wav" := {| weak_labels := [Name "Dog"]; strong_labels := [dog 0 1] |}]>
    (<["clip.mix.wav" := {| weak_labels := [Name "Blender"; Missing];
                            strong_labels := [] |}]> ∅).

Definition demo_read_metadata (p : path) : result (gmap string clip_labels * bool * bool) :=
  Ok (demo_metadata, true, true).

Definition demo_read_audio (p : path) (target_fs : nat) : result (list Z) :=
  Ok [1%Z; 2%Z; 3%Z].

(** The video of [clip.mix.avi] is all ones, that of [clip.avi] all twos;
    no other video exists. *)
Definition demo_open_video (p : path) : video Z :=
  match last p with
  | Some "clip.mix.avi" => flat_video 5 1%Z
  | Some "clip.avi" => flat_video 5 2%Z
  | _ => flat_video 0 0%Z
  end.

Definition demo_relative_path (data_type : string) : string := data_type.

Definition demo_shuffle (l : list string) : list string := reverse l.

(** A feature archive with one row per dataset, and a disk that holds it
    at the feature path of [demo_cfg]. *)
Definition demo_archive : h5.file Z :=
  {| h5.audio_name := ["clip.wav"];
     h5.feature :=
       {| row_shape := [200; 4];
          rows := [{| shape := [200; 4]; item := λ idx, Z.of_nat (sum_list idx) |}] |};
     h5.video_name := ["clip.avi"];
     h5.video_feature :=
       {| row_shape := [3; 3; 2; 3];
          rows := [{| shape := [3; 3; 2; 3]; item := λ _, 2%Z |}] |};
     h5.weak_target := None;
     h5.strong_target := None |}.

Definition demo_world : world Z :=
  {| files := {[ feature_path demo_cfg "files" false "train_synthetic"
                 := FeatureArchive demo_archive ]};
     folders := ∅;
     io_log := [] |}.

Definition demo_np_mean (l : list Z) : Z := (foldr Z.add 0 l / Z.of_nat (length l))%Z.
Definition demo_np_std (l : list Z) : Z := (foldr Z.max 0 l - foldr Z.min 0 l)%Z.


(** ** Further definitions for the additional properties *)


(** The array the loop of [video3d_frames] appends for the frame position
    [p] on a colour run, when the frame at [p] can be decoded. *)
Definition colour_frame_at {V : Type}
    (resize_pixel : image V → nat → nat → nat → nat → nat → V) (dflt : V)
    (file : video V) (width height : nat) (p : Q) : ndarray V :=
  match decode file (Z.to_nat (Qfloor p)) with
  | Some img => bgr_array dflt (Image width height (resize_pixel img height width))
  | None => bgr_array dflt (Image width height (λ _ _ _, dflt))
  end.

(** A video whose container tells the truth: every frame below the
    reported count can be decoded. *)
Definition well_formed_video {V : Type} (file : video V) : Prop :=
  ∀ k, k < nframes file → is_Some (decode file k).

(** The paths [calculate_feature_for_all_audio_files] builds. *)
Definition metadata_path (dataset_dir data_type relative_name : string) : path :=
  if String.eqb data_type "validation" then
    [dataset_dir; "metadata"; "validation"; relative_name +:+ ".csv"]
  else [dataset_dir; "metadata"; relative_name +:+ ".csv"].

Definition audio_path_of (dataset_dir relative_name name : string) : path :=
  [dataset_dir; "audio"; relative_name] ++ [name].

Definition video_path_of (dataset_dir relative_name name : string) : path :=
  [dataset_dir; "video"; relative_name] ++ [replace_wav_avi name].

(** The weak and the strong target of one clip of the metadata. *)
Definition clip_weak_target (cfg : config.t) (audio_dict : gmap string clip_labels)
    (name : string) (t : list bool) : Prop :=
  ∃ labels, audio_dict !! name = Some labels ∧
            labels_to_target (weak_labels labels) (config.classes_num cfg)
              (config.lb_to_idx cfg) = Ok t.

Definition clip_strong_target (cfg : config.t) (audio_dict : gmap string clip_labels)
    (name : string) (t : list (list bool)) : Prop :=
  ∃ labels, audio_dict !! name = Some labels ∧
            events_to_target (strong_labels labels) (config.frames_num cfg)
              (config.classes_num cfg) (Z.of_nat (config.frames_per_second cfg))
              (config.lb_to_idx cfg) = Ok t.

(** An optional target dataset after the loop has run over [names]: absent
    when its flag is unset, otherwise the old rows followed by one row per
    name, each related to its name by [P]. *)
Definition targets_appended {A : Type} (flag : bool) (names : list string)
    (P : string → A → Prop) (d d' : option (dataset A)) : Prop :=
  if flag then
    ∃ x new, d = Some x ∧
             d' = Some {| row_shape := row_shape x; rows := rows x ++ new |} ∧
             Forall2 P names new
  else d' = d.

(** The state of an optional target dataset of a completed archive. *)
Definition target_rows {A : Type} (flag : bool) (rs : list nat) (names : list string)
    (P : string → A → Prop) (d : option (dataset A)) : Prop :=
  if flag then ∃ x, d = Some x ∧ row_shape x = rs ∧ Forall2 P names (rows x)
  else d = None.

(** A clip the loop cannot process: its audio cannot be read, a selected
    frame of its video cannot be read, or one of its labels is not in the
    class table while the corresponding target is requested. *)
Definition clip_fails {V : Type} (read_audio : path → nat → result (list V))
    (open_video : path → video V) (cfg : config.t)
    (audio_dict : gmap string clip_labels) (has_weak_labels has_strong_labels : bool)
    (dataset_dir relative_name name : string) : Prop :=
  (∃ e, read_audio (audio_path_of dataset_dir relative_name name)
          (config.sample_rate cfg) = Raise e) ∨
  ¬ all_frames_readable (open_video (video_path_of dataset_dir relative_name name))
      (config.video_feature_dim cfg) (config.video_feature_dim cfg)
      (config.video_fps cfg) true ∨
  (has_weak_labels = true ∧
   ∃ labels s, audio_dict !! name = Some labels ∧ Name s ∈ weak_labels labels ∧
               config.lb_to_idx cfg !! s = None) ∨
  (has_strong_labels = true ∧
   ∃ labels ev s, audio_dict !! name = Some labels ∧ ev ∈ strong_labels labels ∧
                  event ev = Name s ∧ config.lb_to_idx cfg !! s = None).

(** A clip without a video file, for a run that fails. *)
Definition ghost_metadata : gmap string clip_labels :=
  <["ghost.wav" := {| weak_labels := []; strong_labels := [] |}]> demo_metadata.

Definition ghost_read_metadata (p : path) : result (gmap string clip_labels * bool * bool) :=
  Ok (ghost_metadata, true, true).

(** The run of the builder over [demo_metadata] and its archive. *)
Definition demo_run : result (h5.file Z) :=
  calculate_feature_for_all_audio_files 0%Z demo_resize_pixel demo_gray_pixel
    demo_logmel_value demo_read_audio demo_open_video demo_read_metadata
    demo_relative_path demo_shuffle demo_cfg
    "files" "files" "train_synthetic" false.

Definition demo_run_archive : h5.file Z :=
  match demo_run with
  | Ok hf => hf
  | Raise _ => demo_archive
  end.

(** Replacing the extension keeps the order of the names of [l]. *)
Definition order_preserved (l : list string) : Prop :=
  ∀ a b, a ∈ l → b ∈ l → string_le a b →
         string_le (replace_wav_avi a) (replace_wav_avi b).

(** Metadata of eleven unlabelled clips [c0.wav] ... [c10.wav], and a disk
    on which every video has five frames. *)
Definition eleven_clips : gmap string clip_labels :=
  list_to_map ((λ n, ("c" +:+ pretty n +:+ ".wav",
                      {| weak_labels := []; strong_labels := [] |})) <$> seq 0 11).

Definition eleven_read_metadata (p : path) : result (gmap string clip_labels * bool * bool) :=
  Ok (eleven_clips, true, false).

Definition any_open_video (p : path) : video Z := flat_video 5 1%Z.

Definition eleven_run (mini_data : bool) : result (h5.file Z) :=
  calculate_feature_for_all_audio_files 0%Z demo_resize_pixel demo_gray_pixel
    demo_logmel_value demo_read_audio any_open_video eleven_read_metadata
    demo_relative_path demo_shuffle demo_cfg
    "files" "files" "train_synthetic" mini_data.

Definition eleven_archive (mini_data : bool) : h5.file Z :=
  match eleven_run mini_data with
  | Ok hf => hf
  | Raise _ => demo_archive
  end.

(** Two clips whose names keep their order under the replacement. *)
Definition plain_clips : gmap string clip_labels :=
  <["a.wav" := {| weak_labels := [Name "Dog"]; strong_labels := [dog 0 1] |}]>
    (<["b.wav" := {| weak_labels := []; strong_labels := [] |}]> ∅).

Definition plain_read_metadata (p : path) : result (gmap string clip_labels * bool * bool) :=
  Ok (plain_clips, true, true).

Definition plain_run : result (h5.file Z) :=
  calculate_feature_for_all_audio_files 0%Z demo_resize_pixel demo_gray_pixel
    demo_logmel_value demo_read_audio any_open_video plain_read_metadata
    demo_relative_path demo_shuffle demo_cfg
    "files" "files" "train_synthetic" false.

Definition plain_archive : h5.file Z :=
  match plain_run with
  | Ok hf => hf
  | Raise _ => demo_archive
  end.

(** ** The builder on the disk *)

Section ArchiveOnDisk.

Context {V : Type}.
Variable zero : V.
Variable resize_pixel : image V → nat → nat → nat → nat → nat → V.
Variable gray_pixel : image V → nat → nat → V.
Variable logmel_value : LogMelExtractor → list V → nat → nat → V.
Variable read_audio : path → nat → result (list V).
Variable open_video : path → video V.
Variable read_metadata : path → result (gmap string clip_labels * bool * bool).
Variable get_relative_path_no_extension : string → string.
Variable shuffle : list string → list string.
Variable cfg : config.t.

(** What is at [feature_path] after a run that raised inside the loop: the
    file has been truncated by the ['w'] open and is never closed by the
    code. What the library leaves there is not modelled; it is given, for
    the arguments of the run, by [unfinished]. *)
Variable unfinished : string → string → string → bool → disk_file V.

(** [calculate_feature_for_all_audio_files] with its calls on the file
    system, in the order of the source: [create_folder] on the folder of
    [feature_path], then [read_metadata], then [h5py.File(feature_path, 'w')],
    the [create_dataset] calls, the loop, and [hf.close()]. A run that
    raises in [read_metadata] has made the folder and opened no file. *)
Definition calculate_feature_for_all_audio_files_on_disk
    (dataset_dir workspace data_type : string) (mini_data : bool) (w : world V)
    : world V * result () :=
  let relative_name := get_relative_path_no_extension data_type in
  let audios_dir := [dataset_dir; "audio"; relative_name] in
  let videos_dir := [dataset_dir; "video"; relative_name] in
  let metadata_path := metadata_path dataset_dir data_type relative_name in
  let feature_path := feature_path cfg workspace mini_data relative_name in
  let w := create_folder (dirname feature_path) w in
  let feature_extractor := new_LogMelExtractor cfg in
  match read_metadata metadata_path with
  | Raise e => (w, Raise e)
  | Ok (audio_dict, has_weak_labels, has_strong_labels) =>
      let audio_names := sorted (dict_keys audio_dict) in
      let video_names := sorted (replace_wav_avi <$> dict_keys audio_dict) in
      let audio_names :=
        if mini_data then take 10 (shuffle audio_names) else audio_names in
      let hf := new_archive cfg audio_names video_names
                  has_weak_labels has_strong_labels in
      match items_loop zero resize_pixel gray_pixel logmel_value read_audio open_video
              cfg feature_extractor audios_dir videos_dir audio_dict
              has_weak_labels has_strong_labels 0 audio_names hf with
      | Ok hf => (h5_write feature_path (FeatureArchive hf) w, Ok ())
      | Raise e =>
          (h5_write feature_path
             (unfinished dataset_dir workspace data_type mini_data) w, Raise e)
      end
  end.

End ArchiveOnDisk.

(** A disk with no file and no folder, and what is found after a run that
    raised in the loop, for the examples. *)
Definition empty_world : world Z := {| files := ∅; folders := ∅; io_log := [] |}.

Definition demo_unfinished (dataset_dir workspace data_type : string) (mini_data : bool)
    : disk_file Z :=
  FeatureArchive (new_archive demo_cfg [] [] false false).

(** * Properties *)

(** Case analysis on the first [decide] of the goal. *)
Tactic Notation "case_dec" "as" simple_intropattern(pat) :=
  match goal with
  | |- context [decide ?P] => destruct (decide P) as pat
  end.

(** ** Label rasterizer: weak targets *)

Lemma setitem1_bits (target : list bool) (i : nat) (t : list bool) :
  setitem1 target i = Ok t →
  i < length target ∧ length t = length target ∧
  ∀ c, t !! c = Some true ↔ target !! c = Some true ∨ c = i.
Proof.
  unfold setitem1. destruct (decide (i < length target)) as [Hi|Hi]; [|done].
  intros [= <-]. split; [done|]. split; [by rewrite length_insert|].
  intros c. destruct (decide (c = i)) as [->|Hne].
  - rewrite list_lookup_insert_eq by done. split; [by right|done].
  - rewrite list_lookup_insert_ne by done. split; [by left|by intros [?|?]].
Qed.

Lemma labels_loop_known (lb_to_idx : gmap string nat) (classes_num : nat)
    (labels : list label) (target : list bool) :
  Forall (known classes_num lb_to_idx) labels →
  length target = classes_num →
  ∃ t, labels_loop lb_to_idx labels target = Ok t ∧ length t = classes_num ∧
       ∀ c, t !! c = Some true ↔
            target !! c = Some true ∨
            ∃ s, Name s ∈ labels ∧ lb_to_idx !! s = Some c.
Proof.
  intros Hk. revert target.
  induction Hk as [|lbl rest Hl _ IH]; intros target Hlen; simpl.
  - exists target. split_and!; [done..|]. intros c. split; [by left|].
    intros [?|(s & Hs & _)]; [done|]. by apply elem_of_nil in Hs.
  - destruct lbl as [|s].
    + destruct (IH target Hlen) as (t & -> & Ht & Hbits).
      exists t. split_and!; [done..|]. intros c. rewrite Hbits.
      split; (intros [?|(s & Hs & Hm)]; [by left|right; exists s; split; [|done]]).
      * by apply elem_of_cons; right.
      * apply elem_of_cons in Hs as [?|?]; [done|done].
    + destruct Hl as (ci & Hci & Hlt).
      unfold dict_getitem. rewrite Hci. simpl.
      destruct (setitem1 target ci) as [t1|e] eqn:Hset.
      2:{ unfold setitem1 in Hset. case_decide; [done|lia]. }
      apply setitem1_bits in Hset as (_ & Hlen1 & Hb1). simpl.
      destruct (IH t1 ltac:(lia)) as (t & -> & Ht & Hbits).
      exists t. split_and!; [done..|]. intros c. rewrite Hbits, Hb1.
      split.
      * intros [[?| ->]|(s' & Hs' & Hm)].
        -- by left.
        -- right. exists s. split; [apply elem_of_cons; by left|done].
        -- right. exists s'. split; [apply elem_of_cons; by right|done].
      * intros [?|(s' & Hs' & Hm)]; [by left; left|].
        apply elem_of_cons in Hs' as [[= ->]|Hs'].
        -- left. right. congruence.
        -- right. by exists s'.
Qed.

Lemma labels_loop_unknown (lb_to_idx : gmap string nat) (labels : list label)
    (target : list bool) (s : string) :
  Name s ∈ labels → lb_to_idx !! s = None →
  ∃ e, labels_loop lb_to_idx labels target = Raise e.
Proof.
  intros Hin Hs. revert target.
  induction labels as [|lbl rest IH]; intros target.
  { by apply elem_of_nil in Hin. }
  apply elem_of_cons in Hin as [<-|Hin]; simpl.
  - unfold dict_getitem. rewrite Hs. by eexists.
  - destruct lbl as [|s']; [by apply IH|].
    destruct (dict_getitem lb_to_idx s') as [ci|e]; simpl; [|by eexists].
    destruct (setitem1 target ci) as [t1|e]; simpl; [|by eexists].
    by apply IH.
Qed.

(** C4 (as amended). [labels_to_target] skips exactly the labels marked
    missing. When every other label is in the class table with an index
    below [classes_num], it returns a vector of length [classes_num] whose
    set bits are exactly the indices of those labels. A label that is
    present but absent from the class table is not skipped: the call
    raises and returns no target. *)
Theorem labels_to_target_spec (labels : list label) (classes_num : nat)
    (lb_to_idx : gmap string nat) :
  (Forall (known classes_num lb_to_idx) labels →
   ∃ t, labels_to_target labels classes_num lb_to_idx = Ok t ∧
        length t = classes_num ∧
        ∀ c, t !! c = Some true ↔
             ∃ s, Name s ∈ labels ∧ lb_to_idx !! s = Some c) ∧
  (∀ s, Name s ∈ labels → lb_to_idx !! s = None →
        ∃ e, labels_to_target labels classes_num lb_to_idx = Raise e).
Proof.
  split.
  - intros Hk. unfold labels_to_target.
    destruct (labels_loop_known lb_to_idx classes_num labels
                (replicate classes_num false) Hk) as (t & Ht & Hlen & Hbits).
    { apply length_replicate. }
    exists t. split_and!; [done..|]. intros c. rewrite Hbits.
    split; [|by right]. intros [Hc|?]; [|done].
    apply lookup_replicate in Hc as [? _]. done.
  - intros s Hin Hs. by eapply labels_loop_unknown.
Qed.

Lemma labels_to_target_spec_witness :
  (∃ t, labels_to_target [Name "Dog"; Missing; Name "Blender"] 5 demo_classes = Ok t ∧
        length t = 5 ∧
        ∀ c, t !! c = Some true ↔
             ∃ s, Name s ∈ [Name "Dog"; Missing; Name "Blender"] ∧
                  demo_classes !! s = Some c) ∧
  (∃ e, labels_to_target [Name "Dog"; Name "Cat"] 5 demo_classes = Raise e).
Proof.
  split.
  - apply (proj1 (labels_to_target_spec [Name "Dog"; Missing; Name "Blender"] 5 demo_classes)).
    repeat constructor; simpl; [exists 0 | exists 1]; (split; [reflexivity | lia]).
  - apply (proj2 (labels_to_target_spec [Name "Dog"; Name "Cat"] 5 demo_classes) "Cat").
    + apply elem_of_cons; right. apply elem_of_cons; by left.
    + reflexivity.
Defined.

(** C4 as stated fails: a label outside the class vocabulary makes
    [labels_to_target] raise [KeyError]. *)
Lemma labels_to_target_unknown_raises :
  labels_to_target [Name "Dog"; Name "Cat"] 5 demo_classes = Raise (KeyError "Cat").
Proof. vm_compute. reflexivity. Qed.

(** The example of the specification, with a missing label in between. *)
Example labels_to_target_example :
  labels_to_target [Name "Dog"; Missing; Name "Blender"] 5 demo_classes
  = Ok [true; true; false; false; false].
Proof. vm_compute. reflexivity. Qed.

(** ** Label rasterizer: strong targets *)

Lemma slice_index_le (i : Z) (n : nat) : slice_index i n ≤ n.
Proof. unfold slice_index. destruct (i <? 0)%Z; lia. Qed.

Lemma slice_index_nonneg (i : Z) (n : nat) :
  (0 ≤ i)%Z → slice_index i n = Z.to_nat (Z.min i (Z.of_nat n)).
Proof.
  intros Hi. unfold slice_index.
  destruct (Z.ltb_spec i 0); [lia|]. f_equal. lia.
Qed.

Lemma bit_replicate (n k f c : nat) :
  bit (replicate n (replicate k false)) f c = false.
Proof.
  unfold bit. destruct (replicate n _ !! f) as [row|] eqn:Hrow; [|done].
  apply lookup_replicate in Hrow as [-> _]. simpl.
  destruct (replicate k false !! c) as [b|] eqn:Hb; [|done].
  by apply lookup_replicate in Hb as [-> _].
Qed.

Lemma has_shape_replicate (n k : nat) :
  has_shape n k (replicate n (replicate k false)).
Proof.
  split; [apply length_replicate|].
  apply Forall_replicate. apply length_replicate.
Qed.

Lemma bit_outside (n k : nat) (t : list (list bool)) (f c : nat) :
  has_shape n k t → bit t f c = true → f < n ∧ c < k.
Proof.
  intros [Hn Hk]. unfold bit.
  destruct (t !! f) as [row|] eqn:Hrow; [|done]. simpl.
  destruct (row !! c) as [b|] eqn:Hb; [|done]. intros _.
  split.
  - apply lookup_lt_Some in Hrow. lia.
  - rewrite Forall_lookup in Hk. specialize (Hk _ _ Hrow).
    apply lookup_lt_Some in Hb. lia.
Qed.

Lemma has_shape_ext (n k : nat) (t1 t2 : list (list bool)) :
  has_shape n k t1 → has_shape n k t2 →
  (∀ f c, bit t1 f c = bit t2 f c) → t1 = t2.
Proof.
  intros [Hn1 Hk1] [Hn2 Hk2] Hbit.
  apply list_eq_same_length with n; [done..|].
  intros f r1 r2 Hf Hr1 Hr2.
  rewrite Forall_lookup in Hk1. rewrite Forall_lookup in Hk2.
  apply list_eq_same_length with k; [exact (Hk2 _ _ Hr2)|exact (Hk1 _ _ Hr1)|].
  intros c b1 b2 Hc Hb1 Hb2.
  specialize (Hbit f c). unfold bit in Hbit.
  rewrite Hr1, Hr2 in Hbit. simpl in Hbit. by rewrite Hb1, Hb2 in Hbit.
Qed.

Lemma setitem_rows_bits (n k : nat) (target : list (list bool))
    (start stop : Z) (col : nat) (t : list (list bool)) :
  has_shape n k target →
  setitem_rows k target start stop col = Ok t →
  has_shape n k t ∧
  ∀ f c, bit t f c = true ↔
         bit target f c = true ∨
         (c = col ∧ slice_index start n ≤ f < slice_index stop n).
Proof.
  intros [Hn Hk]. unfold setitem_rows.
  destruct (decide (col < k)) as [Hcol|]; [|done]. intros [= <-].
  rewrite Hn. split.
  - split; [by rewrite length_imap|].
    apply Forall_lookup. intros i row. rewrite list_lookup_imap.
    destruct (target !! i) as [row0|] eqn:Hrow0; [|done]. simpl.
    rewrite Forall_lookup in Hk. specialize (Hk _ _ Hrow0).
    intros [= <-]. case_decide; [by rewrite length_insert|done].
  - intros f c. unfold bit. rewrite list_lookup_imap.
    destruct (target !! f) as [row0|] eqn:Hrow0; simpl.
    + rewrite Forall_lookup in Hk. specialize (Hk _ _ Hrow0).
      case_decide as Hin.
      * destruct (decide (c = col)) as [->|Hne].
        -- rewrite list_lookup_insert_eq by lia. simpl. naive_solver.
        -- rewrite list_lookup_insert_ne by done. naive_solver.
      * naive_solver.
    + apply lookup_ge_None in Hrow0.
      pose proof (slice_index_le stop n). split; [done|].
      intros [?|(_ & ? & ?)]; [done|lia].
Qed.

Lemma events_loop_known (n k : nat) (fps : Z) (lb_to_idx : gmap string nat)
    (events : list event_dict) (target : list (list bool)) :
  Forall (event_known k lb_to_idx) events →
  has_shape n k target →
  ∃ t, events_loop k fps lb_to_idx events target = Ok t ∧ has_shape n k t ∧
       ∀ f c, bit t f c = true ↔
              bit target f c = true ∨
              ∃ e s, e ∈ events ∧ event e = Name s ∧ lb_to_idx !! s = Some c ∧
                     slice_index (onset_frame fps e) n ≤ f
                       < slice_index (offset_frame fps e) n.
Proof.
  intros Hk. revert target.
  induction Hk as [|ev rest Hev _ IH]; intros target Hshape; simpl.
  - exists target. split_and!; [done..|]. intros f c. split; [by left|].
    intros [?|(e & s & He & _)]; [done|]. by apply elem_of_nil in He.
  - unfold event_known in Hev. destruct (event ev) as [|s] eqn:Hname.
    + destruct (IH target Hshape) as (t & -> & Ht & Hbits).
      exists t. split_and!; [done..|]. intros f c. rewrite Hbits.
      split; (intros [?|(e & s & He & Hs & Hrest)]; [by left|right]).
      * exists e, s. split; [by apply elem_of_cons; right|done].
      * apply elem_of_cons in He as [->|He]; [congruence|]. by exists e, s.
    + destruct Hev as (ci & Hci & Hlt).
      unfold dict_getitem. rewrite Hci. simpl.
      destruct (setitem_rows k target (onset_frame fps ev) (offset_frame fps ev) ci)
        as [t1|e] eqn:Hset.
      2:{ unfold setitem_rows in Hset. by case_decide. }
      apply (setitem_rows_bits n k) in Hset as [Hshape1 Hb1]; [|done]. simpl.
      destruct (IH t1 Hshape1) as (t & -> & Ht & Hbits).
      exists t. split_and!; [done..|]. intros f c. rewrite Hbits, Hb1.
      split.
      * intros [[?|[-> Hrange]]|(e & s' & He & Hs' & Hrest)].
        -- by left.
        -- right. exists ev, s. split; [apply elem_of_cons; by left|done].
        -- right. exists e, s'. split; [apply elem_of_cons; by right|done].
      * intros [?|(e & s' & He & Hs' & Hm & Hrange)]; [by left; left|].
        apply elem_of_cons in He as [->|He].
        -- left. right. split; [congruence|done].
        -- right. by exists e, s'.
Qed.

Lemma events_loop_unknown (k : nat) (fps : Z) (lb_to_idx : gmap string nat)
    (events : list event_dict) (target : list (list bool)) (ev : event_dict)
    (s : string) :
  ev ∈ events → event ev = Name s → lb_to_idx !! s = None →
  ∃ e, events_loop k fps lb_to_idx events target = Raise e.
Proof.
  intros Hin Hname Hs. revert target.
  induction events as [|ev' rest IH]; intros target.
  { by apply elem_of_nil in Hin. }
  apply elem_of_cons in Hin as [<-|Hin]; simpl.
  - rewrite Hname. unfold dict_getitem. rewrite Hs. by eexists.
  - destruct (event ev') as [|s']; [by apply IH|].
    destruct (dict_getitem lb_to_idx s') as [ci|e]; simpl; [|by eexists].
    destruct (setitem_rows _ _ _ _ _) as [t1|e]; simpl; [|by eexists].
    by apply IH.
Qed.

Lemma events_to_target_known (events : list event_dict) (n k : nat) (fps : Z)
    (lb_to_idx : gmap string nat) :
  Forall (event_known k lb_to_idx) events →
  ∃ t, events_to_target events n k fps lb_to_idx = Ok t ∧ has_shape n k t ∧
       ∀ f c, bit t f c = true ↔
              ∃ e s, e ∈ events ∧ event e = Name s ∧ lb_to_idx !! s = Some c ∧
                     slice_index (onset_frame fps e) n ≤ f
                       < slice_index (offset_frame fps e) n.
Proof.
  intros Hk. unfold events_to_target.
  destruct (events_loop_known n k fps lb_to_idx events _ Hk (has_shape_replicate n k))
    as (t & Ht & Hshape & Hbits).
  exists t. split_and!; [done..|]. intros f c. rewrite Hbits, bit_replicate.
  split; [by intros [?|?]|by right].
Qed.

(** Within the clip, numpy's adjusted bounds select the frames of the
    half-open interval itself. *)
Lemma slice_range_in_clip (a b : Z) (n f : nat) :
  (0 ≤ a)%Z → (0 ≤ b)%Z →
  slice_index a n ≤ f < slice_index b n ↔ f < n ∧ (a ≤ Z.of_nat f < b)%Z.
Proof.
  intros Ha Hb. rewrite !slice_index_nonneg by done. lia.
Qed.

Lemma events_to_target_in_clip (events : list event_dict) (n k : nat) (fps : Z)
    (lb_to_idx : gmap string nat) :
  Forall (event_known k lb_to_idx) events →
  Forall (event_in_clip fps) events →
  ∃ t, events_to_target events n k fps lb_to_idx = Ok t ∧ has_shape n k t ∧
       ∀ f c, bit t f c = true ↔ f < n ∧ covered lb_to_idx fps events f c.
Proof.
  intros Hk Hclip.
  destruct (events_to_target_known events n k fps lb_to_idx Hk)
    as (t & Ht & Hshape & Hbits).
  exists t. split_and!; [done..|]. intros f c. rewrite Hbits. unfold covered.
  rewrite Forall_forall in Hclip.
  split.
  - intros (e & s & He & Hs & Hm & Hr). specialize (Hclip e He).
    unfold event_in_clip in Hclip. rewrite Hs in Hclip. destruct Hclip as [Ha Hb].
    apply slice_range_in_clip in Hr as [Hf Hr]; [|done..].
    split; [done|]. by exists e, s.
  - intros (Hf & e & s & He & Hs & Hm & Hr). specialize (Hclip e He).
    unfold event_in_clip in Hclip. rewrite Hs in Hclip. destruct Hclip as [Ha Hb].
    exists e, s. do 3 (split; [done|]). by apply slice_range_in_clip.
Qed.

(** C2 (as amended). For every event list whose named events are in the
    class table (index below [classes_num]) and have non-negative frame
    bounds, [events_to_target] returns a [frames_num] x [classes_num]
    boolean matrix in which cell [(f, c)] is set exactly when [f] is a row
    of the matrix and some named event of class [c] has
    [round(onset * fps) <= f < round(offset * fps) + 1]; all other cells
    are unset, and repeating an event of the list leaves the result
    unchanged (events combine by OR). *)
Theorem events_to_target_spec (events : list event_dict)
    (frames_num classes_num : nat) (frames_per_second : Z)
    (lb_to_idx : gmap string nat) :
  Forall (event_known classes_num lb_to_idx) events →
  Forall (event_in_clip frames_per_second) events →
  ∃ t, events_to_target events frames_num classes_num frames_per_second lb_to_idx
         = Ok t ∧
       has_shape frames_num classes_num t ∧
       (∀ f c, bit t f c = true ↔
               f < frames_num ∧ covered lb_to_idx frames_per_second events f c) ∧
       (∀ e, e ∈ events →
             events_to_target (e :: events) frames_num classes_num
               frames_per_second lb_to_idx = Ok t).
Proof.
  intros Hk Hclip.
  destruct (events_to_target_in_clip events frames_num classes_num
              frames_per_second lb_to_idx Hk Hclip) as (t & Ht & Hshape & Hbits).
  exists t. split_and!; [done..|]. intros e He.
  assert (Hk' : Forall (event_known classes_num lb_to_idx) (e :: events)).
  { constructor; [|done]. rewrite Forall_forall in Hk. by apply Hk. }
  assert (Hclip' : Forall (event_in_clip frames_per_second) (e :: events)).
  { constructor; [|done]. rewrite Forall_forall in Hclip. by apply Hclip. }
  destruct (events_to_target_in_clip (e :: events) frames_num classes_num
              frames_per_second lb_to_idx Hk' Hclip') as (t' & Ht' & Hshape' & Hbits').
  rewrite Ht'. f_equal.
  apply (has_shape_ext frames_num classes_num); [done..|].
  intros f c. apply eq_true_iff_eq. rewrite Hbits, Hbits'.
  unfold covered. split.
  - intros (Hf & e0 & s & He0 & Hrest). split; [done|]. exists e0, s.
    split; [|done]. apply elem_of_cons in He0 as [->|?]; done.
  - intros (Hf & e0 & s & He0 & Hrest). split; [done|]. exists e0, s.
    split; [|done]. by apply elem_of_cons; right.
Qed.

Lemma events_to_target_spec_witness :
  ∃ t, events_to_target [dog 1 2; dog (3 # 2) 4] 10 3 5 demo_classes = Ok t ∧
       has_shape 10 3 t ∧
       (∀ f c, bit t f c = true ↔
               f < 10 ∧ covered demo_classes 5 [dog 1 2; dog (3 # 2) 4] f c) ∧
       (∀ e, e ∈ [dog 1 2; dog (3 # 2) 4] →
             events_to_target (e :: [dog 1 2; dog (3 # 2) 4]) 10 3 5 demo_classes
               = Ok t).
Proof.
  apply (events_to_target_spec [dog 1 2; dog (3 # 2) 4] 10 3 5 demo_classes).
  - repeat constructor; exists 0; (split; [reflexivity | lia]).
  - repeat constructor; vm_compute; discriminate.
Defined.

(** C2 as stated fails on two kinds of event lists: an event whose name is
    not in the class table makes the call raise, and an event with negative
    frame bounds sets rows counted from the end of the clip (here rows 7 and
    8 for the frame interval [-3, -1)). *)
Lemma events_to_target_not_for_every_list :
  events_to_target [{| event := Name "Cat"; onset := 1; offset := 2 |}] 10 3 5
      demo_classes = Raise (KeyError "Cat") ∧
  (∃ t, events_to_target [dog (-3) (-2)] 10 3 1 demo_classes = Ok t ∧
        bit t 7 0 = true ∧ bit t 8 0 = true ∧
        ¬ covered demo_classes 1 [dog (-3) (-2)] 7 0 ∧
        ¬ covered demo_classes 1 [dog (-3) (-2)] 8 0).
Proof.
  split; [vm_compute; reflexivity|].
  eexists. split; [vm_compute; reflexivity|].
  split_and!; [reflexivity..| |];
    (intros (e & s & He & _ & _ & Hr);
     apply list_elem_of_singleton in He as ->;
     vm_compute in Hr; destruct Hr as [_ Hr]; discriminate Hr).
Qed.



(** The example of the specification: one event from second 1 to second 2
    at 5 frames per second over 10 frames sets rows 5 to 9 of column 0; the
    bound 11 is clamped to 10. *)
Example events_to_target_example :
  events_to_target [dog 1 2] 10 3 5 demo_classes
  = Ok (replicate 5 [false; false; false] ++ replicate 5 [true; false; false]).
Proof. vm_compute. reflexivity. Qed.

(** The frame of a timestamp is the rounded product of two doubles, not of
    two rationals: 0.14 s at 75 frames per second is 10.500000000000002 and
    gives frame 11, and 1.09 s at 50 frames per second is 54.50000000000001
    and gives frame 55, where the exact products 10.5 and 54.5 would round
    to the even neighbours 10 and 54. *)
Example frame_of_seconds_double_product :
  frame_of_seconds (14 # 100) 75 = 11%Z ∧
  frame_of_seconds (109 # 100) 50 = 55%Z ∧
  py_round ((14 # 100) * inject_Z 75) = 10%Z ∧
  py_round ((109 # 100) * inject_Z 50) = 54%Z ∧
  frame_of_seconds (5 # 2) 1 = 2%Z ∧
  frame_of_seconds (7 # 2) 1 = 4%Z.
Proof. vm_compute. repeat split. Qed.

(** An event at 0.14 s sets row 11 at 75 frames per second. *)
Example events_to_target_double_product :
  ∃ t, events_to_target [dog (14 # 100) (14 # 100)] 20 3 75 demo_classes = Ok t ∧
       (∀ f, f < 20 → bit t f 0 = bool_decide (f = 11)).
Proof.
  eexists. split; [vm_compute; reflexivity|].
  intros f Hf. do 20 (destruct f as [|f]; [reflexivity|]). lia.
Qed.


(** ** Video feature transform *)

Section VideoFeatureExtractorFacts.

Context {V : Type}.
Variable resize_pixel : image V → nat → nat → nat → nat → nat → V.
Variable gray_pixel : image V → nat → nat → V.
Variable dflt : V.

Local Abbreviation read_frames' := (read_frames resize_pixel gray_pixel dflt).
Local Abbreviation video3d_frames' := (video3d_frames resize_pixel gray_pixel dflt).

Lemma read_frames_ok (width height : nat) (color : bool) (frames : list Q)
    (cap : VideoCapture V) (framearray : list (ndarray V)) :
  released cap = false →
  Forall (λ p, 0 < width ∧ 0 < height ∧
               is_Some (decode (source cap) (Z.to_nat (Qfloor p)))) frames →
  ∃ cap' l,
    read_frames' width height color frames cap framearray
      = (cap', Ok (framearray ++ l)) ∧
    released cap' = false ∧ source cap' = source cap ∧
    length l = length frames ∧
    Forall (λ a, shape a = frame_shape width height color) l.
Proof.
  intros Hrel Hall. revert cap framearray Hrel Hall.
  induction frames as [|p rest IH]; intros cap framearray Hrel Hall; simpl.
  - exists cap, []. by rewrite app_nil_r.
  - apply Forall_cons in Hall as [(Hw & Hh & [img Himg]) Hall].
    unfold cap_read. simpl. rewrite Hrel, Himg. simpl.
    destruct (decide (0 < height ∧ 0 < width)) as [_|Hn]; [|lia].
    set (cap1 := {| source := source cap;
                    pos_frames := S (Z.to_nat (Qfloor p));
                    released := false |}).
    destruct color.
    + destruct (IH cap1 (framearray ++
        [bgr_array dflt (Image width height (resize_pixel img height width))])
        eq_refl Hall) as (cap' & l & -> & Hrel' & Hsrc & Hlen & Hshape).
      exists cap', (bgr_array dflt (Image width height (resize_pixel img height width)) :: l).
      rewrite <- app_assoc. simpl. split_and!; [done..|lia|by constructor].
    + destruct (IH cap1 (framearray ++
        [cvtColor_BGR2GRAY gray_pixel dflt (Image width height (resize_pixel img height width))])
        eq_refl Hall) as (cap' & l & -> & Hrel' & Hsrc & Hlen & Hshape).
      exists cap', (cvtColor_BGR2GRAY gray_pixel dflt
                      (Image width height (resize_pixel img height width)) :: l).
      rewrite <- app_assoc. simpl. split_and!; [done..|lia|by constructor].
Qed.

Lemma read_frames_raise (width height : nat) (color : bool) (frames : list Q)
    (cap : VideoCapture V) (framearray : list (ndarray V)) :
  released cap = false →
  ¬ Forall (λ p, 0 < width ∧ 0 < height ∧
                 is_Some (decode (source cap) (Z.to_nat (Qfloor p)))) frames →
  ∃ cap',
    read_frames' width height color frames cap framearray = (cap', Raise CvError) ∧
    released cap' = false.
Proof.
  intros Hrel Hall. revert cap framearray Hrel Hall.
  induction frames as [|p rest IH]; intros cap framearray Hrel Hall; simpl.
  - destruct Hall. constructor.
  - unfold cap_read. simpl. rewrite Hrel.
    destruct (decode (source cap) (Z.to_nat (Qfloor p))) as [img|] eqn:Himg; simpl.
    2:{ eexists. split; [reflexivity|]. done. }
    destruct (decide (0 < height ∧ 0 < width)) as [[Hh Hw]|Hn].
    2:{ eexists. split; [reflexivity|]. done. }
    assert (Hrest : ¬ Forall (λ p, 0 < width ∧ 0 < height ∧
              is_Some (decode (source cap) (Z.to_nat (Qfloor p)))) rest).
    { intros Hrest. apply Hall. constructor; [|done].
      split_and!; [done..|]. rewrite Himg. by eexists. }
    destruct color; by apply IH.
Qed.

Lemma all_frames_readable_positions (file : video V) (width height depth : nat)
    (skip : bool) :
  all_frames_readable file width height depth skip ↔
  Forall (λ p, 0 < width ∧ 0 < height ∧
               is_Some (decode (source (cv2_VideoCapture file)) (Z.to_nat (Qfloor p))))
    (frame_positions (cap_get_frame_count (cv2_VideoCapture file)) depth skip).
Proof.
  unfold all_frames_readable, selected_frames. by rewrite Forall_fmap.
Qed.

Lemma Qfloor_scaled (x n d : nat) :
  0 < d →
  Z.to_nat (Qfloor (inject_Z (Z.of_nat x) * inject_Z (Z.of_nat n) / inject_Z (Z.of_nat d)))
  = x * n / d.
Proof.
  intros Hd.
  assert (Heq : (inject_Z (Z.of_nat x) * inject_Z (Z.of_nat n) / inject_Z (Z.of_nat d)
                 == (Z.of_nat (x * n)) # (Pos.of_nat d))%Q).
  { rewrite <- inject_Z_mult, <- Nat2Z.inj_mul.
    rewrite (Qmake_Qdiv (Z.of_nat (x * n)) (Pos.of_nat d)).
    replace (Z.pos (Pos.of_nat d)) with (Z.of_nat d); [reflexivity|].
    destruct d; [lia|]. lia. }
  rewrite (Qfloor_comp _ _ Heq). simpl.
  replace (Z.pos (Pos.of_nat d)) with (Z.of_nat d).
  2:{ destruct d; [lia|]. lia. }
  rewrite <- Nat2Z.inj_div. apply Nat2Z.id.
Qed.

(** With [skip] the decoder seeks to the frames [x * N / depth], truncated,
    for [x] in [range(depth)]; without it, to the first [depth] frames. *)
Lemma selected_frames_skip (file : video V) (depth : nat) :
  selected_frames file depth true
  = (λ x, x * nframes file / depth) <$> seq 0 depth.
Proof.
  unfold selected_frames, frame_positions, cap_get_frame_count. simpl.
  rewrite <- list_fmap_compose. apply list_fmap_ext.
  intros i x Hx. simpl. apply Qfloor_scaled.
  apply lookup_lt_Some in Hx. rewrite length_seq in Hx. lia.
Qed.

Lemma selected_frames_no_skip (file : video V) (depth : nat) :
  selected_frames file depth false = seq 0 depth.
Proof.
  unfold selected_frames, frame_positions.
  rewrite <- list_fmap_compose. rewrite <- (list_fmap_id (seq 0 depth)) at 2.
  apply list_fmap_ext. intros i x _. unfold compose.
  rewrite Qfloor_Z. apply Nat2Z.id.
Qed.

Lemma length_frame_positions (nframe : Q) (depth : nat) (skip : bool) :
  length (frame_positions nframe depth skip) = depth.
Proof.
  unfold frame_positions. destruct skip; by rewrite length_fmap, length_seq.
Qed.

Lemma shape_np_array (l : list (ndarray V)) (s : list nat) :
  l ≠ [] → Forall (λ a, shape a = s) l →
  shape (np_array dflt l) = length l :: s.
Proof.
  destruct l as [|a l]; [done|]. intros _ Hall.
  apply Forall_cons in Hall as [Ha _]. simpl. by rewrite Ha.
Qed.

(** On a colour run over readable frames the result has the shape of the
    contract. *)
Lemma video3d_frames_color_shape (file : video V) (width height depth : nat)
    (skip : bool) :
  0 < depth →
  all_frames_readable file width height depth skip →
  ∃ cap X, video3d_frames' file width height depth true skip = (cap, Ok X) ∧
           released cap = true ∧ shape X = [width; height; depth; 3].
Proof.
  intros Hdepth Hall. apply all_frames_readable_positions in Hall.
  unfold video3d_frames.
  destruct (read_frames_ok width height true _ (cv2_VideoCapture file) [] eq_refl Hall)
    as (cap' & l & -> & Hrel & Hsrc & Hlen & Hshape).
  rewrite length_frame_positions in Hlen. simpl.
  assert (Hne : l ≠ []) by (intros ->; simpl in Hlen; lia).
  pose proof (shape_np_array l _ Hne Hshape) as HX. simpl in HX.
  unfold transpose. rewrite HX.
  case_dec as [_|Hn].
  - eexists _, _. split; [reflexivity|]. split; [done|]. simpl. by rewrite Hlen.
  - destruct Hn. split_and!; [done| |].
    + repeat constructor.
    + repeat (constructor; [set_solver|]). constructor.
Qed.

(** C3, the grey-scale path: whatever the video, [video3d_frames] with
    [color = False] returns no tensor. Either a frame cannot be read, or
    the final [transpose((1, 2, 0, 0))] is rejected. *)
Theorem video3d_frames_gray_raises (file : video V) (width height depth : nat)
    (skip : bool) :
  ∃ cap e, video3d_frames' file width height depth false skip = (cap, Raise e).
Proof.
  unfold video3d_frames.
  destruct (read_frames' width height false _ (cv2_VideoCapture file) [])
    as [cap [framearray|e]]; [|by eexists _, _].
  unfold transpose.
  case_dec as [(_ & _ & Hnd)|_]; [|by eexists _, _].
  apply NoDup_cons in Hnd as [_ Hnd]. apply NoDup_cons in Hnd as [_ Hnd].
  apply NoDup_cons in Hnd as [Hnd _]. destruct Hnd. apply elem_of_cons. by left.
Qed.

(** C5 (as amended). [video3d_frames] releases the decoder handle exactly
    when its loop completes, that is when every selected frame was decoded
    and resized; the release precedes the stacking of the frames, so a
    failure there leaves the handle released. When a selected frame cannot
    be decoded or resized the exception leaves the function with the
    handle not released. *)
Theorem video3d_frames_release (file : video V) (width height depth : nat)
    (color skip : bool) :
  (all_frames_readable file width height depth skip →
   released (video3d_frames' file width height depth color skip).1 = true) ∧
  (¬ all_frames_readable file width height depth skip →
   released (video3d_frames' file width height depth color skip).1 = false ∧
   (video3d_frames' file width height depth color skip).2 = Raise CvError).
Proof.
  rewrite all_frames_readable_positions. unfold video3d_frames. split.
  - intros Hall.
    destruct (read_frames_ok width height color _ (cv2_VideoCapture file) [] eq_refl Hall)
      as (cap' & l & -> & _). by destruct color.
  - intros Hall.
    destruct (read_frames_raise width height color _ (cv2_VideoCapture file) [] eq_refl Hall)
      as (cap' & -> & Hrel). done.
Qed.

End VideoFeatureExtractorFacts.

(** C5 as stated fails: on a file without a decodable frame the resize of
    the first frame raises and the handle is left unreleased. *)
Lemma video3d_frames_no_release_on_failure :
  video3d_frames demo_resize_pixel demo_gray_pixel 0%Z (flat_video 0 7%Z) 3 3 2 true true
  = ({| source := flat_video 0 7%Z; pos_frames := 0; released := false |},
     Raise CvError).
Proof. vm_compute. reflexivity. Qed.

Lemma video3d_frames_release_witness :
  released (video3d_frames demo_resize_pixel demo_gray_pixel 0%Z
              (flat_video 5 7%Z) 3 3 2 true true).1 = true ∧
  (released (video3d_frames demo_resize_pixel demo_gray_pixel 0%Z
               (flat_video 0 7%Z) 3 3 2 true true).1 = false ∧
   (video3d_frames demo_resize_pixel demo_gray_pixel 0%Z
      (flat_video 0 7%Z) 3 3 2 true true).2 = Raise CvError).
Proof.
  split.
  - apply (proj1 (video3d_frames_release demo_resize_pixel demo_gray_pixel 0%Z
                    (flat_video 5 7%Z) 3 3 2 true true)).
    unfold all_frames_readable. vm_compute.
    repeat constructor; by eexists.
  - apply (proj2 (video3d_frames_release demo_resize_pixel demo_gray_pixel 0%Z
                    (flat_video 0 7%Z) 3 3 2 true true)).
    unfold all_frames_readable. vm_compute. intros H.
    apply Forall_cons in H as [(_ & _ & [x Hx]) _]. discriminate Hx.
Defined.

(** The grey-scale failure on a readable video: the stack of grey frames
    has three axes and [transpose] is given four, one of them twice. *)
Example video3d_frames_gray_example :
  (video3d_frames demo_resize_pixel demo_gray_pixel 0%Z
     (flat_video 5 7%Z) 3 3 2 false true).2 = Raise ValueError.
Proof. vm_compute. reflexivity. Qed.

(** A source shorter than the requested depth: with [skip] the frames are
    sampled with repetition and the shape is unchanged. *)
Example video3d_frames_short_source :
  selected_frames (flat_video 2 7%Z) 5 true = [0; 0; 0; 1; 1] ∧
  shape <$> match (video3d_frames demo_resize_pixel demo_gray_pixel 0%Z
                     (flat_video 2 7%Z) 3 4 5 true true).2 with
            | Ok X => Some X
            | Raise _ => None
            end = Some [3; 4; 5; 3].
Proof. vm_compute. split; reflexivity. Qed.

Example video3d_frames_color_example :
  shape <$> match (video3d_frames demo_resize_pixel demo_gray_pixel 0%Z
                     (flat_video 5 7%Z) 3 4 2 true true).2 with
            | Ok X => Some X
            | Raise _ => None
            end = Some [3; 4; 2; 3] ∧
  selected_frames (flat_video 5 7%Z) 2 true = [0; 2].
Proof. vm_compute. split; reflexivity. Qed.

(** ** Audio feature transform *)

Lemma length_pad_truncate_sequence {V : Type} (zero : V) (x : list V) (max_len : nat) :
  length (pad_truncate_sequence zero x max_len) = max_len.
Proof.
  unfold pad_truncate_sequence. case_dec as [Hlt|Hge].
  - rewrite length_app, length_replicate. lia.
  - rewrite length_take. lia.
Qed.

Lemma transform_Ok {V : Type} (logmel_value : LogMelExtractor → list V → nat → nat → V)
    (dflt : V) (self : LogMelExtractor) (audio : list V) :
  0 < ext_window_size self → 0 < ext_hop_size self → 0 < length audio →
  ∃ logmel,
    transform logmel_value dflt self audio = Ok logmel ∧
    shape logmel
    = [stft_frames (ext_window_size self) (ext_hop_size self) (length audio);
       ext_mel_bins self] ∧
    ∀ t m, item logmel [t; m] = logmel_value self audio t m.
Proof.
  intros Hw Hh Hlen. unfold transform.
  case_dec as [Hbad|_]; [lia|].
  destruct audio as [|x audio]; [simpl in Hlen; lia|].
  eexists. split; [reflexivity|]. split; reflexivity.
Qed.

(** The transform raises on an empty signal and on a window or a hop of
    zero. *)
Lemma transform_raises {V : Type} (logmel_value : LogMelExtractor → list V → nat → nat → V)
    (dflt : V) (self : LogMelExtractor) (audio : list V) :
  ext_window_size self = 0 ∨ ext_hop_size self = 0 ∨ audio = [] →
  ∃ e, transform logmel_value dflt self audio = Raise e.
Proof.
  intros Hbad. unfold transform. case_dec as [_|Hok]; [by eexists|].
  destruct audio as [|x audio]; [by eexists|].
  exfalso. destruct Hbad as [?|[?|?]]; [apply Hok; by left|apply Hok; by right|done].
Qed.

Example transform_empty_signal :
  transform demo_logmel_value 0%Z (new_LogMelExtractor demo_cfg) [] = Raise ValueError ∧
  transform demo_logmel_value 0%Z
    (new_LogMelExtractor
       {| config.sample_rate := 1000; config.window_size := 32; config.hop_size := 0;
          config.mel_bins := 4; config.fmin := 50; config.fmax := 400;
          config.frames_per_second := 100; config.frames_num := 200;
          config.total_samples := 2000; config.classes_num := 3;
          config.lb_to_idx := demo_classes;
          config.video_fps := 2; config.video_feature_dim := 3 |})
    [1%Z; 2%Z; 3%Z] = Raise ParameterError.
Proof. split; reflexivity. Qed.

Lemma stft_frames_even (n_fft hop_length len : nat) :
  Nat.even n_fft = true →
  stft_frames n_fft hop_length len = 1 + len / hop_length.
Proof.
  intros Heven. unfold stft_frames. do 2 f_equal.
  apply Nat.even_spec in Heven as [k ->].
  rewrite (Nat.mul_comm 2 k), Nat.div_mul by done. lia.
Qed.

(** The constants of [demo_cfg] give 201 frames, one more than
    [frames_num]; the slice drops the extra frame. *)
Example demo_cfg_frames :
  stft_frames (config.window_size demo_cfg) (config.hop_size demo_cfg)
    (config.total_samples demo_cfg) = 201 ∧
  config.frames_num demo_cfg = 200.
Proof. vm_compute. split; reflexivity. Qed.

(** ** Scalar reducer *)

Section ScalarReducerFacts.

Context {V : Type}.
Variable zero : V.
Variable np_mean : list V → V.
Variable np_std : list V → V.
Variable get_relative_path_no_extension : string → string.
Variable cfg : config.t.

Local Abbreviation calculate_scalar' :=
  (calculate_scalar zero np_mean np_std get_relative_path_no_extension cfg).

(** C9. When the data split is not the supported one, [calculate_scalar]
    fails on its assertion before any file-system call: the files, the
    folders and the log of calls are those it started with. *)
Theorem calculate_scalar_unsupported_split (workspace : string) (mini_data : bool)
    (data_type : string) (w : world V) :
  data_type ≠ "train_synthetic" →
  calculate_scalar' workspace mini_data data_type w = (w, Raise AssertionError).
Proof.
  intros Hne. unfold calculate_scalar.
  apply String.eqb_neq in Hne. by rewrite Hne.
Qed.

Lemma feature_path_ne_scalar_path (workspace : string) (mini_data : bool)
    (relative_name : string) :
  feature_path cfg workspace mini_data relative_name
  ≠ scalar_path cfg workspace mini_data relative_name.
Proof. unfold feature_path, scalar_path. intros [=]. Qed.

Lemma shape_reduce_axis0 (f : list V → V) (d : dataset (ndarray V)) :
  shape (reduce_axis0 f (ds_read zero d)) = row_shape d.
Proof. reflexivity. Qed.

(** What one run over a feature archive leaves on disk: the archive is
    untouched and the scalar file depends on the archive only. *)
Lemma calculate_scalar_run (workspace : string) (mini_data : bool) (w : world V)
    (hf : h5.file V) :
  let relative_name := get_relative_path_no_extension "train_synthetic" in
  let fp := feature_path cfg workspace mini_data relative_name in
  let sp := scalar_path cfg workspace mini_data relative_name in
  files w !! fp = Some (FeatureArchive hf) →
  ∃ w', calculate_scalar' workspace mini_data "train_synthetic" w = (w', Ok ()) ∧
        files w' !! fp = Some (FeatureArchive hf) ∧
        files w' !! sp = Some (ScalarArchive
          {| scalar.audio :=
               {| scalar.mean := reduce_axis0 np_mean (ds_read zero (h5.feature hf));
                  scalar.std := reduce_axis0 np_std (ds_read zero (h5.feature hf)) |};
             scalar.video :=
               {| scalar.mean := reduce_axis0 np_mean (ds_read zero (h5.video_feature hf));
                  scalar.std := reduce_axis0 np_std (ds_read zero (h5.video_feature hf)) |} |}).
Proof.
  intros relative_name fp sp Hfp.
  unfold calculate_scalar. simpl negb. cbv iota.
  fold relative_name. fold fp. fold sp.
  unfold h5_open_read, create_folder. simpl files. rewrite Hfp.
  unfold calculate_scalar_of_tensor.
  eexists. split; [reflexivity|]. unfold h5_write. simpl files. split.
  - rewrite lookup_insert_ne; [done|]. intros Heq. symmetry in Heq.
    by apply feature_path_ne_scalar_path in Heq.
  - by rewrite lookup_insert_eq.
Qed.

(** C8. Over a completed archive at the feature path, [calculate_scalar]
    succeeds, and a second run after the first succeeds as well and leaves
    the same scalar file: the same mean and standard-deviation arrays for
    the audio and for the video group. Each array has the shape of one row
    of its feature dataset. *)
Theorem calculate_scalar_deterministic (workspace : string) (mini_data : bool)
    (w : world V) (hf : h5.file V) :
  files w !! feature_path cfg workspace mini_data
               (get_relative_path_no_extension "train_synthetic")
    = Some (FeatureArchive hf) →
  ∃ w1 w2 sf,
    calculate_scalar' workspace mini_data "train_synthetic" w = (w1, Ok ()) ∧
    calculate_scalar' workspace mini_data "train_synthetic" w1 = (w2, Ok ()) ∧
    files w1 !! scalar_path cfg workspace mini_data
                  (get_relative_path_no_extension "train_synthetic")
      = Some (ScalarArchive sf) ∧
    files w2 !! scalar_path cfg workspace mini_data
                  (get_relative_path_no_extension "train_synthetic")
      = Some (ScalarArchive sf) ∧
    shape (scalar.mean (scalar.audio sf)) = row_shape (h5.feature hf) ∧
    shape (scalar.std (scalar.audio sf)) = row_shape (h5.feature hf) ∧
    shape (scalar.mean (scalar.video sf)) = row_shape (h5.video_feature hf) ∧
    shape (scalar.std (scalar.video sf)) = row_shape (h5.video_feature hf).
Proof.
  intros Hfp.
  destruct (calculate_scalar_run workspace mini_data w hf Hfp)
    as (w1 & Hrun1 & Hfp1 & Hsp1).
  destruct (calculate_scalar_run workspace mini_data w1 hf Hfp1)
    as (w2 & Hrun2 & _ & Hsp2).
  eexists w1, w2, _. split_and!; [done|done|exact Hsp1|exact Hsp2|..];
    apply shape_reduce_axis0.
Qed.

End ScalarReducerFacts.

(** ** Archive builder *)

Lemma resize_then_set {A : Type} (fill v : A) (l : list A) :
  <[length l := v]> (take (S (length l)) l ++ replicate (S (length l) - length l) fill)
  = l ++ [v].
Proof.
  rewrite take_ge by lia.
  replace (S (length l) - length l) with 1 by lia. simpl.
  rewrite insert_app_r_alt by lia. by rewrite Nat.sub_diag.
Qed.

Lemma append_array_app {V : Type} (fill : V) (n : nat) (v : ndarray V)
    (d d' : dataset (ndarray V)) :
  length (rows d) = n →
  append_array fill n v d = Ok d' →
  ∃ row, broadcast_to (row_shape d) v = Ok row ∧
         d' = {| row_shape := row_shape d; rows := rows d ++ [row] |}.
Proof.
  intros <-. unfold append_array. simpl.
  destruct (broadcast_to (row_shape d) v) as [row|e]; [|done]. simpl.
  unfold ds_setitem, ds_resize. simpl. case_dec as [_|_]; [|done].
  intros [= <-]. exists row. split; [done|]. by rewrite resize_then_set.
Qed.

Lemma append_weak_app (n : nat) (v : list bool) (d d' : dataset (list bool)) :
  length (rows d) = n →
  append_weak n v d = Ok d' →
  d' = {| row_shape := row_shape d; rows := rows d ++ [v] |}.
Proof.
  intros <-. unfold append_weak. simpl. case_dec as [_|_]; [|done].
  unfold ds_setitem, ds_resize. simpl. case_dec as [_|_]; [|done].
  intros [= <-]. by rewrite resize_then_set.
Qed.

Lemma append_strong_app (n : nat) (v : list (list bool))
    (d d' : dataset (list (list bool))) :
  length (rows d) = n →
  append_strong n v d = Ok d' →
  d' = {| row_shape := row_shape d; rows := rows d ++ [v] |}.
Proof.
  intros <-. unfold append_strong. simpl. case_dec as [_|_]; [|done].
  unfold ds_setitem, ds_resize. simpl. case_dec as [_|_]; [|done].
  intros [= <-]. by rewrite resize_then_set.
Qed.

Lemma bind_Ok {A B : Type} (r : result A) (f : A → result B) (b : B) :
  r ≫= f = Ok b ↔ ∃ a, r = Ok a ∧ f a = Ok b.
Proof.
  destruct r as [a|e]; simpl.
  - split; [by exists a|]. by intros (a' & [= <-] & ?).
  - split; [done|]. by intros (a' & ? & _).
Qed.

Lemma grown_refl {A : Type} (d : option (dataset A)) : grown 0 d d.
Proof. destruct d as [x|]; [|done]. split; [done|]. exists []. by rewrite app_nil_r. Qed.

Lemma grown_trans {A : Type} (j k : nat) (d1 d2 d3 : option (dataset A)) :
  grown j d1 d2 → grown k d2 d3 → grown (j + k) d1 d3.
Proof.
  destruct d1 as [x1|], d2 as [x2|], d3 as [x3|]; simpl; try done.
  intros (Hs1 & n1 & Hr1 & Hl1) (Hs2 & n2 & Hr2 & Hl2).
  split; [congruence|]. exists (n1 ++ n2).
  rewrite Hr2, Hr1, <- app_assoc, length_app. split; [done|lia].
Qed.

Lemma grown_leading_dim {A : Type} (k n : nat) (d d' : option (dataset A)) :
  grown k d d' → leading_dim d n → leading_dim d' (n + k).
Proof.
  destruct d as [x|], d' as [x'|]; simpl; try done.
  intros (_ & new & Hr & Hl) Hd ? [= <-].
  rewrite Hr, length_app, (Hd x eq_refl). lia.
Qed.

Section ArchiveBuilderFacts.

Context {V : Type}.
Variable zero : V.
Variable resize_pixel : image V → nat → nat → nat → nat → nat → V.
Variable gray_pixel : image V → nat → nat → V.
Variable logmel_value : LogMelExtractor → list V → nat → nat → V.
Variable read_audio : path → nat → result (list V).
Variable open_video : path → video V.
Variable read_metadata : path → result (gmap string clip_labels * bool * bool).
Variable get_relative_path_no_extension : string → string.
Variable shuffle : list string → list string.
Variable cfg : config.t.

Local Abbreviation audio_feature' := (audio_feature zero logmel_value read_audio cfg).
Local Abbreviation clip_video_feature' :=
  (clip_video_feature zero resize_pixel gray_pixel open_video cfg).
Local Abbreviation process_item' :=
  (process_item zero resize_pixel gray_pixel logmel_value read_audio open_video cfg).
Local Abbreviation items_loop' :=
  (items_loop zero resize_pixel gray_pixel logmel_value read_audio open_video cfg).

Variable feature_extractor : LogMelExtractor.
Variables audios_dir videos_dir : path.
Variable audio_dict : gmap string clip_labels.
Variables has_weak_labels has_strong_labels : bool.

Lemma process_item_spec (n : nat) (name : string) (hf hf' : h5.file V) :
  process_item' feature_extractor audios_dir videos_dir audio_dict
    has_weak_labels has_strong_labels n name hf = Ok hf' →
  length (rows (h5.feature hf)) = n →
  length (rows (h5.video_feature hf)) = n →
  (has_weak_labels = true → leading_dim (h5.weak_target hf) n) →
  (has_strong_labels = true → leading_dim (h5.strong_target hf) n) →
  h5.audio_name hf' = h5.audio_name hf ∧
  h5.video_name hf' = h5.video_name hf ∧
  (∃ frow vrow,
     stored (row_shape (h5.feature hf))
            (audio_feature' feature_extractor (audios_dir ++ [name])) frow ∧
     stored (row_shape (h5.video_feature hf))
            (clip_video_feature' (videos_dir ++ [replace_wav_avi name])) vrow ∧
     h5.feature hf' = {| row_shape := row_shape (h5.feature hf);
                         rows := rows (h5.feature hf) ++ [frow] |} ∧
     h5.video_feature hf' = {| row_shape := row_shape (h5.video_feature hf);
                               rows := rows (h5.video_feature hf) ++ [vrow] |}) ∧
  grown (if has_weak_labels then 1 else 0) (h5.weak_target hf) (h5.weak_target hf') ∧
  grown (if has_strong_labels then 1 else 0) (h5.strong_target hf) (h5.strong_target hf').
Proof.
  unfold process_item. intros Hrun Hf Hv Hw Hs.
  apply bind_Ok in Hrun as (feature & Hfeature & Hrun).
  apply bind_Ok in Hrun as (vfeature & Hvfeature & Hrun).
  apply bind_Ok in Hrun as (fds & Hfds & Hrun).
  apply bind_Ok in Hrun as (vds & Hvds & Hrun).
  apply bind_Ok in Hrun as (wds & Hwds & Hrun).
  apply bind_Ok in Hrun as (sds & Hsds & Hrun).
  injection Hrun as <-. simpl.
  apply (append_array_app zero n) in Hfds as (frow & Hfrow & ->); [|done].
  apply (append_array_app zero n) in Hvds as (vrow & Hvrow & ->); [|done].
  split_and!; [done|done| | |].
  - exists frow, vrow. split_and!; [by eexists|by eexists|done..].
  - destruct has_weak_labels.
    + apply bind_Ok in Hwds as (labels & _ & Hwds).
      apply bind_Ok in Hwds as (d & Hd & Hwds).
      apply bind_Ok in Hwds as (target & _ & Hwds).
      apply bind_Ok in Hwds as (d' & Hd' & Hwds). injection Hwds as <-.
      destruct (h5.weak_target hf) as [d0|]; [|done]. injection Hd as ->.
      apply (append_weak_app n) in Hd' as ->; [|by apply Hw].
      simpl. split; [done|]. by eexists.
    + injection Hwds as <-. apply grown_refl.
  - destruct has_strong_labels.
    + apply bind_Ok in Hsds as (labels & _ & Hsds).
      apply bind_Ok in Hsds as (d & Hd & Hsds).
      apply bind_Ok in Hsds as (target & _ & Hsds).
      apply bind_Ok in Hsds as (d' & Hd' & Hsds). injection Hsds as <-.
      destruct (h5.strong_target hf) as [d0|]; [|done]. injection Hd as ->.
      apply (append_strong_app n) in Hd' as ->; [|by apply Hs].
      simpl. split; [done|]. by eexists.
    + injection Hsds as <-. apply grown_refl.
Qed.


Lemma items_loop_spec (names : list string) (n : nat) (hf hf' : h5.file V) :
  items_loop' feature_extractor audios_dir videos_dir audio_dict
    has_weak_labels has_strong_labels n names hf = Ok hf' →
  length (rows (h5.feature hf)) = n →
  length (rows (h5.video_feature hf)) = n →
  (has_weak_labels = true → leading_dim (h5.weak_target hf) n) →
  (has_strong_labels = true → leading_dim (h5.strong_target hf) n) →
  h5.audio_name hf' = h5.audio_name hf ∧
  h5.video_name hf' = h5.video_name hf ∧
  (∃ frows vrows,
     h5.feature hf' = {| row_shape := row_shape (h5.feature hf);
                         rows := rows (h5.feature hf) ++ frows |} ∧
     h5.video_feature hf' = {| row_shape := row_shape (h5.video_feature hf);
                               rows := rows (h5.video_feature hf) ++ vrows |} ∧
     Forall2 (λ name frow,
                stored (row_shape (h5.feature hf))
                       (audio_feature' feature_extractor (audios_dir ++ [name])) frow)
             names frows ∧
     Forall2 (λ name vrow,
                stored (row_shape (h5.video_feature hf))
                       (clip_video_feature' (videos_dir ++ [replace_wav_avi name])) vrow)
             names vrows) ∧
  grown (if has_weak_labels then length names else 0)
        (h5.weak_target hf) (h5.weak_target hf') ∧
  grown (if has_strong_labels then length names else 0)
        (h5.strong_target hf) (h5.strong_target hf').
Proof.
  revert n hf.
  induction names as [|name rest IH]; intros n hf Hrun Hf Hv Hw Hs; simpl in Hrun.
  - injection Hrun as <-. split_and!; [done|done| | |].
    + exists [], []. rewrite !app_nil_r.
      split_and!; [by destruct (h5.feature hf)|by destruct (h5.video_feature hf)|
                   constructor|constructor].
    + destruct has_weak_labels; apply grown_refl.
    + destruct has_strong_labels; apply grown_refl.
  - apply bind_Ok in Hrun as (hf1 & Hitem & Hrun).
    apply process_item_spec in Hitem
      as (Han & Hvn & (frow & vrow & Hfrow & Hvrow & Hf1 & Hv1) & Hw1 & Hs1);
      [|done..].
    apply IH in Hrun as (Han' & Hvn' & (frows & vrows & Hf' & Hv' & Hfs & Hvs) & Hw' & Hs').
    + rewrite Hf1, Hv1 in *. simpl in *.
      split_and!; [congruence|congruence| | |].
      * exists (frow :: frows), (vrow :: vrows).
        rewrite Hf', Hv', <- !app_assoc. simpl.
        split_and!; [done|done|by constructor|by constructor].
      * destruct has_weak_labels.
        -- apply (grown_trans 1 (length rest) _ _ _ Hw1 Hw').
        -- apply (grown_trans 0 0 _ _ _ Hw1 Hw').
      * destruct has_strong_labels.
        -- apply (grown_trans 1 (length rest) _ _ _ Hs1 Hs').
        -- apply (grown_trans 0 0 _ _ _ Hs1 Hs').
    + rewrite Hf1. simpl. rewrite length_app. simpl. lia.
    + rewrite Hv1. simpl. rewrite length_app. simpl. lia.
    + intros ->. replace (S n) with (n + 1) by lia.
      by eapply grown_leading_dim; [exact Hw1|apply Hw].
    + intros ->. replace (S n) with (n + 1) by lia.
      by eapply grown_leading_dim; [exact Hs1|apply Hs].
Qed.


End ArchiveBuilderFacts.

(** ** The feature row of a clip *)

Lemma broadcastable_rev_refl (l : list nat) : broadcastable_rev l l = true.
Proof.
  induction l as [|x l IH]; [done|]. simpl.
  rewrite IH, bool_decide_eq_true_2 by done. done.
Qed.

Lemma broadcast_to_same {V : Type} (v : ndarray V) :
  broadcast_to (shape v) v
  = Ok {| shape := shape v; item := λ idx, item v (broadcast_index (shape v) idx) |}.
Proof. unfold broadcast_to. by rewrite broadcastable_rev_refl. Qed.

Lemma broadcast_index_2 (a b t m : nat) :
  t < a → m < b → broadcast_index [a; b] [t; m] = [t; m].
Proof.
  intros Ht Hm. unfold broadcast_index. simpl.
  repeat case_dec as [?|?]; f_equal; try f_equal; lia.
Qed.

Lemma append_array_Ok {V : Type} (fill : V) (n : nat) (v row : ndarray V)
    (d : dataset (ndarray V)) :
  length (rows d) = n →
  broadcast_to (row_shape d) v = Ok row →
  append_array fill n v d = Ok {| row_shape := row_shape d; rows := rows d ++ [row] |}.
Proof.
  intros <- Hrow. unfold append_array. simpl. rewrite Hrow. simpl.
  unfold ds_setitem, ds_resize. simpl.
  case_dec as [_|Hn].
  - by rewrite resize_then_set.
  - exfalso. apply Hn. rewrite length_app, length_take, length_replicate. lia.
Qed.

Section FeatureRow.

Context {V : Type}.
Variable zero : V.
Variable resize_pixel : image V → nat → nat → nat → nat → nat → V.
Variable gray_pixel : image V → nat → nat → V.
Variable logmel_value : LogMelExtractor → list V → nat → nat → V.
Variable read_audio : path → nat → result (list V).
Variable open_video : path → video V.
Variable cfg : config.t.

Local Abbreviation audio_feature' := (audio_feature zero logmel_value read_audio cfg).
Local Abbreviation process_item' :=
  (process_item zero resize_pixel gray_pixel logmel_value read_audio open_video cfg).

(** C7 (as amended). With the configuration constants as parameters
    (positive window, hop and [total_samples]), for every clip whose audio
    can be read: the audio is padded or truncated to [total_samples]
    samples; the transform returns [(F, mel_bins)] with
    [F = 1 + (total_samples + 2 * (window_size // 2) - window_size) // hop_size];
    what the loop of the builder computes is the slice of the first
    [frames_num] rows, of shape [(min(frames_num, F), mel_bins)], which is
    [(frames_num, mel_bins)] exactly when [frames_num <= F]. In that case
    the write into the feature dataset succeeds and the row stored at index
    [n], also by the whole body of the loop when it completes, has shape
    [(frames_num, mel_bins)] and holds the first [frames_num] rows of the
    transform. *)
Theorem logmel_feature_shape (audios_dir videos_dir : path)
    (audio_dict : gmap string clip_labels) (has_weak_labels has_strong_labels : bool)
    (n : nat) (name : string) (raw : list V) :
  0 < config.window_size cfg →
  0 < config.hop_size cfg →
  0 < config.total_samples cfg →
  read_audio (audios_dir ++ [name]) (config.sample_rate cfg) = Ok raw →
  let F := stft_frames (config.window_size cfg) (config.hop_size cfg)
             (config.total_samples cfg) in
  let audio := pad_truncate_sequence zero raw (config.total_samples cfg) in
  ∃ logmel feature,
    length audio = config.total_samples cfg ∧
    transform logmel_value zero (new_LogMelExtractor cfg) audio = Ok logmel ∧
    shape logmel = [F; config.mel_bins cfg] ∧
    audio_feature' (new_LogMelExtractor cfg) (audios_dir ++ [name]) = Ok feature ∧
    feature = slice0 logmel (config.frames_num cfg) ∧
    shape feature = [Nat.min (config.frames_num cfg) F; config.mel_bins cfg] ∧
    (shape feature = [config.frames_num cfg; config.mel_bins cfg]
     ↔ config.frames_num cfg ≤ F) ∧
    (config.frames_num cfg ≤ F →
     ∀ hf : h5.file V,
       row_shape (h5.feature hf) = [config.frames_num cfg; config.mel_bins cfg] →
       length (rows (h5.feature hf)) = n →
       ∃ row,
         append_array zero n feature (h5.feature hf)
         = Ok {| row_shape := [config.frames_num cfg; config.mel_bins cfg];
                 rows := rows (h5.feature hf) ++ [row] |} ∧
         shape row = [config.frames_num cfg; config.mel_bins cfg] ∧
         (∀ t m, t < config.frames_num cfg → m < config.mel_bins cfg →
                 item row [t; m] = logmel_value (new_LogMelExtractor cfg) audio t m) ∧
         ∀ hf',
           process_item' (new_LogMelExtractor cfg) audios_dir videos_dir audio_dict
             has_weak_labels has_strong_labels n name hf = Ok hf' →
           h5.feature hf'
           = {| row_shape := [config.frames_num cfg; config.mel_bins cfg];
                rows := rows (h5.feature hf) ++ [row] |} ∧
           rows (h5.feature hf') !! n = Some row).
Proof.
  intros Hw Hh Htot Hread F audio.
  assert (Hlen : length audio = config.total_samples cfg)
    by apply length_pad_truncate_sequence.
  destruct (transform_Ok logmel_value zero (new_LogMelExtractor cfg) audio)
    as (logmel & Ht & Hshape & Hitem); [done|done|lia|].
  rewrite Hlen in Hshape. simpl in Hshape. fold F in Hshape.
  assert (Hfeature : audio_feature' (new_LogMelExtractor cfg) (audios_dir ++ [name])
                     = Ok (slice0 logmel (config.frames_num cfg))).
  { unfold audio_feature. rewrite Hread. simpl. fold audio. by rewrite Ht. }
  assert (Hslice : shape (slice0 logmel (config.frames_num cfg))
                   = [Nat.min (config.frames_num cfg) F; config.mel_bins cfg]).
  { unfold slice0. by rewrite Hshape. }
  exists logmel, (slice0 logmel (config.frames_num cfg)).
  split_and!; [done..| |].
  - rewrite Hslice. split.
    + intros [= Hmin]. lia.
    + intros Hle. f_equal. lia.
  - intros Hle hf Hrs Hn.
    assert (Hexact : shape (slice0 logmel (config.frames_num cfg))
                     = [config.frames_num cfg; config.mel_bins cfg]).
    { rewrite Hslice. f_equal. lia. }
    pose proof (broadcast_to_same (slice0 logmel (config.frames_num cfg))) as Hb.
    rewrite Hexact in Hb. rewrite <- Hrs in Hb at 1.
    pose proof (append_array_Ok zero n _ _ _ Hn Hb) as Happ. rewrite Hrs in Happ.
    eexists. split; [exact Happ|]. split; [done|]. split.
    + intros t m Hlt Hm. cbn [item]. rewrite broadcast_index_2 by done.
      unfold slice0. rewrite Hshape. cbn [item]. apply Hitem.
    + intros hf' Hrun. unfold process_item in Hrun.
      apply bind_Ok in Hrun as (feature & Hf & Hrun).
      rewrite Hfeature in Hf. injection Hf as <-.
      apply bind_Ok in Hrun as (vfeature & _ & Hrun).
      apply bind_Ok in Hrun as (fds & Hfds & Hrun).
      rewrite Happ in Hfds. injection Hfds as <-.
      apply bind_Ok in Hrun as (vds & _ & Hrun).
      apply bind_Ok in Hrun as (wds & _ & Hrun).
      apply bind_Ok in Hrun as (sds & _ & Hrun).
      injection Hrun as <-. cbn [h5.feature]. split; [done|].
      cbn [rows]. rewrite lookup_app_r by lia.
      by replace (n - length (rows (h5.feature hf))) with 0 by lia.
Qed.

End FeatureRow.

Lemma logmel_feature_shape_witness :
  let F := stft_frames (config.window_size demo_cfg) (config.hop_size demo_cfg)
             (config.total_samples demo_cfg) in
  let audio := pad_truncate_sequence 0%Z [1%Z; 2%Z; 3%Z] (config.total_samples demo_cfg) in
  ∃ logmel feature,
    length audio = config.total_samples demo_cfg ∧
    transform demo_logmel_value 0%Z (new_LogMelExtractor demo_cfg) audio = Ok logmel ∧
    shape logmel = [F; config.mel_bins demo_cfg] ∧
    audio_feature 0%Z demo_logmel_value demo_read_audio demo_cfg
      (new_LogMelExtractor demo_cfg) (["files"; "audio"] ++ ["clip.wav"]) = Ok feature ∧
    feature = slice0 logmel (config.frames_num demo_cfg) ∧
    shape feature = [Nat.min (config.frames_num demo_cfg) F; config.mel_bins demo_cfg] ∧
    (shape feature = [config.frames_num demo_cfg; config.mel_bins demo_cfg]
     ↔ config.frames_num demo_cfg ≤ F) ∧
    (config.frames_num demo_cfg ≤ F →
     ∀ hf : h5.file Z,
       row_shape (h5.feature hf)
       = [config.frames_num demo_cfg; config.mel_bins demo_cfg] →
       length (rows (h5.feature hf)) = 0 →
       ∃ row,
         append_array 0%Z 0 feature (h5.feature hf)
         = Ok {| row_shape := [config.frames_num demo_cfg; config.mel_bins demo_cfg];
                 rows := rows (h5.feature hf) ++ [row] |} ∧
         shape row = [config.frames_num demo_cfg; config.mel_bins demo_cfg] ∧
         (∀ t m, t < config.frames_num demo_cfg → m < config.mel_bins demo_cfg →
                 item row [t; m]
                 = demo_logmel_value (new_LogMelExtractor demo_cfg) audio t m) ∧
         ∀ hf',
           process_item 0%Z demo_resize_pixel demo_gray_pixel demo_logmel_value
             demo_read_audio demo_open_video demo_cfg (new_LogMelExtractor demo_cfg)
             ["files"; "audio"] ["files"; "video"] demo_metadata true true
             0 "clip.wav" hf = Ok hf' →
           h5.feature hf'
           = {| row_shape := [config.frames_num demo_cfg; config.mel_bins demo_cfg];
                rows := rows (h5.feature hf) ++ [row] |} ∧
           rows (h5.feature hf') !! 0 = Some row).
Proof.
  apply (logmel_feature_shape 0%Z demo_resize_pixel demo_gray_pixel demo_logmel_value
           demo_read_audio demo_open_video demo_cfg ["files"; "audio"] ["files"; "video"]
           demo_metadata true true 0 "clip.wav" [1%Z; 2%Z; 3%Z]).
  - simpl. lia.
  - simpl. lia.
  - simpl. lia.
  - reflexivity.
Defined.

(** C7 as stated fails for constants the code accepts: with
    [frames_num = 200] and clips of [total_samples = 100] samples at a hop
    of 10, the transform returns 11 rows, fewer than [frames_num]; the
    slice keeps the 11 rows, and the write of a [(11, 4)] value into a
    dataset of rows [(200, 4)] raises, so no row of shape
    [(frames_num, mel_bins)] is stored. *)
Lemma logmel_feature_fewer_frames :
  let audio := pad_truncate_sequence 0%Z [1%Z; 2%Z; 3%Z] (config.total_samples short_cfg) in
  config.frames_num short_cfg = 200 ∧ config.mel_bins short_cfg = 4 ∧
  ∃ logmel feature,
    transform demo_logmel_value 0%Z (new_LogMelExtractor short_cfg) audio = Ok logmel ∧
    shape logmel = [11; 4] ∧
    ¬ (∃ frames, shape logmel = [frames; config.mel_bins short_cfg] ∧
                 config.frames_num short_cfg ≤ frames) ∧
    audio_feature 0%Z demo_logmel_value demo_read_audio short_cfg
      (new_LogMelExtractor short_cfg) ["files"; "audio"; "clip.wav"] = Ok feature ∧
    shape feature = [11; 4] ∧
    shape feature ≠ [config.frames_num short_cfg; config.mel_bins short_cfg] ∧
    append_array 0%Z 0 feature
      (h5.feature (new_archive short_cfg ["clip.wav"] ["clip.avi"] false false))
    = Raise TypeError.
Proof.
  cbv zeta. split; [reflexivity|]. split; [reflexivity|].
  eexists _, _. split; [vm_compute; reflexivity|].
  split; [reflexivity|]. split.
  { intros (frames & [= <-] & Hle). vm_compute in Hle. lia. }
  split; [vm_compute; reflexivity|].
  split; [reflexivity|]. split; [discriminate|].
  vm_compute. reflexivity.
Qed.

Lemma length_sorted (l : list string) : length (sorted l) = length l.
Proof. unfold sorted. by rewrite merge_sort_Permutation. Qed.

Section ArchiveRun.

Context {V : Type}.
Variable zero : V.
Variable resize_pixel : image V → nat → nat → nat → nat → nat → V.
Variable gray_pixel : image V → nat → nat → V.
Variable logmel_value : LogMelExtractor → list V → nat → nat → V.
Variable read_audio : path → nat → result (list V).
Variable open_video : path → video V.
Variable read_metadata : path → result (gmap string clip_labels * bool * bool).
Variable get_relative_path_no_extension : string → string.
Variable shuffle : list string → list string.
Variable cfg : config.t.

Local Abbreviation audio_feature' := (audio_feature zero logmel_value read_audio cfg).
Local Abbreviation clip_video_feature' :=
  (clip_video_feature zero resize_pixel gray_pixel open_video cfg).

(** X11. What a completed run of the builder leaves in the archive: [N] rows in
    every dataset that has one row per processed clip, with row [i] of
    [audio_name], [feature] and [video_feature] belonging to the [i]-th
    clip of the run. The dataset [video_name] has one entry per clip of the
    metadata, in the order of the sorted video names. *)
Lemma archive_rows_aligned (dataset_dir workspace data_type : string)
    (mini_data : bool) (hf : h5.file V) :
  calculate_feature_for_all_audio_files zero resize_pixel gray_pixel logmel_value
    read_audio open_video read_metadata get_relative_path_no_extension shuffle cfg
    dataset_dir workspace data_type mini_data = Ok hf →
  ∃ md_path dict hw hs,
    read_metadata md_path = Ok (dict, hw, hs) ∧
    let names := item_names shuffle dict mini_data in
    let relative_name := get_relative_path_no_extension data_type in
    length (h5.audio_name hf) = length names ∧
    length (rows (h5.feature hf)) = length names ∧
    length (rows (h5.video_feature hf)) = length names ∧
    leading_dim (h5.weak_target hf) (length names) ∧
    leading_dim (h5.strong_target hf) (length names) ∧
    h5.video_name hf = S64 <$> sorted (replace_wav_avi <$> dict_keys dict) ∧
    ∀ i name, names !! i = Some name →
      h5.audio_name hf !! i = Some (S64 name) ∧
      ∃ frow vrow,
        rows (h5.feature hf) !! i = Some frow ∧
        stored [config.frames_num cfg; config.mel_bins cfg]
          (audio_feature' (new_LogMelExtractor cfg)
             ([dataset_dir; "audio"; relative_name] ++ [name])) frow ∧
        rows (h5.video_feature hf) !! i = Some vrow ∧
        stored [config.video_feature_dim cfg; config.video_feature_dim cfg;
                config.video_fps cfg; 3]
          (clip_video_feature'
             ([dataset_dir; "video"; relative_name] ++ [replace_wav_avi name])) vrow.
Proof.
  unfold calculate_feature_for_all_audio_files. intros Hrun.
  apply bind_Ok in Hrun as ([[dict hw] hs] & Hmd & Hrun).
  eexists _, dict, hw, hs. split; [exact Hmd|].
  fold (item_names shuffle dict mini_data) in Hrun.
  set (names := item_names shuffle dict mini_data) in *.
  apply items_loop_spec in Hrun
    as (Han & Hvn & (frows & vrows & Hf & Hv & Hfs & Hvs) & Hw & Hs).
  2,3: done.
  2:{ intros ->. by intros d [= <-]. }
  2:{ intros ->. by intros d [= <-]. }
  simpl in *. rewrite Han, Hvn, Hf, Hv. simpl.
  pose proof (Forall2_length _ _ _ Hfs) as Hlf.
  pose proof (Forall2_length _ _ _ Hvs) as Hlv.
  split_and!; [by rewrite length_fmap|done|done| | |done|].
  - destruct hw.
    + by apply (grown_leading_dim _ 0 _ _ Hw); intros d [= <-].
    + destruct (h5.weak_target hf); [done|]. by intros d.
  - destruct hs.
    + by apply (grown_leading_dim _ 0 _ _ Hs); intros d [= <-].
    + destruct (h5.strong_target hf); [done|]. by intros d.
  - intros i name Hi. split; [by rewrite list_lookup_fmap, Hi|].
    destruct (Forall2_lookup_l _ _ _ _ _ Hfs Hi) as (frow & Hfrow & Hfst).
    destruct (Forall2_lookup_l _ _ _ _ _ Hvs Hi) as (vrow & Hvrow & Hvst).
    by exists frow, vrow.
Qed.

End ArchiveRun.

(** C1, on two clips named [clip.wav] and [clip.mix.wav]. The run
    completes and every dataset has two rows, but [video_name] is sorted on
    its own after the replacement of the extension: row 0 of [audio_name]
    is [clip.mix.wav] and row 0 of [video_feature] holds the frames of
    [clip.mix.avi] (all ones), while row 0 of [video_name] is [clip.avi]. *)
Theorem archive_video_name_misaligned :
  ∃ hf,
    calculate_feature_for_all_audio_files 0%Z demo_resize_pixel demo_gray_pixel
      demo_logmel_value demo_read_audio demo_open_video demo_read_metadata
      demo_relative_path demo_shuffle demo_cfg
      "files" "files" "train_synthetic" false = Ok hf ∧
    h5.audio_name hf = ["clip.mix.wav"; "clip.wav"] ∧
    h5.video_name hf = ["clip.avi"; "clip.mix.avi"] ∧
    length (rows (h5.feature hf)) = 2 ∧
    length (rows (h5.video_feature hf)) = 2 ∧
    (λ row, item row [0; 0; 0; 0]) <$> rows (h5.video_feature hf) = [1%Z; 2%Z] ∧
    h5.video_name hf !! 0 ≠ replace_wav_avi <$> h5.audio_name hf !! 0.
Proof.
  eexists. split; [vm_compute; reflexivity|].
  split_and!; [vm_compute; reflexivity..|]. vm_compute. discriminate.
Qed.

(** On the same clips the sorted audio names and the sorted video names
    disagree in order. *)
Example sorted_names_disagree :
  sorted ["clip.wav"; "clip.mix.wav"] = ["clip.mix.wav"; "clip.wav"] ∧
  sorted (replace_wav_avi <$> ["clip.wav"; "clip.mix.wav"]) = ["clip.avi"; "clip.mix.avi"].
Proof. vm_compute. split; reflexivity. Qed.

Lemma calculate_scalar_unsupported_split_witness :
  calculate_scalar 0%Z demo_np_mean demo_np_std demo_relative_path demo_cfg
    "files" false "validation" demo_world
  = (demo_world, Raise AssertionError).
Proof.
  apply (calculate_scalar_unsupported_split 0%Z demo_np_mean demo_np_std
           demo_relative_path demo_cfg "files" false "validation" demo_world).
  discriminate.
Defined.

Lemma calculate_scalar_deterministic_witness :
  ∃ w1 w2 sf,
    calculate_scalar 0%Z demo_np_mean demo_np_std demo_relative_path demo_cfg
      "files" false "train_synthetic" demo_world = (w1, Ok ()) ∧
    calculate_scalar 0%Z demo_np_mean demo_np_std demo_relative_path demo_cfg
      "files" false "train_synthetic" w1 = (w2, Ok ()) ∧
    files w1 !! scalar_path demo_cfg "files" false (demo_relative_path "train_synthetic")
      = Some (ScalarArchive sf) ∧
    files w2 !! scalar_path demo_cfg "files" false (demo_relative_path "train_synthetic")
      = Some (ScalarArchive sf) ∧
    shape (scalar.mean (scalar.audio sf)) = row_shape (h5.feature demo_archive) ∧
    shape (scalar.std (scalar.audio sf)) = row_shape (h5.feature demo_archive) ∧
    shape (scalar.mean (scalar.video sf)) = row_shape (h5.video_feature demo_archive) ∧
    shape (scalar.std (scalar.video sf)) = row_shape (h5.video_feature demo_archive).
Proof.
  apply (calculate_scalar_deterministic 0%Z demo_np_mean demo_np_std
           demo_relative_path demo_cfg "files" false demo_world demo_archive).
  unfold demo_world, demo_relative_path. simpl files.
  apply lookup_singleton_eq.
Defined.

(** The paths of the two archives for [demo_cfg]. *)
Example demo_paths :
  feature_path demo_cfg "files" false "train_synthetic"
  = ["files"; "features"; "logmel_100frames_4melbins"; "train_synthetic.h5"] ∧
  scalar_path demo_cfg "files" true "train_synthetic"
  = ["files"; "scalars"; "minidata_logmel_100frames_4melbins"; "train_synthetic.h5"].
Proof. vm_compute. split; reflexivity. Qed.

(** * Further properties of the label rasterizer *)

Lemma labels_loop_app (lb_to_idx : gmap string nat) (pre rest : list label)
    (target : list bool) :
  labels_loop lb_to_idx (pre ++ rest) target
  = labels_loop lb_to_idx pre target ≫= labels_loop lb_to_idx rest.
Proof.
  revert target. induction pre as [|lbl pre IH]; intros target; simpl; [done|].
  destruct lbl as [|s]; [apply IH|].
  destruct (dict_getitem lb_to_idx s) as [ci|e]; simpl; [|done].
  destruct (setitem1 target ci) as [t1|e]; simpl; [|done]. apply IH.
Qed.

(** X1. The first label the class table cannot place decides the exception:
    after any number of labels that are missing or known, a name absent
    from the table raises [KeyError] with that name, and a name whose
    index is not below [classes_num] raises [IndexError]. *)
Theorem labels_to_target_first_failure (pre post : list label) (s : string)
    (classes_num : nat) (lb_to_idx : gmap string nat) :
  Forall (known classes_num lb_to_idx) pre →
  (lb_to_idx !! s = None →
   labels_to_target (pre ++ Name s :: post) classes_num lb_to_idx
   = Raise (KeyError s)) ∧
  (∀ c, lb_to_idx !! s = Some c → classes_num ≤ c →
        labels_to_target (pre ++ Name s :: post) classes_num lb_to_idx
        = Raise IndexError).
Proof.
  intros Hpre. unfold labels_to_target. rewrite labels_loop_app.
  destruct (labels_loop_known lb_to_idx classes_num pre
              (replicate classes_num false) Hpre) as (t & -> & Hlen & _).
  { apply length_replicate. }
  simpl. unfold dict_getitem. split.
  - intros ->. reflexivity.
  - intros c -> Hc. simpl. unfold setitem1.
    destruct (decide (c < length t)) as [Hlt|_]; [lia|reflexivity].
Qed.

Lemma labels_to_target_first_failure_witness :
  labels_to_target ([Name "Dog"; Missing] ++ Name "Cat" :: [Name "Bird"]) 5 demo_classes
  = Raise (KeyError "Cat") ∧
  labels_to_target ([Name "Dog"] ++ Name "Blender" :: []) 1 demo_classes
  = Raise IndexError.
Proof.
  split.
  - apply (proj1 (labels_to_target_first_failure [Name "Dog"; Missing] [Name "Bird"]
                    "Cat" 5 demo_classes
                    ltac:(repeat constructor; exists 0; split; [reflexivity|lia]))).
    reflexivity.
  - apply (proj2 (labels_to_target_first_failure [Name "Dog"] [] "Blender" 1 demo_classes
                    ltac:(repeat constructor; exists 0; split; [reflexivity|lia])) 1).
    + reflexivity.
    + lia.
Defined.

Lemma bool_vector_ext (n : nat) (t1 t2 : list bool) :
  length t1 = n → length t2 = n →
  (∀ c, t1 !! c = Some true ↔ t2 !! c = Some true) → t1 = t2.
Proof.
  intros H1 H2 Hbits. apply list_eq_same_length with n; [done..|].
  intros c b1 b2 _ Hb1 Hb2. specialize (Hbits c). rewrite Hb1, Hb2 in Hbits.
  destruct b1, b2; try done.
  - discriminate (proj1 Hbits eq_refl).
  - discriminate (proj2 Hbits eq_refl).
Qed.

(** X2. The weak target depends on the set of labels only: when every label
    can be placed, reordering the labels or repeating some of them leaves
    the result unchanged. *)
Theorem labels_to_target_set (labels labels' : list label) (classes_num : nat)
    (lb_to_idx : gmap string nat) :
  Forall (known classes_num lb_to_idx) labels →
  (∀ l, l ∈ labels' ↔ l ∈ labels) →
  labels_to_target labels' classes_num lb_to_idx
  = labels_to_target labels classes_num lb_to_idx.
Proof.
  intros Hk Hset.
  assert (Hk' : Forall (known classes_num lb_to_idx) labels').
  { rewrite Forall_forall in Hk. apply Forall_forall. intros l Hl.
    apply Hk. by apply Hset. }
  unfold labels_to_target.
  destruct (labels_loop_known lb_to_idx classes_num labels
              (replicate classes_num false) Hk (length_replicate _ _))
    as (t & -> & Hlen & Hbits).
  destruct (labels_loop_known lb_to_idx classes_num labels'
              (replicate classes_num false) Hk' (length_replicate _ _))
    as (t' & -> & Hlen' & Hbits').
  f_equal. apply (bool_vector_ext classes_num); [done..|].
  intros c. rewrite Hbits, Hbits'.
  split; (intros [?|(s & Hs & Hm)]; [by left|right; exists s; split; [|done]]);
    by apply Hset.
Qed.

Lemma labels_to_target_set_witness :
  labels_to_target [Name "Blender"; Name "Dog"; Missing; Name "Dog"] 5 demo_classes
  = labels_to_target [Name "Dog"; Missing; Name "Blender"] 5 demo_classes.
Proof.
  apply (labels_to_target_set [Name "Dog"; Missing; Name "Blender"]
           [Name "Blender"; Name "Dog"; Missing; Name "Dog"] 5 demo_classes).
  - repeat constructor; [exists 0|exists 1]; (split; [reflexivity|lia]).
  - intros l. rewrite !elem_of_cons, !elem_of_nil. tauto.
Defined.




(** X4. The strong target depends on the set of events only: when every named
    event can be placed, reordering the events or repeating some of them
    leaves the matrix unchanged, whatever their timestamps. *)
Theorem events_to_target_set (events events' : list event_dict)
    (frames_num classes_num : nat) (frames_per_second : Z)
    (lb_to_idx : gmap string nat) :
  Forall (event_known classes_num lb_to_idx) events →
  (∀ e, e ∈ events' ↔ e ∈ events) →
  events_to_target events' frames_num classes_num frames_per_second lb_to_idx
  = events_to_target events frames_num classes_num frames_per_second lb_to_idx.
Proof.
  intros Hk Hset.
  assert (Hk' : Forall (event_known classes_num lb_to_idx) events').
  { rewrite Forall_forall in Hk. apply Forall_forall. intros e He.
    apply Hk. by apply Hset. }
  destruct (events_to_target_known events frames_num classes_num frames_per_second
              lb_to_idx Hk) as (t & -> & Hshape & Hbits).
  destruct (events_to_target_known events' frames_num classes_num frames_per_second
              lb_to_idx Hk') as (t' & -> & Hshape' & Hbits').
  f_equal. apply (has_shape_ext frames_num classes_num); [done..|].
  intros f c. apply eq_true_iff_eq. rewrite Hbits, Hbits'.
  split; intros (e & s & He & Hrest); exists e, s; (split; [by apply Hset|done]).
Qed.

Lemma events_to_target_set_witness :
  events_to_target [dog (3 # 2) 4; dog 1 2; dog (3 # 2) 4] 10 3 5 demo_classes
  = events_to_target [dog 1 2; dog (3 # 2) 4] 10 3 5 demo_classes.
Proof.
  apply (events_to_target_set [dog 1 2; dog (3 # 2) 4]
           [dog (3 # 2) 4; dog 1 2; dog (3 # 2) 4] 10 3 5 demo_classes).
  - repeat constructor; exists 0; (split; [reflexivity|lia]).
  - intros e. rewrite !elem_of_cons, !elem_of_nil. tauto.
Defined.



(** ** Events of no duration *)




(** * Further properties of the video feature transform *)

Section VideoFeatureExtractorMore.

Context {V : Type}.
Variable resize_pixel : image V → nat → nat → nat → nat → nat → V.
Variable gray_pixel : image V → nat → nat → V.
Variable dflt : V.

Local Abbreviation read_frames' := (read_frames resize_pixel gray_pixel dflt).
Local Abbreviation video3d_frames' := (video3d_frames resize_pixel gray_pixel dflt).

(** X7. With [skip], the frames sought are [x * N / depth] for [x] in
    [range(depth)], and on a source with at least one frame each of them
    lies below the frame count [N]: uniform sampling never seeks past the
    end of the video, also when [N < depth] (frames are then repeated). *)
Theorem skip_stays_inside_video (file : video V) (depth : nat) :
  0 < nframes file →
  selected_frames file depth true
    = (λ x, x * nframes file / depth) <$> seq 0 depth ∧
  Forall (λ k, k < nframes file) (selected_frames file depth true).
Proof.
  intros HN. split; [apply selected_frames_skip|].
  rewrite selected_frames_skip. apply Forall_fmap, Forall_forall.
  intros x Hx. apply elem_of_seq in Hx. simpl.
  apply Nat.Div0.div_lt_upper_bound. nia.
Qed.

Lemma well_formed_all_frames_readable (file : video V) (width height depth : nat) :
  well_formed_video file → 0 < nframes file → 0 < width → 0 < height →
  all_frames_readable file width height depth true.
Proof.
  intros Hwf HN Hw Hh. unfold all_frames_readable.
  rewrite selected_frames_skip. apply Forall_fmap, Forall_forall.
  intros x Hx. apply elem_of_seq in Hx. simpl. split_and!; [done..|].
  apply Hwf. apply Nat.Div0.div_lt_upper_bound. nia.
Qed.

(** X8. On a well-formed video with at least one frame, a colour run with
    [skip] succeeds whatever the number of frames of the source: the
    result has shape [(width, height, depth, 3)] and the handle is
    released. *)
Theorem video3d_frames_any_source_length (file : video V) (width height depth : nat) :
  well_formed_video file → 0 < nframes file →
  0 < width → 0 < height → 0 < depth →
  ∃ cap X, video3d_frames' file width height depth true true = (cap, Ok X) ∧
           released cap = true ∧ shape X = [width; height; depth; 3].
Proof.
  intros Hwf HN Hw Hh Hd.
  apply video3d_frames_color_shape; [done|].
  by apply well_formed_all_frames_readable.
Qed.

(** X9. Without [skip] the first [depth] frames are read in order; when one of
    them cannot be decoded (a source shorter than [depth]), the resize of
    the missing frame raises and the handle is left unreleased. *)
Theorem video3d_frames_no_skip_short_source (file : video V)
    (width height depth : nat) (color : bool) (k : nat) :
  k < depth → decode file k = None →
  ∃ cap, video3d_frames' file width height depth color false = (cap, Raise CvError) ∧
         released cap = false.
Proof.
  intros Hk Hnone. unfold video3d_frames.
  assert (Hnot : ¬ Forall (λ p, 0 < width ∧ 0 < height ∧
             is_Some (decode (source (cv2_VideoCapture file)) (Z.to_nat (Qfloor p))))
           (frame_positions (cap_get_frame_count (cv2_VideoCapture file)) depth false)).
  { intros Hall. apply all_frames_readable_positions in Hall.
    unfold all_frames_readable in Hall. rewrite selected_frames_no_skip in Hall.
    rewrite Forall_forall in Hall.
    destruct (Hall k) as (_ & _ & [img Himg]); [apply elem_of_seq; lia|].
    congruence. }
  destruct (read_frames_raise resize_pixel gray_pixel dflt width height color _
              (cv2_VideoCapture file) [] eq_refl Hnot) as (cap' & -> & Hrel).
  by exists cap'.
Qed.

Lemma read_frames_colour_content (width height : nat) (frames : list Q)
    (cap : VideoCapture V) (framearray : list (ndarray V)) :
  released cap = false →
  Forall (λ p, 0 < width ∧ 0 < height ∧
               is_Some (decode (source cap) (Z.to_nat (Qfloor p)))) frames →
  ∃ cap',
    read_frames' width height true frames cap framearray
      = (cap', Ok (framearray
                   ++ (colour_frame_at resize_pixel dflt (source cap) width height
                         <$> frames))) ∧
    released cap' = false.
Proof.
  intros Hrel Hall. revert cap framearray Hrel Hall.
  induction frames as [|p rest IH]; intros cap framearray Hrel Hall; simpl.
  - exists cap. by rewrite app_nil_r.
  - apply Forall_cons in Hall as [(Hw & Hh & [img Himg]) Hall].
    unfold cap_read. simpl. rewrite Hrel, Himg. simpl.
    destruct (decide (0 < height ∧ 0 < width)) as [_|Hn]; [|lia].
    set (cap1 := {| source := source cap;
                    pos_frames := S (Z.to_nat (Qfloor p));
                    released := false |}).
    destruct (IH cap1 (framearray ++
        [bgr_array dflt (Image width height (resize_pixel img height width))])
        eq_refl Hall) as (cap' & -> & Hrel').
    exists cap'. split; [|done]. rewrite <- app_assoc. simpl.
    unfold colour_frame_at at 2. by rewrite Himg.
Qed.

(** X10. The time axis is moved to position 2: in the tensor of a colour run,
    the entry at [(r, c, k, ch)] is the pixel [(r, c, ch)] of the [k]-th
    selected frame after its resize to [width] rows and [height] columns. *)
Theorem video3d_frames_content (file : video V) (width height depth : nat)
    (skip : bool) (cap : VideoCapture V) (X : ndarray V)
    (k sel r c ch : nat) (img : image V) :
  video3d_frames' file width height depth true skip = (cap, Ok X) →
  selected_frames file depth skip !! k = Some sel →
  decode file sel = Some img →
  item X [r; c; k; ch] = resize_pixel img height width r c ch.
Proof.
  unfold video3d_frames. intros Hrun Hsel Himg.
  set (positions := frame_positions (cap_get_frame_count (cv2_VideoCapture file))
                      depth skip) in *.
  destruct (decide (Forall (λ p, 0 < width ∧ 0 < height ∧
              is_Some (decode (source (cv2_VideoCapture file)) (Z.to_nat (Qfloor p))))
              positions)) as [Hall|Hnot].
  2:{ destruct (read_frames_raise resize_pixel gray_pixel dflt width height true _
                  (cv2_VideoCapture file) [] eq_refl Hnot) as (cap' & Hraise & _).
      rewrite Hraise in Hrun. discriminate Hrun. }
  destruct (read_frames_colour_content width height positions
              (cv2_VideoCapture file) [] eq_refl Hall) as (cap' & Hok & _).
  rewrite Hok in Hrun. simpl in Hrun.
  unfold selected_frames in Hsel. fold positions in Hsel.
  rewrite list_lookup_fmap in Hsel.
  destruct (positions !! k) as [p|] eqn:Hp; [|done]. injection Hsel as <-.
  remember (colour_frame_at resize_pixel dflt file width height <$> positions)
    as l eqn:El.
  assert (Hl : l !! k = Some (colour_frame_at resize_pixel dflt file width height p)).
  { rewrite El. by rewrite list_lookup_fmap, Hp. }
  destruct l as [|a l']; [by rewrite lookup_nil in Hl|].
  assert (Ha : shape a = [width; height; 3]).
  { assert (Hin : a ∈ colour_frame_at resize_pixel dflt file width height <$> positions).
    { rewrite <- El. apply elem_of_cons. by left. }
    apply list_elem_of_fmap in Hin as (q & Hq & _). rewrite Hq.
    unfold colour_frame_at. by destruct (decode file (Z.to_nat (Qfloor q))). }
  unfold transpose in Hrun. simpl in Hrun. rewrite Ha in Hrun.
  match type of Hrun with
  | context [decide ?P] => destruct (decide P) as [_|_]; [|discriminate Hrun]
  end.
  injection Hrun as _ <-. simpl. rewrite Hl. simpl.
  unfold colour_frame_at. by rewrite Himg.
Qed.

End VideoFeatureExtractorMore.

Lemma flat_video_well_formed (n : nat) (v : Z) : well_formed_video (flat_video n v).
Proof.
  intros k Hk. unfold flat_video. simpl.
  destruct (decide (k < n)) as [_|Hn]; [by eexists|done].
Qed.

Lemma skip_stays_inside_video_witness :
  selected_frames (flat_video 2 7%Z) 5 true
    = (λ x, x * nframes (flat_video 2 7%Z) / 5) <$> seq 0 5 ∧
  Forall (λ k, k < nframes (flat_video 2 7%Z)) (selected_frames (flat_video 2 7%Z) 5 true).
Proof.
  apply (skip_stays_inside_video (flat_video 2 7%Z) 5). simpl. lia.
Defined.

Lemma video3d_frames_any_source_length_witness :
  ∃ cap X,
    video3d_frames demo_resize_pixel demo_gray_pixel 0%Z (flat_video 2 7%Z) 3 4 5 true true
      = (cap, Ok X) ∧
    released cap = true ∧ shape X = [3; 4; 5; 3].
Proof.
  apply (video3d_frames_any_source_length demo_resize_pixel demo_gray_pixel 0%Z
           (flat_video 2 7%Z) 3 4 5).
  - apply flat_video_well_formed.
  - simpl. lia.
  - lia.
  - lia.
  - lia.
Defined.

Lemma video3d_frames_no_skip_short_source_witness :
  ∃ cap,
    video3d_frames demo_resize_pixel demo_gray_pixel 0%Z (flat_video 2 7%Z) 3 4 5 true false
      = (cap, Raise CvError) ∧
    released cap = false.
Proof.
  apply (video3d_frames_no_skip_short_source demo_resize_pixel demo_gray_pixel 0%Z
           (flat_video 2 7%Z) 3 4 5 true 2).
  - lia.
  - reflexivity.
Defined.

Lemma video3d_frames_content_witness :
  ∃ cap X,
    video3d_frames demo_resize_pixel demo_gray_pixel 0%Z (flat_video 5 7%Z) 3 4 2 true true
      = (cap, Ok X) ∧
    item X [1; 2; 1; 0] = demo_resize_pixel (Image 4 4 (λ _ _ _, 7%Z)) 4 3 1 2 0.
Proof.
  eexists _, _. split; [vm_compute; reflexivity|].
  eapply (video3d_frames_content demo_resize_pixel demo_gray_pixel 0%Z
            (flat_video 5 7%Z) 3 4 2 true _ _ 1 2 1 2 0 (Image 4 4 (λ _ _ _, 7%Z))).
  - vm_compute. reflexivity.
  - vm_compute. reflexivity.
  - reflexivity.
Defined.

(** * Further properties of the archive builder *)

Lemma dict_getitem_Ok {A : Type} (d : gmap string A) (k : string) (v : A) :
  dict_getitem d k = Ok v ↔ d !! k = Some v.
Proof.
  unfold dict_getitem. destruct (d !! k) as [x|]; split; intros H; by simplify_eq.
Qed.

Section ArchiveLoopTargets.

Context {V : Type}.
Variable zero : V.
Variable resize_pixel : image V → nat → nat → nat → nat → nat → V.
Variable gray_pixel : image V → nat → nat → V.
Variable logmel_value : LogMelExtractor → list V → nat → nat → V.
Variable read_audio : path → nat → result (list V).
Variable open_video : path → video V.
Variable cfg : config.t.
Variable feature_extractor : LogMelExtractor.
Variables audios_dir videos_dir : path.
Variable audio_dict : gmap string clip_labels.
Variables has_weak_labels has_strong_labels : bool.

Local Abbreviation process_item' :=
  (process_item zero resize_pixel gray_pixel logmel_value read_audio open_video cfg
     feature_extractor audios_dir videos_dir audio_dict
     has_weak_labels has_strong_labels).
Local Abbreviation items_loop' :=
  (items_loop zero resize_pixel gray_pixel logmel_value read_audio open_video cfg
     feature_extractor audios_dir videos_dir audio_dict
     has_weak_labels has_strong_labels).

Lemma process_item_targets (n : nat) (name : string) (hf hf' : h5.file V) :
  process_item' n name hf = Ok hf' →
  (has_weak_labels = true → leading_dim (h5.weak_target hf) n) →
  (has_strong_labels = true → leading_dim (h5.strong_target hf) n) →
  targets_appended has_weak_labels [name] (clip_weak_target cfg audio_dict)
    (h5.weak_target hf) (h5.weak_target hf') ∧
  targets_appended has_strong_labels [name] (clip_strong_target cfg audio_dict)
    (h5.strong_target hf) (h5.strong_target hf').
Proof.
  unfold process_item. intros Hrun Hw Hs.
  apply bind_Ok in Hrun as (feature & _ & Hrun).
  apply bind_Ok in Hrun as (vfeature & _ & Hrun).
  apply bind_Ok in Hrun as (fds & _ & Hrun).
  apply bind_Ok in Hrun as (vds & _ & Hrun).
  apply bind_Ok in Hrun as (wds & Hwds & Hrun).
  apply bind_Ok in Hrun as (sds & Hsds & Hrun).
  injection Hrun as <-. simpl. unfold targets_appended. split.
  - destruct has_weak_labels; [|by injection Hwds as <-].
    apply bind_Ok in Hwds as (labels & Hlabels & Hwds).
    apply bind_Ok in Hwds as (d & Hd & Hwds).
    apply bind_Ok in Hwds as (target & Htarget & Hwds).
    apply bind_Ok in Hwds as (d' & Hd' & Hwds). injection Hwds as <-.
    apply dict_getitem_Ok in Hlabels.
    destruct (h5.weak_target hf) as [d0|]; [|done]. injection Hd as ->.
    apply (append_weak_app n) in Hd' as ->; [|by apply Hw].
    exists d, [target]. split_and!; [done..|].
    constructor; [by exists labels|constructor].
  - destruct has_strong_labels; [|by injection Hsds as <-].
    apply bind_Ok in Hsds as (labels & Hlabels & Hsds).
    apply bind_Ok in Hsds as (d & Hd & Hsds).
    apply bind_Ok in Hsds as (target & Htarget & Hsds).
    apply bind_Ok in Hsds as (d' & Hd' & Hsds). injection Hsds as <-.
    apply dict_getitem_Ok in Hlabels.
    destruct (h5.strong_target hf) as [d0|]; [|done]. injection Hd as ->.
    apply (append_strong_app n) in Hd' as ->; [|by apply Hs].
    exists d, [target]. split_and!; [done..|].
    constructor; [by exists labels|constructor].
Qed.

Lemma targets_appended_cons {A : Type} (flag : bool) (name : string)
    (rest : list string) (P : string → A → Prop) (d1 d2 d3 : option (dataset A)) :
  targets_appended flag [name] P d1 d2 →
  targets_appended flag rest P d2 d3 →
  targets_appended flag (name :: rest) P d1 d3.
Proof.
  unfold targets_appended. destruct flag; [|congruence].
  intros (x & new1 & -> & -> & H1) (x' & new2 & [= <-] & -> & H2). simpl.
  exists x, (new1 ++ new2). rewrite <- app_assoc. split_and!; [done..|].
  apply Forall2_length in H1 as Hlen. destruct new1 as [|t [|]]; try done.
  apply Forall2_cons in H1 as [Ht _]. simpl. by constructor.
Qed.

Lemma targets_appended_leading_dim {A : Type} (flag : bool) (names : list string)
    (P : string → A → Prop) (d d' : option (dataset A)) (n : nat) :
  targets_appended flag names P d d' →
  (flag = true → leading_dim d n) →
  flag = true → leading_dim d' (n + length names).
Proof.
  unfold targets_appended. intros H Hd ->.
  destruct H as (x & new & -> & -> & Hnew). intros ? [= <-]. simpl.
  rewrite length_app, (Hd eq_refl x eq_refl). apply Forall2_length in Hnew. lia.
Qed.

Lemma targets_appended_nil {A : Type} (flag : bool) (P : string → A → Prop)
    (d : option (dataset A)) :
  (flag = true → is_Some d) → targets_appended flag [] P d d.
Proof.
  unfold targets_appended. destruct flag; [|done]. intros Hd.
  destruct (Hd eq_refl) as [x ->]. exists x, []. rewrite app_nil_r.
  split_and!; [done| |constructor]. by destruct x.
Qed.

Lemma targets_appended_is_Some {A : Type} (flag : bool) (names : list string)
    (P : string → A → Prop) (d d' : option (dataset A)) :
  targets_appended flag names P d d' → flag = true → is_Some d'.
Proof.
  unfold targets_appended. intros H ->. destruct H as (x & new & _ & -> & _).
  by eexists.
Qed.

Lemma items_loop_targets (names : list string) (n : nat) (hf hf' : h5.file V) :
  items_loop' n names hf = Ok hf' →
  (has_weak_labels = true →
   is_Some (h5.weak_target hf) ∧ leading_dim (h5.weak_target hf) n) →
  (has_strong_labels = true →
   is_Some (h5.strong_target hf) ∧ leading_dim (h5.strong_target hf) n) →
  targets_appended has_weak_labels names (clip_weak_target cfg audio_dict)
    (h5.weak_target hf) (h5.weak_target hf') ∧
  targets_appended has_strong_labels names (clip_strong_target cfg audio_dict)
    (h5.strong_target hf) (h5.strong_target hf').
Proof.
  revert n hf.
  induction names as [|name rest IH]; intros n hf Hrun Hw Hs; simpl in Hrun.
  - injection Hrun as <-.
    split; apply targets_appended_nil; intros Hflag; [by apply Hw|by apply Hs].
  - apply bind_Ok in Hrun as (hf1 & Hitem & Hrun).
    apply process_item_targets in Hitem as [Hw1 Hs1];
      [|intros Hflag; by apply Hw|intros Hflag; by apply Hs].
    apply IH in Hrun as [Hw' Hs'].
    + split; eapply targets_appended_cons; eauto.
    + intros Hflag. split; [by eapply targets_appended_is_Some|].
      replace (S n) with (n + length [name]) by (simpl; lia).
      eapply targets_appended_leading_dim; [exact Hw1| |done].
      intros _. by apply Hw.
    + intros Hflag. split; [by eapply targets_appended_is_Some|].
      replace (S n) with (n + length [name]) by (simpl; lia).
      eapply targets_appended_leading_dim; [exact Hs1| |done].
      intros _. by apply Hs.
Qed.

End ArchiveLoopTargets.

Lemma labels_loop_length (lb_to_idx : gmap string nat) (labels : list label)
    (target t : list bool) :
  labels_loop lb_to_idx labels target = Ok t → length t = length target.
Proof.
  revert target. induction labels as [|lbl rest IH]; intros target; simpl.
  - by intros [= <-].
  - destruct lbl as [|s]; [apply IH|]. intros Hrun.
    apply bind_Ok in Hrun as (ci & _ & Hrun).
    apply bind_Ok in Hrun as (t1 & Hset & Hrun).
    apply setitem1_bits in Hset as (_ & <- & _). by apply IH.
Qed.

Lemma events_loop_shape (n k : nat) (fps : Z) (lb_to_idx : gmap string nat)
    (events : list event_dict) (target t : list (list bool)) :
  has_shape n k target →
  events_loop k fps lb_to_idx events target = Ok t → has_shape n k t.
Proof.
  revert target. induction events as [|ev rest IH]; intros target Hshape; simpl.
  - by intros [= <-].
  - destruct (event ev) as [|s]; [by apply IH|]. intros Hrun.
    apply bind_Ok in Hrun as (ci & _ & Hrun).
    apply bind_Ok in Hrun as (t1 & Hset & Hrun).
    apply (setitem_rows_bits n k) in Hset as [Hshape1 _]; [|done].
    by eapply IH.
Qed.

Lemma stored_shape {V : Type} (rs : list nat) (r : result (ndarray V)) (row : ndarray V) :
  stored rs r row → shape row = rs.
Proof.
  intros (v & _ & Hb). unfold broadcast_to in Hb.
  destruct (broadcastable_rev _ _); [|done]. by injection Hb as <-.
Qed.

Section ArchiveRunMore.

Context {V : Type}.
Variable zero : V.
Variable resize_pixel : image V → nat → nat → nat → nat → nat → V.
Variable gray_pixel : image V → nat → nat → V.
Variable logmel_value : LogMelExtractor → list V → nat → nat → V.
Variable read_audio : path → nat → result (list V).
Variable open_video : path → video V.
Variable read_metadata : path → result (gmap string clip_labels * bool * bool).
Variable get_relative_path_no_extension : string → string.
Variable shuffle : list string → list string.
Variable cfg : config.t.

Local Abbreviation run' :=
  (calculate_feature_for_all_audio_files zero resize_pixel gray_pixel logmel_value
     read_audio open_video read_metadata get_relative_path_no_extension shuffle cfg).
Local Abbreviation items_loop' :=
  (items_loop zero resize_pixel gray_pixel logmel_value read_audio open_video cfg
     (new_LogMelExtractor cfg)).

Lemma run_inv (dataset_dir workspace data_type : string) (mini_data : bool)
    (dict : gmap string clip_labels) (hw hs : bool) :
  let relative_name := get_relative_path_no_extension data_type in
  read_metadata (metadata_path dataset_dir data_type relative_name) = Ok (dict, hw, hs) →
  run' dataset_dir workspace data_type mini_data
  = items_loop' [dataset_dir; "audio"; relative_name]
      [dataset_dir; "video"; relative_name] dict hw hs 0
      (item_names shuffle dict mini_data)
      (new_archive cfg (item_names shuffle dict mini_data)
         (sorted (replace_wav_avi <$> dict_keys dict)) hw hs).
Proof.
  intros relative_name Hmd. subst relative_name.
  unfold calculate_feature_for_all_audio_files. cbv zeta.
  match goal with
  | |- ?r ≫= _ = _ =>
      change r with (read_metadata (metadata_path dataset_dir data_type
                       (get_relative_path_no_extension data_type)))
  end.
  rewrite Hmd. reflexivity.
Qed.

Lemma new_archive_targets (names video_names : list string) (hw hs : bool) (n : nat) :
  (hw = true →
   is_Some (h5.weak_target (new_archive (V:=V) cfg names video_names hw hs)) ∧
   leading_dim (h5.weak_target (new_archive (V:=V) cfg names video_names hw hs)) 0) ∧
  (hs = true →
   is_Some (h5.strong_target (new_archive (V:=V) cfg names video_names hw hs)) ∧
   leading_dim (h5.strong_target (new_archive (V:=V) cfg names video_names hw hs)) 0).
Proof.
  split; intros ->; simpl; (split; [by eexists|by intros d [= <-]]).
Qed.

Lemma run_targets_appended (dataset_dir workspace data_type : string)
    (mini_data : bool) (dict : gmap string clip_labels) (hw hs : bool)
    (hf : h5.file V) :
  read_metadata (metadata_path dataset_dir data_type
                   (get_relative_path_no_extension data_type)) = Ok (dict, hw, hs) →
  run' dataset_dir workspace data_type mini_data = Ok hf →
  let names := item_names shuffle dict mini_data in
  let hf0 := new_archive (V:=V) cfg names
               (sorted (replace_wav_avi <$> dict_keys dict)) hw hs in
  targets_appended hw names (clip_weak_target cfg dict)
    (h5.weak_target hf0) (h5.weak_target hf) ∧
  targets_appended hs names (clip_strong_target cfg dict)
    (h5.strong_target hf0) (h5.strong_target hf).
Proof.
  intros Hmd Hrun names hf0. rewrite (run_inv _ _ _ _ _ _ _ Hmd) in Hrun.
  destruct (new_archive_targets names
              (sorted (replace_wav_avi <$> dict_keys dict)) hw hs 0) as [Hw0 Hs0].
  by apply items_loop_targets in Hrun.
Qed.

Lemma run_rows (dataset_dir workspace data_type : string)
    (mini_data : bool) (dict : gmap string clip_labels) (hw hs : bool)
    (hf : h5.file V) :
  read_metadata (metadata_path dataset_dir data_type
                   (get_relative_path_no_extension data_type)) = Ok (dict, hw, hs) →
  run' dataset_dir workspace data_type mini_data = Ok hf →
  let names := item_names shuffle dict mini_data in
  let relative_name := get_relative_path_no_extension data_type in
  h5.audio_name hf = S64 <$> names ∧
  h5.video_name hf = S64 <$> sorted (replace_wav_avi <$> dict_keys dict) ∧
  row_shape (h5.feature hf) = [config.frames_num cfg; config.mel_bins cfg] ∧
  row_shape (h5.video_feature hf)
    = [config.video_feature_dim cfg; config.video_feature_dim cfg;
       config.video_fps cfg; 3] ∧
  Forall2 (λ name frow,
             stored [config.frames_num cfg; config.mel_bins cfg]
               (audio_feature zero logmel_value read_audio cfg (new_LogMelExtractor cfg)
                  (audio_path_of dataset_dir relative_name name)) frow)
          names (rows (h5.feature hf)) ∧
  Forall2 (λ name vrow,
             stored [config.video_feature_dim cfg; config.video_feature_dim cfg;
                     config.video_fps cfg; 3]
               (clip_video_feature zero resize_pixel gray_pixel open_video cfg
                  (video_path_of dataset_dir relative_name name)) vrow)
          names (rows (h5.video_feature hf)).
Proof.
  intros Hmd Hrun names relative_name. rewrite (run_inv _ _ _ _ _ _ _ Hmd) in Hrun.
  apply items_loop_spec in Hrun
    as (Han & Hvn & (frows & vrows & Hf & Hv & Hfs & Hvs) & _ & _); [|done|done| |].
  2:{ intros ->. by intros d [= <-]. }
  2:{ intros ->. by intros d [= <-]. }
  rewrite Han, Hvn, Hf, Hv. simpl. done.
Qed.

(** X12. Row [i] of [weak_target] is the weak target of the labels of the
    [i]-th clip of the run, and row [i] of [strong_target] the strong
    target of its events; each dataset is present exactly when the
    metadata flags it, and has one row per clip. *)
Theorem archive_targets_aligned (dataset_dir workspace data_type : string)
    (mini_data : bool) (dict : gmap string clip_labels) (hw hs : bool)
    (hf : h5.file V) :
  read_metadata (metadata_path dataset_dir data_type
                   (get_relative_path_no_extension data_type)) = Ok (dict, hw, hs) →
  run' dataset_dir workspace data_type mini_data = Ok hf →
  target_rows hw [config.classes_num cfg] (item_names shuffle dict mini_data)
    (clip_weak_target cfg dict) (h5.weak_target hf) ∧
  target_rows hs [config.frames_num cfg; config.classes_num cfg]
    (item_names shuffle dict mini_data)
    (clip_strong_target cfg dict) (h5.strong_target hf).
Proof.
  intros Hmd Hrun.
  destruct (run_targets_appended _ _ _ _ _ _ _ _ Hmd Hrun) as [Hw Hs].
  unfold targets_appended in Hw, Hs. unfold target_rows. split.
  - destruct hw; [|done].
    destruct Hw as (x & new & [= <-] & -> & Hnew). simpl. by eexists.
  - destruct hs; [|done].
    destruct Hs as (x & new & [= <-] & -> & Hnew). simpl. by eexists.
Qed.

(** X13. Every row of a completed archive has the shape its dataset declares:
    [(frames_num, mel_bins)] for [feature],
    [(dim, dim, video_fps, 3)] for [video_feature], [classes_num] for
    [weak_target] and [(frames_num, classes_num)] for [strong_target]. *)
Theorem archive_row_shapes (dataset_dir workspace data_type : string)
    (mini_data : bool) (hf : h5.file V) :
  run' dataset_dir workspace data_type mini_data = Ok hf →
  row_shape (h5.feature hf) = [config.frames_num cfg; config.mel_bins cfg] ∧
  Forall (λ row, shape row = [config.frames_num cfg; config.mel_bins cfg])
         (rows (h5.feature hf)) ∧
  row_shape (h5.video_feature hf)
    = [config.video_feature_dim cfg; config.video_feature_dim cfg;
       config.video_fps cfg; 3] ∧
  Forall (λ row, shape row = [config.video_feature_dim cfg; config.video_feature_dim cfg;
                              config.video_fps cfg; 3])
         (rows (h5.video_feature hf)) ∧
  (∀ d, h5.weak_target hf = Some d →
        Forall (λ t, length t = config.classes_num cfg) (rows d)) ∧
  (∀ d, h5.strong_target hf = Some d →
        Forall (has_shape (config.frames_num cfg) (config.classes_num cfg)) (rows d)).
Proof.
  intros Hrun.
  destruct (read_metadata (metadata_path dataset_dir data_type
              (get_relative_path_no_extension data_type)))
    as [[[dict hw] hs]|e] eqn:Hmd.
  2:{ unfold calculate_feature_for_all_audio_files in Hrun. cbv zeta in Hrun.
      match type of Hrun with
      | ?r ≫= _ = _ =>
          change r with (read_metadata (metadata_path dataset_dir data_type
                           (get_relative_path_no_extension data_type))) in Hrun
      end.
      by rewrite Hmd in Hrun. }
  destruct (run_targets_appended _ _ _ _ _ _ _ _ Hmd Hrun) as [Hw Hs].
  destruct (run_rows _ _ _ _ _ _ _ _ Hmd Hrun) as (_ & _ & Hfs & Hvs & Hf & Hv).
  split_and!; [done| |done| | |].
  - apply Forall_forall. intros row Hrow.
    apply list_elem_of_lookup in Hrow as [i Hi].
    destruct (Forall2_lookup_r _ _ _ _ _ Hf Hi) as (name & _ & Hst).
    by apply stored_shape in Hst.
  - apply Forall_forall. intros row Hrow.
    apply list_elem_of_lookup in Hrow as [i Hi].
    destruct (Forall2_lookup_r _ _ _ _ _ Hv Hi) as (name & _ & Hst).
    by apply stored_shape in Hst.
  - intros d Hd. unfold targets_appended in Hw. destruct hw; [|simpl in Hw; congruence].
    destruct Hw as (x & new & [= <-] & Hx & Hrows). simpl in Hx.
    assert (d = {| row_shape := [config.classes_num cfg]; rows := new |}) as ->
      by congruence.
    apply Forall_forall. intros t Ht.
    apply list_elem_of_lookup in Ht as [i Hi].
    destruct (Forall2_lookup_r _ _ _ _ _ Hrows Hi) as (name & _ & labels & _ & Ht).
    unfold labels_to_target in Ht. apply labels_loop_length in Ht.
    by rewrite length_replicate in Ht.
  - intros d Hd. unfold targets_appended in Hs. destruct hs; [|simpl in Hs; congruence].
    destruct Hs as (x & new & [= <-] & Hx & Hrows). simpl in Hx.
    assert (d = {| row_shape := [config.frames_num cfg; config.classes_num cfg];
                   rows := new |}) as -> by congruence.
    apply Forall_forall. intros t Ht.
    apply list_elem_of_lookup in Ht as [i Hi].
    destruct (Forall2_lookup_r _ _ _ _ _ Hrows Hi) as (name & _ & labels & _ & Ht).
    unfold events_to_target in Ht.
    eapply events_loop_shape; [|exact Ht]. apply has_shape_replicate.
Qed.

Lemma video3d_frames_unreadable (file : video V) (width height depth : nat)
    (color skip : bool) :
  ¬ all_frames_readable file width height depth skip →
  (video3d_frames resize_pixel gray_pixel zero file width height depth color skip).2
  = Raise CvError.
Proof.
  rewrite all_frames_readable_positions. intros Hnot. unfold video3d_frames.
  destruct (read_frames_raise resize_pixel gray_pixel zero width height color _
              (cv2_VideoCapture file) [] eq_refl Hnot) as (cap' & -> & _).
  reflexivity.
Qed.

(** X14. The builder isolates no failure: when one clip of the run cannot be
    processed (unreadable audio, unreadable video frame, or a label outside
    the class table for a requested target), the whole run raises and no
    archive is returned, whatever the other clips are. *)
Theorem builder_aborts_on_failing_clip (dataset_dir workspace data_type : string)
    (mini_data : bool) (dict : gmap string clip_labels) (hw hs : bool)
    (name : string) :
  read_metadata (metadata_path dataset_dir data_type
                   (get_relative_path_no_extension data_type)) = Ok (dict, hw, hs) →
  name ∈ item_names shuffle dict mini_data →
  clip_fails read_audio open_video cfg dict hw hs dataset_dir
    (get_relative_path_no_extension data_type) name →
  ∃ e, run' dataset_dir workspace data_type mini_data = Raise e.
Proof.
  intros Hmd Hname Hfail.
  destruct (run' dataset_dir workspace data_type mini_data) as [hf|e] eqn:Hrun;
    [exfalso|by eexists].
  destruct (run_targets_appended _ _ _ _ _ _ _ _ Hmd Hrun) as [Hw Hs].
  destruct (run_rows _ _ _ _ _ _ _ _ Hmd Hrun) as (_ & _ & _ & _ & Hfs & Hvs).
  apply list_elem_of_lookup in Hname as [i Hi].
  destruct Hfail as [[e He]|[Hvideo|[[-> Hweak]|[-> Hstrong]]]].
  - destruct (Forall2_lookup_l _ _ _ _ _ Hfs Hi) as (frow & _ & v & Hv & _).
    unfold audio_feature in Hv. rewrite He in Hv. discriminate Hv.
  - destruct (Forall2_lookup_l _ _ _ _ _ Hvs Hi) as (vrow & _ & v & Hv & _).
    unfold clip_video_feature in Hv.
    apply (video3d_frames_unreadable _ _ _ _ true true) in Hvideo.
    rewrite Hvideo in Hv. discriminate Hv.
  - destruct Hweak as (labels & s & Hlabels & Hs' & Hnone).
    destruct Hw as (x & new & _ & _ & Hrows).
    destruct (Forall2_lookup_l _ _ _ _ _ Hrows Hi) as (t & _ & labels' & Hl' & Ht).
    assert (labels' = labels) as -> by congruence.
    destruct (labels_loop_unknown (config.lb_to_idx cfg) (weak_labels labels)
                (replicate (config.classes_num cfg) false) s Hs' Hnone) as [e He].
    unfold labels_to_target in Ht. rewrite He in Ht. discriminate Ht.
  - destruct Hstrong as (labels & ev & s & Hlabels & Hev & Hs' & Hnone).
    destruct Hs as (x & new & _ & _ & Hrows).
    destruct (Forall2_lookup_l _ _ _ _ _ Hrows Hi) as (t & _ & labels' & Hl' & Ht).
    assert (labels' = labels) as -> by congruence.
    destruct (events_loop_unknown (config.classes_num cfg)
                (Z.of_nat (config.frames_per_second cfg)) (config.lb_to_idx cfg)
                (strong_labels labels)
                (replicate (config.frames_num cfg)
                   (replicate (config.classes_num cfg) false)) ev s Hev Hs' Hnone)
      as [e He].
    unfold events_to_target in Ht. rewrite He in Ht. discriminate Ht.
Qed.

End ArchiveRunMore.

(** ** The order of the item names *)

Lemma string_compare_trans (s1 s2 s3 : string) :
  String.compare s1 s2 ≠ Gt → String.compare s2 s3 ≠ Gt →
  String.compare s1 s3 ≠ Gt.
Proof.
  revert s2 s3. induction s1 as [|a s1 IH]; intros [|b s2] [|c s3]; simpl; try done.
  unfold Ascii.compare.
  destruct (N.compare_spec (Ascii.N_of_ascii a) (Ascii.N_of_ascii b)) as [Hab|Hab|Hab],
           (N.compare_spec (Ascii.N_of_ascii b) (Ascii.N_of_ascii c)) as [Hbc|Hbc|Hbc],
           (N.compare_spec (Ascii.N_of_ascii a) (Ascii.N_of_ascii c)) as [Hac|Hac|Hac];
    try done; try lia.
  apply IH.
Qed.

Lemma string_le_compare (s1 s2 : string) :
  string_le s1 s2 ↔ String.compare s1 s2 ≠ Gt.
Proof.
  unfold string_le, String.leb. by destruct (String.compare s1 s2).
Qed.

#[global] Instance string_le_transitive : Transitive string_le.
Proof.
  intros s1 s2 s3. rewrite !string_le_compare. apply string_compare_trans.
Qed.

#[global] Instance string_le_antisymm : AntiSymm (=) string_le.
Proof. intros s1 s2. apply String.leb_antisym. Qed.

#[global] Instance string_le_total : Total string_le.
Proof. intros s1 s2. apply String.leb_total. Qed.

Lemma StronglySorted_fmap_on (f : string → string) (l : list string) :
  (∀ a b, a ∈ l → b ∈ l → string_le a b → string_le (f a) (f b)) →
  StronglySorted string_le l → StronglySorted string_le (f <$> l).
Proof.
  intros Hf Hl. induction Hl as [|x l Hl IH Hx]; simpl; constructor.
  - apply IH. intros a b Ha Hb. apply Hf; by apply elem_of_cons; right.
  - apply Forall_fmap, Forall_forall. intros y Hy. simpl.
    rewrite Forall_forall in Hx.
    apply Hf; [apply elem_of_cons; by left|apply elem_of_cons; by right|by apply Hx].
Qed.

Lemma sorted_fmap (f : string → string) (l : list string) :
  (∀ a b, a ∈ l → b ∈ l → string_le a b → string_le (f a) (f b)) →
  sorted (f <$> l) = f <$> sorted l.
Proof.
  intros Hf. unfold sorted.
  apply (StronglySorted_unique string_le).
  - apply StronglySorted_merge_sort; apply _.
  - apply StronglySorted_fmap_on.
    + intros a b Ha Hb. apply Hf.
      * by rewrite merge_sort_Permutation in Ha.
      * by rewrite merge_sort_Permutation in Hb.
    + apply StronglySorted_merge_sort; apply _.
  - rewrite !merge_sort_Permutation. done.
Qed.

Section ArchiveNames.

Context {V : Type}.
Variable zero : V.
Variable resize_pixel : image V → nat → nat → nat → nat → nat → V.
Variable gray_pixel : image V → nat → nat → V.
Variable logmel_value : LogMelExtractor → list V → nat → nat → V.
Variable read_audio : path → nat → result (list V).
Variable open_video : path → video V.
Variable read_metadata : path → result (gmap string clip_labels * bool * bool).
Variable get_relative_path_no_extension : string → string.
Variable shuffle : list string → list string.
Variable cfg : config.t.

Local Abbreviation run' :=
  (calculate_feature_for_all_audio_files zero resize_pixel gray_pixel logmel_value
     read_audio open_video read_metadata get_relative_path_no_extension shuffle cfg).

Lemma run_names (dataset_dir workspace data_type : string) (mini_data : bool)
    (dict : gmap string clip_labels) (hw hs : bool) (hf : h5.file V) :
  read_metadata (metadata_path dataset_dir data_type
                   (get_relative_path_no_extension data_type)) = Ok (dict, hw, hs) →
  run' dataset_dir workspace data_type mini_data = Ok hf →
  h5.audio_name hf = S64 <$> item_names shuffle dict mini_data ∧
  h5.video_name hf = S64 <$> sorted (replace_wav_avi <$> dict_keys dict) ∧
  length (rows (h5.feature hf)) = length (item_names shuffle dict mini_data) ∧
  length (rows (h5.video_feature hf)) = length (item_names shuffle dict mini_data).
Proof.
  intros Hmd Hrun.
  destruct (run_rows zero resize_pixel gray_pixel logmel_value read_audio open_video
              read_metadata get_relative_path_no_extension shuffle cfg
              _ _ _ _ _ _ _ _ Hmd Hrun) as (Han & Hvn & _ & _ & Hfs & Hvs).
  apply Forall2_length in Hfs. apply Forall2_length in Hvs. done.
Qed.

(** X15. When replacing the extension keeps the order of the clip names of the
    metadata (and [mini_data] is off), the two name datasets are aligned:
    [video_name] is [audio_name] with the extension replaced, entry by
    entry, up to the 64 bytes the datasets keep of a name. *)
Theorem video_names_follow_audio_names (dataset_dir workspace data_type : string)
    (dict : gmap string clip_labels) (hw hs : bool) (hf : h5.file V) :
  read_metadata (metadata_path dataset_dir data_type
                   (get_relative_path_no_extension data_type)) = Ok (dict, hw, hs) →
  run' dataset_dir workspace data_type false = Ok hf →
  order_preserved (dict_keys dict) →
  h5.audio_name hf = S64 <$> sorted (dict_keys dict) ∧
  h5.video_name hf = (λ name, S64 (replace_wav_avi name)) <$> sorted (dict_keys dict).
Proof.
  intros Hmd Hrun Hord.
  destruct (run_names _ _ _ _ _ _ _ _ Hmd Hrun) as (Han & Hvn & _).
  split; [done|]. rewrite Hvn, (sorted_fmap replace_wav_avi _ Hord).
  by rewrite <- list_fmap_compose.
Qed.

(** X16. In the debugging mode [mini_data] the clips are cut down to ten after
    the shuffle, but [video_name] is not: it keeps one entry per clip of
    the metadata, so with more than ten clips it is longer than
    [audio_name] and the feature datasets. *)
Theorem mini_data_keeps_all_video_names (dataset_dir workspace data_type : string)
    (dict : gmap string clip_labels) (hw hs : bool) (hf : h5.file V) :
  (∀ l, length (shuffle l) = length l) →
  read_metadata (metadata_path dataset_dir data_type
                   (get_relative_path_no_extension data_type)) = Ok (dict, hw, hs) →
  run' dataset_dir workspace data_type true = Ok hf →
  length (h5.audio_name hf) = Nat.min 10 (length (dict_keys dict)) ∧
  length (rows (h5.feature hf)) = Nat.min 10 (length (dict_keys dict)) ∧
  length (rows (h5.video_feature hf)) = Nat.min 10 (length (dict_keys dict)) ∧
  length (h5.video_name hf) = length (dict_keys dict).
Proof.
  intros Hshuffle Hmd Hrun.
  destruct (run_names _ _ _ _ _ _ _ _ Hmd Hrun) as (Han & Hvn & Hf & Hv).
  assert (Hlen : length (item_names shuffle dict true)
                 = Nat.min 10 (length (dict_keys dict))).
  { unfold item_names. by rewrite length_take, Hshuffle, length_sorted. }
  rewrite Han, Hvn, Hf, Hv, !length_fmap, length_sorted, length_fmap, Hlen. done.
Qed.

End ArchiveNames.

(** ** Runs of the builder on sample metadata *)

Lemma archive_rows_aligned_witness :
  ∃ md_path dict hw hs,
    demo_read_metadata md_path = Ok (dict, hw, hs) ∧
    let names := item_names demo_shuffle dict false in
    let relative_name := demo_relative_path "train_synthetic" in
    length (h5.audio_name demo_run_archive) = length names ∧
    length (rows (h5.feature demo_run_archive)) = length names ∧
    length (rows (h5.video_feature demo_run_archive)) = length names ∧
    leading_dim (h5.weak_target demo_run_archive) (length names) ∧
    leading_dim (h5.strong_target demo_run_archive) (length names) ∧
    h5.video_name demo_run_archive
      = S64 <$> sorted (replace_wav_avi <$> dict_keys dict) ∧
    ∀ i name, names !! i = Some name →
      h5.audio_name demo_run_archive !! i = Some (S64 name) ∧
      ∃ frow vrow,
        rows (h5.feature demo_run_archive) !! i = Some frow ∧
        stored [config.frames_num demo_cfg; config.mel_bins demo_cfg]
          (audio_feature 0%Z demo_logmel_value demo_read_audio demo_cfg
             (new_LogMelExtractor demo_cfg)
             (["files"; "audio"; relative_name] ++ [name])) frow ∧
        rows (h5.video_feature demo_run_archive) !! i = Some vrow ∧
        stored [config.video_feature_dim demo_cfg; config.video_feature_dim demo_cfg;
                config.video_fps demo_cfg; 3]
          (clip_video_feature 0%Z demo_resize_pixel demo_gray_pixel demo_open_video
             demo_cfg
             (["files"; "video"; relative_name] ++ [replace_wav_avi name])) vrow.
Proof.
  apply (archive_rows_aligned 0%Z demo_resize_pixel demo_gray_pixel demo_logmel_value
           demo_read_audio demo_open_video demo_read_metadata demo_relative_path
           demo_shuffle demo_cfg "files" "files" "train_synthetic" false
           demo_run_archive).
  vm_compute. reflexivity.
Defined.

Lemma archive_targets_aligned_witness :
  target_rows true [config.classes_num demo_cfg]
    (item_names demo_shuffle demo_metadata false)
    (clip_weak_target demo_cfg demo_metadata) (h5.weak_target demo_run_archive) ∧
  target_rows true [config.frames_num demo_cfg; config.classes_num demo_cfg]
    (item_names demo_shuffle demo_metadata false)
    (clip_strong_target demo_cfg demo_metadata) (h5.strong_target demo_run_archive).
Proof.
  apply (archive_targets_aligned 0%Z demo_resize_pixel demo_gray_pixel demo_logmel_value
           demo_read_audio demo_open_video demo_read_metadata demo_relative_path
           demo_shuffle demo_cfg "files" "files" "train_synthetic" false
           demo_metadata true true demo_run_archive).
  - reflexivity.
  - vm_compute. reflexivity.
Defined.

Lemma archive_row_shapes_witness :
  row_shape (h5.feature demo_run_archive)
    = [config.frames_num demo_cfg; config.mel_bins demo_cfg] ∧
  Forall (λ row, shape row = [config.frames_num demo_cfg; config.mel_bins demo_cfg])
         (rows (h5.feature demo_run_archive)) ∧
  row_shape (h5.video_feature demo_run_archive)
    = [config.video_feature_dim demo_cfg; config.video_feature_dim demo_cfg;
       config.video_fps demo_cfg; 3] ∧
  Forall (λ row, shape row
                 = [config.video_feature_dim demo_cfg; config.video_feature_dim demo_cfg;
                    config.video_fps demo_cfg; 3])
         (rows (h5.video_feature demo_run_archive)) ∧
  (∀ d, h5.weak_target demo_run_archive = Some d →
        Forall (λ t, length t = config.classes_num demo_cfg) (rows d)) ∧
  (∀ d, h5.strong_target demo_run_archive = Some d →
        Forall (has_shape (config.frames_num demo_cfg) (config.classes_num demo_cfg))
               (rows d)).
Proof.
  apply (archive_row_shapes 0%Z demo_resize_pixel demo_gray_pixel demo_logmel_value
           demo_read_audio demo_open_video demo_read_metadata demo_relative_path
           demo_shuffle demo_cfg "files" "files" "train_synthetic" false
           demo_run_archive).
  vm_compute. reflexivity.
Defined.

Lemma builder_aborts_on_failing_clip_witness :
  ∃ e, calculate_feature_for_all_audio_files 0%Z demo_resize_pixel demo_gray_pixel
         demo_logmel_value demo_read_audio demo_open_video ghost_read_metadata
         demo_relative_path demo_shuffle demo_cfg
         "files" "files" "train_synthetic" false = Raise e.
Proof.
  apply (builder_aborts_on_failing_clip 0%Z demo_resize_pixel demo_gray_pixel
           demo_logmel_value demo_read_audio demo_open_video ghost_read_metadata
           demo_relative_path demo_shuffle demo_cfg "files" "files" "train_synthetic"
           false ghost_metadata true true "ghost.wav").
  - reflexivity.
  - vm_compute. apply elem_of_cons; right. apply elem_of_cons; right.
    apply elem_of_cons; by left.
  - right. left. unfold all_frames_readable. vm_compute. intros H.
    apply Forall_cons in H as [(_ & _ & [x Hx]) _]. discriminate Hx.
Defined.

Lemma plain_clips_order_preserved : order_preserved (dict_keys plain_clips).
Proof.
  assert (Hkeys : dict_keys plain_clips = ["a.wav"; "b.wav"])
    by (vm_compute; reflexivity).
  rewrite Hkeys. intros a b Ha Hb Hle.
  apply elem_of_cons in Ha as [->|Ha]; [|apply list_elem_of_singleton in Ha as ->];
    (apply elem_of_cons in Hb as [->|Hb]; [|apply list_elem_of_singleton in Hb as ->]);
    first [reflexivity | vm_compute in Hle; discriminate Hle].
Qed.

Lemma video_names_follow_audio_names_witness :
  h5.audio_name plain_archive = S64 <$> sorted (dict_keys plain_clips) ∧
  h5.video_name plain_archive
    = (λ name, S64 (replace_wav_avi name)) <$> sorted (dict_keys plain_clips).
Proof.
  apply (video_names_follow_audio_names 0%Z demo_resize_pixel demo_gray_pixel
           demo_logmel_value demo_read_audio any_open_video plain_read_metadata
           demo_relative_path demo_shuffle demo_cfg "files" "files" "train_synthetic"
           plain_clips true true plain_archive).
  - reflexivity.
  - vm_compute. reflexivity.
  - exact plain_clips_order_preserved.
Defined.

Lemma mini_data_keeps_all_video_names_witness :
  length (h5.audio_name (eleven_archive true))
    = Nat.min 10 (length (dict_keys eleven_clips)) ∧
  length (rows (h5.feature (eleven_archive true)))
    = Nat.min 10 (length (dict_keys eleven_clips)) ∧
  length (rows (h5.video_feature (eleven_archive true)))
    = Nat.min 10 (length (dict_keys eleven_clips)) ∧
  length (h5.video_name (eleven_archive true)) = length (dict_keys eleven_clips).
Proof.
  apply (mini_data_keeps_all_video_names 0%Z demo_resize_pixel demo_gray_pixel
           demo_logmel_value demo_read_audio any_open_video eleven_read_metadata
           demo_relative_path demo_shuffle demo_cfg "files" "files" "train_synthetic"
           eleven_clips true false (eleven_archive true)).
  - intros l. apply length_reverse.
  - reflexivity.
  - vm_compute. reflexivity.
Defined.

(** With eleven clips the debugging run stores ten clips and eleven video
    names. *)
Example eleven_clips_counts :
  length (h5.audio_name (eleven_archive true)) = 10 ∧
  length (h5.video_name (eleven_archive true)) = 11.
Proof. vm_compute. split; reflexivity. Qed.

(** * Further properties of the scalar reducer *)

Section ScalarReducerMore.

Context {V : Type}.
Variable zero : V.
Variable np_mean : list V → V.
Variable np_std : list V → V.
Variable get_relative_path_no_extension : string → string.
Variable cfg : config.t.

Local Abbreviation calculate_scalar' :=
  (calculate_scalar zero np_mean np_std get_relative_path_no_extension cfg).

(** X17. When there is no feature archive at the feature path,
    [calculate_scalar] raises [OSError] for that path: the folder of the
    scalar file has been made by then, but no file is written or changed. *)
Theorem calculate_scalar_missing_archive (workspace : string) (mini_data : bool)
    (w : world V) :
  let relative_name := get_relative_path_no_extension "train_synthetic" in
  let fp := feature_path cfg workspace mini_data relative_name in
  let sp := scalar_path cfg workspace mini_data relative_name in
  files w !! fp = None →
  calculate_scalar' workspace mini_data "train_synthetic" w
  = ({| files := files w;
        folders := {[dirname sp]} ∪ folders w;
        io_log := io_log w ++ [MakeFolder (dirname sp); OpenRead fp] |},
     Raise (OSError fp)).
Proof.
  intros relative_name fp sp Hfp. unfold calculate_scalar. simpl negb. cbv iota.
  fold relative_name. fold fp. fold sp.
  unfold h5_open_read, create_folder. simpl files. rewrite Hfp. simpl.
  by rewrite <- app_assoc.
Qed.

(** X18. Whatever the split and the state of the disk, and whether it succeeds
    or not, [calculate_scalar] leaves every file other than the scalar file
    as it was; in particular it never changes the feature archive. *)
Theorem calculate_scalar_only_writes_scalar_path (workspace : string)
    (mini_data : bool) (data_type : string) (w : world V) (p : path) :
  p ≠ scalar_path cfg workspace mini_data (get_relative_path_no_extension data_type) →
  files (calculate_scalar' workspace mini_data data_type w).1 !! p = files w !! p.
Proof.
  intros Hp. unfold calculate_scalar.
  destruct (negb (String.eqb data_type "train_synthetic")); [done|].
  unfold h5_open_read, create_folder. simpl files.
  destruct (files w !! feature_path cfg workspace mini_data
              (get_relative_path_no_extension data_type)) as [[hf|sf]|]; simpl; [|done..].
  by rewrite lookup_insert_ne.
Qed.

End ScalarReducerMore.

Lemma calculate_scalar_missing_archive_witness :
  let relative_name := demo_relative_path "train_synthetic" in
  let fp := feature_path demo_cfg "files" true relative_name in
  let sp := scalar_path demo_cfg "files" true relative_name in
  calculate_scalar 0%Z demo_np_mean demo_np_std demo_relative_path demo_cfg
    "files" true "train_synthetic" demo_world
  = ({| files := files demo_world;
        folders := {[dirname sp]} ∪ folders demo_world;
        io_log := io_log demo_world ++ [MakeFolder (dirname sp); OpenRead fp] |},
     Raise (OSError fp)).
Proof.
  apply (calculate_scalar_missing_archive 0%Z demo_np_mean demo_np_std
           demo_relative_path demo_cfg "files" true demo_world).
  unfold demo_world. simpl files. apply lookup_singleton_ne.
  unfold feature_path. intros Heq. injection Heq as Heq. vm_compute in Heq.
  discriminate Heq.
Defined.

Lemma calculate_scalar_only_writes_scalar_path_witness :
  files (calculate_scalar 0%Z demo_np_mean demo_np_std demo_relative_path demo_cfg
           "files" false "train_synthetic" demo_world).1
    !! feature_path demo_cfg "files" false "train_synthetic"
  = files demo_world !! feature_path demo_cfg "files" false "train_synthetic".
Proof.
  apply (calculate_scalar_only_writes_scalar_path 0%Z demo_np_mean demo_np_std
           demo_relative_path demo_cfg "files" false "train_synthetic" demo_world
           (feature_path demo_cfg "files" false "train_synthetic")).
  unfold feature_path, scalar_path. intros Heq. discriminate Heq.
Defined.

(** * The builder followed by the reducer *)

Section BuiltThenReduced.

Context {V : Type}.
Variable zero : V.
Variable resize_pixel : image V → nat → nat → nat → nat → nat → V.
Variable gray_pixel : image V → nat → nat → V.
Variable logmel_value : LogMelExtractor → list V → nat → nat → V.
Variable read_audio : path → nat → result (list V).
Variable open_video : path → video V.
Variable read_metadata : path → result (gmap string clip_labels * bool * bool).
Variable get_relative_path_no_extension : string → string.
Variable shuffle : list string → list string.
Variable np_mean : list V → V.
Variable np_std : list V → V.
Variable cfg : config.t.
Variable unfinished : string → string → string → bool → disk_file V.

Local Abbreviation run' :=
  (calculate_feature_for_all_audio_files zero resize_pixel gray_pixel logmel_value
     read_audio open_video read_metadata get_relative_path_no_extension shuffle cfg).
Local Abbreviation run_on_disk' :=
  (calculate_feature_for_all_audio_files_on_disk zero resize_pixel gray_pixel
     logmel_value read_audio open_video read_metadata get_relative_path_no_extension
     shuffle cfg unfinished).
Local Abbreviation calculate_scalar' :=
  (calculate_scalar zero np_mean np_std get_relative_path_no_extension cfg).

Lemma run_metadata (dataset_dir workspace data_type : string) (mini_data : bool)
    (hf : h5.file V) :
  run' dataset_dir workspace data_type mini_data = Ok hf →
  ∃ dict hw hs,
    read_metadata (metadata_path dataset_dir data_type
                     (get_relative_path_no_extension data_type)) = Ok (dict, hw, hs).
Proof.
  intros Hrun. unfold calculate_feature_for_all_audio_files in Hrun. cbv zeta in Hrun.
  apply bind_Ok in Hrun as ([[dict hw] hs] & Hmd & _). by exists dict, hw, hs.
Qed.

(** A run on the disk completes exactly when the loop builds an archive,
    and then that archive is the file at the feature path. *)
Lemma run_on_disk_Ok (dataset_dir workspace data_type : string) (mini_data : bool)
    (w w1 : world V) :
  run_on_disk' dataset_dir workspace data_type mini_data w = (w1, Ok ()) ↔
  ∃ hf, run' dataset_dir workspace data_type mini_data = Ok hf ∧
        let fp := feature_path cfg workspace mini_data
                    (get_relative_path_no_extension data_type) in
        w1 = h5_write fp (FeatureArchive hf) (create_folder (dirname fp) w).
Proof.
  unfold calculate_feature_for_all_audio_files_on_disk. cbv zeta.
  destruct (read_metadata (metadata_path dataset_dir data_type
              (get_relative_path_no_extension data_type)))
    as [[[dict hw] hs]|e] eqn:Hmd.
  - rewrite (run_inv zero resize_pixel gray_pixel logmel_value read_audio open_video
               read_metadata get_relative_path_no_extension shuffle cfg
               dataset_dir workspace data_type mini_data dict hw hs Hmd).
    unfold item_names.
    destruct (items_loop _ _ _ _ _ _ _ _ _ _ _ _ _ _ _ _) as [hf|e].
    + split.
      * intros [= <-]. by exists hf.
      * intros (hf' & [= <-] & ->). done.
    + split; [done|]. by intros (hf' & ? & _).
  - split; [done|]. intros (hf & Hrun & _).
    unfold calculate_feature_for_all_audio_files in Hrun. cbv zeta in Hrun.
    match type of Hrun with
    | ?r ≫= _ = _ =>
        change r with (read_metadata (metadata_path dataset_dir data_type
                         (get_relative_path_no_extension data_type))) in Hrun
    end.
    by rewrite Hmd in Hrun.
Qed.

(** X19. The two entry points fit together. After a run of the builder on
    the disk that completes for the split ['train_synthetic'], the file at
    the feature path of [workspace] is the archive the loop built, and its
    folder exists; [calculate_scalar] for the same [workspace] and
    [mini_data] then opens that file and succeeds, leaves it unchanged, and
    writes at the scalar path the statistics of the two arrays it read:
    one row per processed clip, of shapes [(N, frames_num, mel_bins)] and
    [(N, dim, dim, video_fps, 3)]. *)
Theorem scalar_of_built_archive (dataset_dir workspace : string) (mini_data : bool)
    (w w1 : world V) :
  run_on_disk' dataset_dir workspace "train_synthetic" mini_data w = (w1, Ok ()) →
  let relative_name := get_relative_path_no_extension "train_synthetic" in
  let fp := feature_path cfg workspace mini_data relative_name in
  let sp := scalar_path cfg workspace mini_data relative_name in
  ∃ hf dict hw hs w2,
    run' dataset_dir workspace "train_synthetic" mini_data = Ok hf ∧
    read_metadata (metadata_path dataset_dir "train_synthetic" relative_name)
      = Ok (dict, hw, hs) ∧
    files w1 !! fp = Some (FeatureArchive hf) ∧
    dirname fp ∈ folders w1 ∧
    (∀ p, p ≠ fp → files w1 !! p = files w !! p) ∧
    calculate_scalar' workspace mini_data "train_synthetic" w1 = (w2, Ok ()) ∧
    io_log w2 = io_log w ++ [MakeFolder (dirname fp); OpenWrite fp;
                             MakeFolder (dirname sp); OpenRead fp; OpenWrite sp] ∧
    files w2 !! fp = Some (FeatureArchive hf) ∧
    let audio_features := ds_read zero (h5.feature hf) in
    let video_features := ds_read zero (h5.video_feature hf) in
    let N := length (item_names shuffle dict mini_data) in
    shape audio_features = [N; config.frames_num cfg; config.mel_bins cfg] ∧
    shape video_features
      = [N; config.video_feature_dim cfg; config.video_feature_dim cfg;
         config.video_fps cfg; 3] ∧
    files w2 !! sp
      = Some (ScalarArchive
          {| scalar.audio :=
               {| scalar.mean := (calculate_scalar_of_tensor np_mean np_std audio_features).1;
                  scalar.std := (calculate_scalar_of_tensor np_mean np_std audio_features).2 |};
             scalar.video :=
               {| scalar.mean := (calculate_scalar_of_tensor np_mean np_std video_features).1;
                  scalar.std := (calculate_scalar_of_tensor np_mean np_std video_features).2 |}
          |}).
Proof.
  intros Hdisk relative_name fp sp.
  apply run_on_disk_Ok in Hdisk as (hf & Hrun & Hw1). cbv zeta in Hw1.
  fold relative_name in Hw1. fold fp in Hw1.
  destruct (run_metadata _ _ _ _ _ Hrun) as (dict & hw & hs & Hmd).
  destruct (run_rows zero resize_pixel gray_pixel logmel_value read_audio open_video
              read_metadata get_relative_path_no_extension shuffle cfg
              _ _ _ _ _ _ _ _ Hmd Hrun) as (_ & _ & Hfs & Hvs & Hf & Hv).
  assert (Hfp : files w1 !! fp = Some (FeatureArchive hf)).
  { rewrite Hw1. unfold h5_write. simpl files. by rewrite lookup_insert_eq. }
  destruct (calculate_scalar_run zero np_mean np_std get_relative_path_no_extension cfg
              workspace mini_data w1 hf Hfp) as (w2 & Hcalc & Hkeep & Hsp).
  exists hf, dict, hw, hs, w2. split_and!; [done|done|done| | |done| |done|].
  - rewrite Hw1. unfold h5_write, create_folder. simpl folders. set_solver.
  - intros p Hp. rewrite Hw1. unfold h5_write, create_folder. simpl files.
    by rewrite lookup_insert_ne.
  - pose proof Hcalc as Hlog. unfold calculate_scalar in Hlog.
    simpl negb in Hlog. cbv iota in Hlog.
    fold relative_name in Hlog. fold fp in Hlog. fold sp in Hlog.
    unfold h5_open_read, create_folder in Hlog. simpl files in Hlog.
    rewrite Hfp in Hlog. unfold calculate_scalar_of_tensor in Hlog.
    injection Hlog as <-. unfold h5_write. simpl io_log.
    rewrite Hw1. unfold h5_write, create_folder. simpl io_log.
    by rewrite <- !app_assoc.
  - cbv zeta. split_and!.
    + unfold ds_read. cbn [shape]. rewrite Hfs.
      by rewrite <- (Forall2_length _ _ _ Hf).
    + unfold ds_read. cbn [shape]. rewrite Hvs.
      by rewrite <- (Forall2_length _ _ _ Hv).
    + exact Hsp.
Qed.

End BuiltThenReduced.

Lemma scalar_of_built_archive_witness :
  let fp := feature_path demo_cfg "files" false (demo_relative_path "train_synthetic") in
  let sp := scalar_path demo_cfg "files" false (demo_relative_path "train_synthetic") in
  let w1 := (calculate_feature_for_all_audio_files_on_disk 0%Z demo_resize_pixel
               demo_gray_pixel demo_logmel_value demo_read_audio demo_open_video
               demo_read_metadata demo_relative_path demo_shuffle demo_cfg
               demo_unfinished "files" "files" "train_synthetic" false empty_world).1 in
  ∃ hf dict hw hs w2,
    calculate_feature_for_all_audio_files 0%Z demo_resize_pixel demo_gray_pixel
      demo_logmel_value demo_read_audio demo_open_video demo_read_metadata
      demo_relative_path demo_shuffle demo_cfg
      "files" "files" "train_synthetic" false = Ok hf ∧
    demo_read_metadata (metadata_path "files" "train_synthetic"
                          (demo_relative_path "train_synthetic")) = Ok (dict, hw, hs) ∧
    files w1 !! fp = Some (FeatureArchive hf) ∧
    dirname fp ∈ folders w1 ∧
    (∀ p, p ≠ fp → files w1 !! p = files empty_world !! p) ∧
    calculate_scalar 0%Z demo_np_mean demo_np_std demo_relative_path demo_cfg
      "files" false "train_synthetic" w1 = (w2, Ok ()) ∧
    io_log w2 = io_log empty_world ++ [MakeFolder (dirname fp); OpenWrite fp;
                                       MakeFolder (dirname sp); OpenRead fp; OpenWrite sp] ∧
    files w2 !! fp = Some (FeatureArchive hf) ∧
    let audio_features := ds_read 0%Z (h5.feature hf) in
    let video_features := ds_read 0%Z (h5.video_feature hf) in
    let N := length (item_names demo_shuffle dict false) in
    shape audio_features = [N; config.frames_num demo_cfg; config.mel_bins demo_cfg] ∧
    shape video_features
      = [N; config.video_feature_dim demo_cfg; config.video_feature_dim demo_cfg;
         config.video_fps demo_cfg; 3] ∧
    files w2 !! sp
      = Some (ScalarArchive
          {| scalar.audio :=
               {| scalar.mean :=
                    (calculate_scalar_of_tensor demo_np_mean demo_np_std audio_features).1;
                  scalar.std :=
                    (calculate_scalar_of_tensor demo_np_mean demo_np_std audio_features).2 |};
             scalar.video :=
               {| scalar.mean :=
                    (calculate_scalar_of_tensor demo_np_mean demo_np_std video_features).1;
                  scalar.std :=
                    (calculate_scalar_of_tensor demo_np_mean demo_np_std video_features).2 |}
          |}).
Proof.
  intros fp sp w1.
  apply (scalar_of_built_archive 0%Z demo_resize_pixel demo_gray_pixel demo_logmel_value
           demo_read_audio demo_open_video demo_read_metadata demo_relative_path
           demo_shuffle demo_np_mean demo_np_std demo_cfg demo_unfinished
           "files" "files" false empty_world w1).
  unfold w1. vm_compute. reflexivity.
Defined.

